(** * mdtools.openmm.reporter: the batching reporter [OfflineReporter]

    A shallow embedding of [src/mdtools/openmm/reporter.py].  The reporter is
    a Python object whose attributes are mutated by [report]; here it is a
    record threaded through a state-and-exception monad in which, as in
    Python, the mutations made before an exception is raised stay visible
    after it.  The HDF5 files live in a finite map from paths to contents. *)

From Stdlib Require Import ZArith Lia.
From stdpp Require Import gmap strings list fin_maps.

Local Open Scope Z_scope.

(** ** Exceptions and I/O operations *)

(** The operations [report] performs on the output container, in the order
    of the [with h5py.File(...)] block. *)
Inductive io_op : Type :=
| OpOpen | OpWriteContactMap | OpWritePointCloud | OpWriteRmsd
| OpWriteFractionOfContacts | OpClose.

Global Instance io_op_eq_dec : EqDecision io_op.
Proof. solve_decision. Defined.

(** Python exceptions that the modelled code can raise.  [OSError] is the
    container write failure (h5py raises [OSError], of which [IOError] is
    an alias); it records the operation that failed. *)
Inductive exn : Type :=
| ValueError (msg : string)
| AttributeError (attr : string)
| TypeError
| IndexError
| ZeroDivisionError
| AssertionError
| OSError (op : io_op).

Global Instance exn_eq_dec : EqDecision exn.
Proof. solve_decision. Defined.

(** What a call into MDAnalysis or numpy can raise: any exception but the
    failure of a container operation, which only h5py raises. *)
Inductive lib_exn : Type :=
| LibValueError (msg : string)
| LibAttributeError (attr : string)
| LibTypeError
| LibIndexError
| LibZeroDivisionError
| LibAssertionError.

Definition exn_of_lib (e : lib_exn) : exn :=
  match e with
  | LibValueError msg => ValueError msg
  | LibAttributeError attr => AttributeError attr
  | LibTypeError => TypeError
  | LibIndexError => IndexError
  | LibZeroDivisionError => ZeroDivisionError
  | LibAssertionError => AssertionError
  end.

(** ** The exception monad of the constructor *)

Definition Exc (A : Type) : Type := (exn + A)%type.

Global Instance Exc_ret : MRet Exc := λ A x, inr x.
Global Instance Exc_bind : MBind Exc := λ A B f m,
  match m with inl e => inl e | inr x => f x end.

(** ** External libraries

    numpy floats, simtk quantities, MDAnalysis and
    [mdtools.analysis.order_parameters] are outside the file; the reporter
    only moves their values around.  They are an interface here.  The
    operations on an atom group and [rms.rmsd] return a result or the
    exception they raise. *)

Definition Vec3 (A : Type) : Type := (A * A * A)%type.

(** A contact matrix after [tocoo()]: the (row, column) index pairs of the
    stored entries, in storage order. *)
Abbreviation coo_matrix := (list (Z * Z)).

Class MDLibs : Type := {
  (** numpy floating point scalars *)
  float : Type;
  (** a [simtk.unit] length *)
  quantity : Type;
  (** an [MDAnalysis] atom group *)
  AtomGroup : Type;
  (** the literal [8.0] *)
  float_8_0 : float;
  (** [q.value_in_unit(u.angstrom)] *)
  value_in_unit_angstrom : quantity → float;
  (** [x.astype(np.float32)] *)
  astype_float32 : float → float;
  (** [MDAnalysis.Universe(file).select_atoms(selection)] *)
  Universe_select_atoms : string → string → Exc AtomGroup;
  (** [atoms.positions.copy()] *)
  positions_copy : AtomGroup → list (Vec3 float);
  (** [distances.contact_matrix(positions, threshold, returntype="sparse")] *)
  contact_matrix : list (Vec3 float) → float → coo_matrix;
  (** [rms.rmsd(a, b, superposition=True)]; it raises, for one, when the
      two structures differ in their number of atoms *)
  rms_rmsd : list (Vec3 float) → list (Vec3 float) → lib_exn + float;
  (** [mdtools.analysis.order_parameters.fraction_of_contacts] *)
  fraction_of_contacts : coo_matrix → coo_matrix → float;
  (** The operations of the wrap closure on an atom group.  The ones that
      mutate the group return it as they left it, also when they raise. *)
  (** [atoms.positions = positions] *)
  AtomGroup_set_positions :
    list (Vec3 float) → AtomGroup → AtomGroup * (lib_exn + unit);
  (** [atoms.segments[0].atoms] *)
  AtomGroup_segments_0_atoms : AtomGroup → lib_exn + AtomGroup;
  (** [atoms.dimensions[0]] *)
  AtomGroup_dimensions_0 : AtomGroup → lib_exn + float;
  (** [atoms.center_of_mass()] *)
  AtomGroup_center_of_mass : AtomGroup → lib_exn + Vec3 float;
  (** [atoms.translate(t)] *)
  AtomGroup_translate : Vec3 float → AtomGroup → AtomGroup * (lib_exn + unit);
  (** [atoms.wrap()] *)
  AtomGroup_wrap : AtomGroup → AtomGroup * (lib_exn + unit);
  (** [atoms.positions] *)
  AtomGroup_positions : AtomGroup → lib_exn + list (Vec3 float);
  (** [x / 2] *)
  float_div_2 : float → float;
  (** [x - y] *)
  float_sub : float → float → float;
}.

(** One frame of selected atoms, shape [(m, 3)]. *)
Abbreviation frame := (list (Vec3 float)).

(** ** numpy arrays of the point cloud *)

(** A three-dimensional array: its shape and its entries as nested lists. *)
Record ndarray3 `{MDLibs} : Type := {
  shape : nat * nat * nat;
  data : list (list (list float));
}.

Definition vec3_to_list {A} (v : Vec3 A) : list A :=
  let '(x, y, z) := v in [x; y; z].

(** [np.array(frames)] as far as [np.transpose(_, [0, 2, 1])] needs it: the
    frames must form a rectangular [(n, m, 3)] block.  An empty list is a
    one-dimensional array and frames of different lengths do not form a
    three-dimensional one; both make the transposition raise [ValueError]. *)
Definition np_array3 `{MDLibs} (frames : list frame) : Exc ndarray3 :=
  match frames with
  | [] => inl (ValueError "axes don't match array")
  | f0 :: _ =>
      if forallb (λ f, Nat.eqb (length f) (length f0)) frames
      then inr {| shape := (length frames, length f0, 3%nat);
                  data := map (map vec3_to_list) frames |}
      else inl (ValueError "inhomogeneous shape")
  end.

(** Column [j] of a matrix given by its rows. *)
Definition column {A} (j : nat) (rows : list (list A)) : list A :=
  flat_map (λ r, match r !! j with Some v => [v] | None => [] end) rows.

Definition transpose_2d {A} (ncols : nat) (rows : list (list A)) : list (list A) :=
  map (λ j, column j rows) (seq 0 ncols).

(** [np.transpose(a, [0, 2, 1])] *)
Definition np_transpose_021 `{MDLibs} (a : ndarray3) : ndarray3 :=
  let '(d0, d1, d2) := shape a in
  {| shape := (d0, d2, d1); data := map (transpose_2d d2) (data a) |}.

(** Entry [a[f, c, k]]. *)
Definition entry `{MDLibs} (a : ndarray3) (f c k : nat) : option float :=
  blk ← data a !! f; row ← blk !! c; row !! k.

(** [self._point_cloud_data]: a Python list of frames while a batch is
    collected; the flush rebinds the attribute to the transposed array. *)
Inductive pc_buffer `{MDLibs} : Type :=
| PcList (frames : list frame)
| PcArray (a : ndarray3).

(** ** The output container *)

(** A dataset is what one writer call of [mdtools.writers] was handed. *)
Inductive dataset `{MDLibs} : Type :=
| DsContactMap (rows cols : list (list Z))
| DsPointCloud (a : ndarray3)
| DsRmsd (values : list float)
| DsFractionOfContacts (values : list float).

(** An HDF5 file: the datasets written to it, oldest first. *)
Definition h5_file `{MDLibs} : Type := list dataset.

(** ** The simulation handles *)

Record Atom : Type := { index : nat; name : string }.

Record Simulation : Type := {
  currentStep : Z;
  (** [simulation.topology.atoms()] *)
  topology_atoms : list Atom;
}.

Record State `{MDLibs} : Type := {
  (** [state.getPositions()] *)
  getPositions : list (Vec3 quantity);
}.

(** ** The reporter object *)

(** The attributes of an [OfflineReporter].  The five batch buffers are
    assigned by [_init_batch] only when their feature is on, and
    [_reference_contact_map] only when fraction-of-contacts is on: [None]
    stands for an attribute that was never assigned.  For
    [_reference_positions] and [wrap], [None] is the Python value [None];
    [wrap] otherwise holds the closure that [wrap(atoms)] returned, which is
    given by the atom group it captured. *)
Record OfflineReporter `{MDLibs} : Type := {
  _file_idx : Z;
  _base_name : string;
  _report_interval : Z;
  _wrap_pdb_file : option string;
  _reference_pdb_file : option string;
  _openmm_selection : list string;
  _mda_selection : string;
  _threshold : float;
  _frames_per_h5 : Z;
  _contact_map : bool;
  _point_cloud : bool;
  _fraction_of_contacts : bool;
  _num_frames : Z;
  _rows : option (list (list Z));
  _cols : option (list (list Z));
  _rmsd : option (list float);
  _fraction_of_contacts_data : option (list float);
  _point_cloud_data : option pc_buffer;
  _reference_positions : option frame;
  _reference_contact_map : option coo_matrix;
  wrap : option AtomGroup;
}.

Section setters.
Context `{MDLibs}.
Implicit Type self : OfflineReporter.

Definition set_num_frames (v : Z) self : OfflineReporter :=
  {| _file_idx := _file_idx self; _base_name := _base_name self;
     _report_interval := _report_interval self;
     _wrap_pdb_file := _wrap_pdb_file self;
     _reference_pdb_file := _reference_pdb_file self;
     _openmm_selection := _openmm_selection self;
     _mda_selection := _mda_selection self; _threshold := _threshold self;
     _frames_per_h5 := _frames_per_h5 self;
     _contact_map := _contact_map self; _point_cloud := _point_cloud self;
     _fraction_of_contacts := _fraction_of_contacts self;
     _num_frames := v;
     _rows := _rows self; _cols := _cols self; _rmsd := _rmsd self;
     _fraction_of_contacts_data := _fraction_of_contacts_data self;
     _point_cloud_data := _point_cloud_data self;
     _reference_positions := _reference_positions self;
     _reference_contact_map := _reference_contact_map self;
     wrap := wrap self |}.

Definition set_rows (v : option (list (list Z))) self : OfflineReporter :=
  {| _file_idx := _file_idx self; _base_name := _base_name self;
     _report_interval := _report_interval self;
     _wrap_pdb_file := _wrap_pdb_file self;
     _reference_pdb_file := _reference_pdb_file self;
     _openmm_selection := _openmm_selection self;
     _mda_selection := _mda_selection self; _threshold := _threshold self;
     _frames_per_h5 := _frames_per_h5 self;
     _contact_map := _contact_map self; _point_cloud := _point_cloud self;
     _fraction_of_contacts := _fraction_of_contacts self;
     _num_frames := _num_frames self;
     _rows := v; _cols := _cols self; _rmsd := _rmsd self;
     _fraction_of_contacts_data := _fraction_of_contacts_data self;
     _point_cloud_data := _point_cloud_data self;
     _reference_positions := _reference_positions self;
     _reference_contact_map := _reference_contact_map self;
     wrap := wrap self |}.

Definition set_cols (v : option (list (list Z))) self : OfflineReporter :=
  {| _file_idx := _file_idx self; _base_name := _base_name self;
     _report_interval := _report_interval self;
     _wrap_pdb_file := _wrap_pdb_file self;
     _reference_pdb_file := _reference_pdb_file self;
     _openmm_selection := _openmm_selection self;
     _mda_selection := _mda_selection self; _threshold := _threshold self;
     _frames_per_h5 := _frames_per_h5 self;
     _contact_map := _contact_map self; _point_cloud := _point_cloud self;
     _fraction_of_contacts := _fraction_of_contacts self;
     _num_frames := _num_frames self;
     _rows := _rows self; _cols := v; _rmsd := _rmsd self;
     _fraction_of_contacts_data := _fraction_of_contacts_data self;
     _point_cloud_data := _point_cloud_data self;
     _reference_positions := _reference_positions self;
     _reference_contact_map := _reference_contact_map self;
     wrap := wrap self |}.

Definition set_rmsd (v : option (list float)) self : OfflineReporter :=
  {| _file_idx := _file_idx self; _base_name := _base_name self;
     _report_interval := _report_interval self;
     _wrap_pdb_file := _wrap_pdb_file self;
     _reference_pdb_file := _reference_pdb_file self;
     _openmm_selection := _openmm_selection self;
     _mda_selection := _mda_selection self; _threshold := _threshold self;
     _frames_per_h5 := _frames_per_h5 self;
     _contact_map := _contact_map self; _point_cloud := _point_cloud self;
     _fraction_of_contacts := _fraction_of_contacts self;
     _num_frames := _num_frames self;
     _rows := _rows self; _cols := _cols self; _rmsd := v;
     _fraction_of_contacts_data := _fraction_of_contacts_data self;
     _point_cloud_data := _point_cloud_data self;
     _reference_positions := _reference_positions self;
     _reference_contact_map := _reference_contact_map self;
     wrap := wrap self |}.

Definition set_fraction_of_contacts_data (v : option (list float)) self
  : OfflineReporter :=
  {| _file_idx := _file_idx self; _base_name := _base_name self;
     _report_interval := _report_interval self;
     _wrap_pdb_file := _wrap_pdb_file self;
     _reference_pdb_file := _reference_pdb_file self;
     _openmm_selection := _openmm_selection self;
     _mda_selection := _mda_selection self; _threshold := _threshold self;
     _frames_per_h5 := _frames_per_h5 self;
     _contact_map := _contact_map self; _point_cloud := _point_cloud self;
     _fraction_of_contacts := _fraction_of_contacts self;
     _num_frames := _num_frames self;
     _rows := _rows self; _cols := _cols self; _rmsd := _rmsd self;
     _fraction_of_contacts_data := v;
     _point_cloud_data := _point_cloud_data self;
     _reference_positions := _reference_positions self;
     _reference_contact_map := _reference_contact_map self;
     wrap := wrap self |}.

Definition set_point_cloud_data (v : option pc_buffer) self : OfflineReporter :=
  {| _file_idx := _file_idx self; _base_name := _base_name self;
     _report_interval := _report_interval self;
     _wrap_pdb_file := _wrap_pdb_file self;
     _reference_pdb_file := _reference_pdb_file self;
     _openmm_selection := _openmm_selection self;
     _mda_selection := _mda_selection self; _threshold := _threshold self;
     _frames_per_h5 := _frames_per_h5 self;
     _contact_map := _contact_map self; _point_cloud := _point_cloud self;
     _fraction_of_contacts := _fraction_of_contacts self;
     _num_frames := _num_frames self;
     _rows := _rows self; _cols := _cols self; _rmsd := _rmsd self;
     _fraction_of_contacts_data := _fraction_of_contacts_data self;
     _point_cloud_data := v;
     _reference_positions := _reference_positions self;
     _reference_contact_map := _reference_contact_map self;
     wrap := wrap self |}.

Definition set_reference_positions (v : option frame) self : OfflineReporter :=
  {| _file_idx := _file_idx self; _base_name := _base_name self;
     _report_interval := _report_interval self;
     _wrap_pdb_file := _wrap_pdb_file self;
     _reference_pdb_file := _reference_pdb_file self;
     _openmm_selection := _openmm_selection self;
     _mda_selection := _mda_selection self; _threshold := _threshold self;
     _frames_per_h5 := _frames_per_h5 self;
     _contact_map := _contact_map self; _point_cloud := _point_cloud self;
     _fraction_of_contacts := _fraction_of_contacts self;
     _num_frames := _num_frames self;
     _rows := _rows self; _cols := _cols self; _rmsd := _rmsd self;
     _fraction_of_contacts_data := _fraction_of_contacts_data self;
     _point_cloud_data := _point_cloud_data self;
     _reference_positions := v;
     _reference_contact_map := _reference_contact_map self;
     wrap := wrap self |}.

Definition set_reference_contact_map (v : option coo_matrix) self
  : OfflineReporter :=
  {| _file_idx := _file_idx self; _base_name := _base_name self;
     _report_interval := _report_interval self;
     _wrap_pdb_file := _wrap_pdb_file self;
     _reference_pdb_file := _reference_pdb_file self;
     _openmm_selection := _openmm_selection self;
     _mda_selection := _mda_selection self; _threshold := _threshold self;
     _frames_per_h5 := _frames_per_h5 self;
     _contact_map := _contact_map self; _point_cloud := _point_cloud self;
     _fraction_of_contacts := _fraction_of_contacts self;
     _num_frames := _num_frames self;
     _rows := _rows self; _cols := _cols self; _rmsd := _rmsd self;
     _fraction_of_contacts_data := _fraction_of_contacts_data self;
     _point_cloud_data := _point_cloud_data self;
     _reference_positions := _reference_positions self;
     _reference_contact_map := v;
     wrap := wrap self |}.

Definition set_wrap (v : option AtomGroup) self : OfflineReporter :=
  {| _file_idx := _file_idx self; _base_name := _base_name self;
     _report_interval := _report_interval self;
     _wrap_pdb_file := _wrap_pdb_file self;
     _reference_pdb_file := _reference_pdb_file self;
     _openmm_selection := _openmm_selection self;
     _mda_selection := _mda_selection self; _threshold := _threshold self;
     _frames_per_h5 := _frames_per_h5 self;
     _contact_map := _contact_map self; _point_cloud := _point_cloud self;
     _fraction_of_contacts := _fraction_of_contacts self;
     _num_frames := _num_frames self;
     _rows := _rows self; _cols := _cols self; _rmsd := _rmsd self;
     _fraction_of_contacts_data := _fraction_of_contacts_data self;
     _point_cloud_data := _point_cloud_data self;
     _reference_positions := _reference_positions self;
     _reference_contact_map := _reference_contact_map self;
     wrap := v |}.
End setters.

(** ** Construction *)

Definition is_None {A} (o : option A) : bool :=
  match o with None => true | Some _ => false end.

Section construction.
Context `{MDLibs}.
Implicit Type self : OfflineReporter.

Definition _compute_contact_map self (positions : frame) : coo_matrix :=
  contact_matrix positions (_threshold self).

Definition _init_batch self : OfflineReporter :=
  (* Frame counter for writing batches to HDF5 *)
  let self := set_num_frames 0 self in
  (* Row, Column indices for contact matrix in COO format *)
  let self := if _contact_map self
              then set_cols (Some []) (set_rows (Some []) self) else self in
  let self := if is_None (_reference_pdb_file self)
              then self else set_rmsd (Some []) self in
  let self := if _fraction_of_contacts self
              then set_fraction_of_contacts_data (Some []) self else self in
  if _point_cloud self
  then set_point_cloud_data (Some (PcList [])) self else self.

Definition _init_reference_positions self : Exc OfflineReporter :=
  match _reference_pdb_file self with
  | None => inr (set_reference_positions None self)
  | Some reference_pdb_file =>
      mda_u ← Universe_select_atoms reference_pdb_file (_mda_selection self);
      inr (set_reference_positions (Some (positions_copy mda_u)) self)
  end.

Definition _init_reference_contact_map self : Exc OfflineReporter :=
  if negb (_fraction_of_contacts self) then inr self
  else
    match _reference_pdb_file self with
    | None => inl AssertionError
    | Some reference_pdb_file =>
        mda_u ← Universe_select_atoms reference_pdb_file (_mda_selection self);
        let reference_positions := positions_copy mda_u in
        inr (set_reference_contact_map
               (Some (_compute_contact_map self reference_positions)) self)
    end.

Definition _init_wrap self : Exc OfflineReporter :=
  match _wrap_pdb_file self with
  | None => inr (set_wrap None self)
  | Some wrap_pdb_file =>
      atoms ← Universe_select_atoms wrap_pdb_file (_mda_selection self);
      inr (set_wrap (Some atoms) self)
  end.

(** Defaults of the keyword arguments. *)
Definition default_frames_per_h5 : Z := 0.
Definition default_openmm_selection : list string := ["CA"].
Definition default_mda_selection : string := "protein and name CA".
Definition default_threshold : float := float_8_0.

(** [OfflineReporter(file, reportInterval, frames_per_h5, ...)].  As in the
    source, the parameter [fraction_of_contacts] hides the imported function
    of that name inside the constructor. *)
Definition __init__ (file : string) (reportInterval : Z) (frames_per_h5 : Z)
    (wrap_pdb_file reference_pdb_file : option string)
    (openmm_selection : list string) (mda_selection : string)
    (threshold : float) (contact_map point_cloud fraction_of_contacts : bool)
  : Exc OfflineReporter :=
  if fraction_of_contacts && is_None reference_pdb_file then
    inl (ValueError
           "Computing `fraction_of_contacts` requires `refernce_pdb_file`.")
  else if contact_map && is_None reference_pdb_file then
    inl (ValueError "Computing `contact_map` requires `refernce_pdb_file`.")
  else
    let self :=
      {| _file_idx := 0; _base_name := file;
         _report_interval := reportInterval;
         _wrap_pdb_file := wrap_pdb_file;
         _reference_pdb_file := reference_pdb_file;
         _openmm_selection := openmm_selection;
         _mda_selection := mda_selection; _threshold := threshold;
         _frames_per_h5 := frames_per_h5;
         _contact_map := contact_map; _point_cloud := point_cloud;
         _fraction_of_contacts := fraction_of_contacts;
         (* assigned by [_init_batch] below, before any read *)
         _num_frames := 0;
         _rows := None; _cols := None; _rmsd := None;
         _fraction_of_contacts_data := None; _point_cloud_data := None;
         _reference_positions := None; _reference_contact_map := None;
         wrap := None |} in
    let self := _init_batch self in
    self ← _init_reference_positions self;
    self ← _init_reference_contact_map self;
    _init_wrap self.

End construction.

(** ** The wrap closure *)

Definition vec3_map {A B} (f : A → B) (v : Vec3 A) : Vec3 B :=
  let '(x, y, z) := v in (f x, f y, f z).

(** [wrap(atoms)] returns a function that keeps the atom group it was
    given and mutates it on every call.  A computation of the closure takes
    the captured atom group and returns it as the computation left it,
    with a result or with the exception that was raised. *)
Definition Closure `{MDLibs} (A : Type) : Type :=
  AtomGroup → AtomGroup * (lib_exn + A).

Global Instance Closure_ret `{MDLibs} : MRet Closure := λ A x atoms,
  (atoms, inr x).
Global Instance Closure_bind `{MDLibs} : MBind Closure := λ A B f m atoms,
  match m atoms with
  | (atoms', inl e) => (atoms', inl e)
  | (atoms', inr x) => f x atoms'
  end.

Section closure.
Context `{MDLibs}.

(** An operation that mutates the captured atom group. *)
Definition mutate {A} (op : AtomGroup → AtomGroup * (lib_exn + A))
  : Closure A := op.

(** An operation that reads the captured atom group. *)
Definition read {A} (op : AtomGroup → lib_exn + A) : Closure A :=
  λ atoms, (atoms, op atoms).

(** An operation on another value. *)
Definition lib {A} (r : lib_exn + A) : Closure A := λ atoms, (atoms, r).

(** The body of the function that [wrap(atoms)] returns.  [nsp16] is a view
    on the atoms of the first segment: it is read before the next mutation
    of [atoms]. *)
Definition wrap_nsp10_16 (positions : frame) : Closure frame :=
  (* update the positions *)
  mutate (AtomGroup_set_positions positions);;
  (* only porting CA into nsp16 *)
  nsp16 ← read AtomGroup_segments_0_atoms;
  (* wrapping atoms into continous frame pbc box *)
  box_edge ← lib (AtomGroup_dimensions_0 nsp16);
  let box_center := float_div_2 box_edge in
  center ← lib (AtomGroup_center_of_mass nsp16);
  let trans_vec := vec3_map (float_sub box_center) center in
  mutate (AtomGroup_translate trans_vec);;
  mutate AtomGroup_wrap;;
  center ← read AtomGroup_center_of_mass;
  let trans_vec := vec3_map (float_sub box_center) center in
  mutate (AtomGroup_translate trans_vec);;
  mutate AtomGroup_wrap;;
  read AtomGroup_positions.

End closure.

(** ** The state of a run: the reporter and the files *)

Record World `{MDLibs} : Type := {
  reporter : OfflineReporter;
  fs : gmap string h5_file;
}.

(** Computations that mutate the world and may raise; the world reached
    when an exception is raised is kept. *)
Definition M `{MDLibs} (A : Type) : Type := World → World * Exc A.

Global Instance M_ret `{MDLibs} : MRet M := λ A x w, (w, inr x).
Global Instance M_bind `{MDLibs} : MBind M := λ A B f m w,
  match m w with
  | (w', inl e) => (w', inl e)
  | (w', inr x) => f x w'
  end.

Section reporting.
Context `{MDLibs}.

Definition raise {A} (e : exn) : M A := λ w, (w, inl e).

Definition get_self : M OfflineReporter := λ w, (w, inr (reporter w)).

Definition modify_self (f : OfflineReporter → OfflineReporter) : M unit :=
  λ w, ({| reporter := f (reporter w); fs := fs w |}, inr ()).

(** Reading an attribute that was never assigned raises. *)
Definition getattr {A} (attr : string) (o : option A) : M A :=
  match o with Some v => mret v | None => raise (AttributeError attr) end.

Definition lift_exc {A} (r : Exc A) : M A := λ w, (w, r).

Definition when (b : bool) (m : M unit) : M unit := if b then m else mret ().

(** [describeNextReport]: Python's [%] raises on a zero divisor and
    otherwise takes the sign of the divisor, as [Z.modulo] does. *)
Definition describeNextReport (self : OfflineReporter) (simulation : Simulation)
  : Exc (Z * bool * bool * bool * bool * option unit) :=
  if _report_interval self =? 0 then inl ZeroDivisionError
  else
    let steps :=
      _report_interval self - currentStep simulation `mod` _report_interval self in
    inr (steps, true, false, false, false, None).

(** [x.astype("int16")] on an integer array: the low 16 bits, read as a
    signed number. *)
Definition astype_int16 (x : Z) : Z := (x + 2 ^ 15) `mod` 2 ^ 16 - 2 ^ 15.

(** [list.append] *)
Definition list_append {A} (l : list A) (x : A) : list A := l ++ [x].

(** The result of a library call, as the reporter sees it. *)
Definition lib_result {A} (r : lib_exn + A) : Exc A :=
  match r with inl e => inl (exn_of_lib e) | inr x => inr x end.

(** [self.wrap(positions)], for the closure that captured [atoms]: the
    attribute keeps the closure, whose atom group is as the call left it,
    also when the call raises. *)
Definition call_wrap (atoms : AtomGroup) (positions : frame) : M frame :=
  λ w, let r := wrap_nsp10_16 positions atoms in
       ({| reporter := set_wrap (Some r.1) (reporter w); fs := fs w |},
        lib_result r.2).

Definition _collect_rmsd (positions : frame) : M unit :=
  self ← get_self;
  positions ← match wrap self with
              | Some atoms => call_wrap atoms positions
              | None => mret positions
              end;
  self ← get_self;
  match _reference_positions self with
  | None => raise TypeError
  | Some reference_positions =>
      rmsd ← lift_exc (lib_result (rms_rmsd positions reference_positions));
      buf ← getattr "_rmsd" (_rmsd self);
      modify_self (set_rmsd (Some (list_append buf rmsd)))
  end.

Definition _collect_contact_map (contact_map : coo_matrix) : M unit :=
  (* Represent contact map in COO sparse format *)
  let coo := contact_map in
  self ← get_self;
  rows ← getattr "_rows" (_rows self);
  modify_self (set_rows (Some (list_append rows (map astype_int16 (map fst coo)))));;
  self ← get_self;
  cols ← getattr "_cols" (_cols self);
  modify_self (set_cols (Some (list_append cols (map astype_int16 (map snd coo))))).

Definition _collect_fraction_of_contacts (contact_map : coo_matrix) : M unit :=
  self ← get_self;
  buf ← getattr "_fraction_of_contacts_data" (_fraction_of_contacts_data self);
  ref ← getattr "_reference_contact_map" (_reference_contact_map self);
  modify_self (set_fraction_of_contacts_data
                 (Some (list_append buf (fraction_of_contacts contact_map ref)))).

(** A numpy array has no [append]. *)
Definition _collect_point_cloud (positions : frame) : M unit :=
  self ← get_self;
  buf ← getattr "_point_cloud_data" (_point_cloud_data self);
  match buf with
  | PcList frames =>
      modify_self (set_point_cloud_data (Some (PcList (list_append frames positions))))
  | PcArray _ => raise (AttributeError "append")
  end.

(** *** Container operations

    The environment decides which operations fail: [io op = true] makes the
    operation [op] of this call raise [OSError]. *)

(** [h5py.File(file_name, "w", swmr=False)]: creates the file, truncating
    an existing one.  The handle is the path. *)
Definition h5py_File_w (io : io_op → bool) (file_name : string) : M string :=
  λ w, if io OpOpen then (w, inl (OSError OpOpen))
       else ({| reporter := reporter w; fs := <[file_name := []]> (fs w) |},
             inr file_name).

(** Adding one dataset to an open file. *)
Definition h5_create_dataset (io : io_op → bool) (op : io_op)
    (h5_file : string) (ds : dataset) : M unit :=
  λ w, if io op then (w, inl (OSError op))
       else ({| reporter := reporter w;
                fs := alter (λ f, f ++ [ds]) h5_file (fs w) |}, inr ()).

(** Leaving the [with] block closes the file. *)
Definition h5_close (io : io_op → bool) : M unit :=
  if io OpClose then raise (OSError OpClose) else mret ().

(** Modelled from the spec: the writers of [mdtools.writers] are not part
    of the sources.  Each one "serializes [its] buffer into a corresponding
    named slot" of the container: a writer call is recorded as the slot it
    fills together with the data it was handed. *)
Definition write_contact_map io (h5_file : string) (rows cols : list (list Z))
  : M unit :=
  h5_create_dataset io OpWriteContactMap h5_file (DsContactMap rows cols).

Definition write_point_cloud io (h5_file : string) (point_cloud : ndarray3)
  : M unit :=
  h5_create_dataset io OpWritePointCloud h5_file (DsPointCloud point_cloud).

Definition write_rmsd io (h5_file : string) (rmsd : list float) : M unit :=
  h5_create_dataset io OpWriteRmsd h5_file (DsRmsd rmsd).

Definition write_fraction_of_contacts io (h5_file : string)
    (fraction_of_contacts : list float) : M unit :=
  h5_create_dataset io OpWriteFractionOfContacts h5_file
    (DsFractionOfContacts fraction_of_contacts).

(** [np.transpose(self._point_cloud_data, [0, 2, 1])] *)
Definition np_transpose_buffer (buf : pc_buffer) : Exc ndarray3 :=
  match buf with
  | PcList frames => a ← np_array3 frames; inr (np_transpose_021 a)
  | PcArray a => inr (np_transpose_021 a)
  end.

(** *** [report] *)

(** The selected atoms of the current frame, in angstrom and single
    precision (the first three statements of [report]). *)
Definition select_positions (self : OfflineReporter)
    (simulation : Simulation) (state : State) : Exc frame :=
  let atom_indices :=
    map index
      (List.filter (λ a, existsb (String.eqb (name a)) (_openmm_selection self))
         (topology_atoms simulation)) in
  let all_positions :=
    map (vec3_map value_in_unit_angstrom) (getPositions state) in
  match mapM (λ i, all_positions !! i) atom_indices with
  | Some selected => inr (map (vec3_map astype_float32) selected)
  | None => inl IndexError
  end.

(** The body of the [with h5py.File(...)] block. *)
Definition write_batch (io : io_op → bool) (h5_file : string) : M unit :=
  self ← get_self;
  when (_contact_map self) (
    rows ← getattr "_rows" (_rows self);
    cols ← getattr "_cols" (_cols self);
    write_contact_map io h5_file rows cols);;
  when (_point_cloud self) (
    buf ← getattr "_point_cloud_data" (_point_cloud_data self);
    transposed ← lift_exc (np_transpose_buffer buf);
    modify_self (set_point_cloud_data (Some (PcArray transposed)));;
    write_point_cloud io h5_file transposed);;
  (* Optionally, write rmsd to the reference state *)
  when (negb (is_None (_reference_positions self))) (
    rmsd ← getattr "_rmsd" (_rmsd self);
    write_rmsd io h5_file rmsd);;
  when (_fraction_of_contacts self) (
    foc ← getattr "_fraction_of_contacts_data" (_fraction_of_contacts_data self);
    write_fraction_of_contacts io h5_file foc).

(** The branch taken when the batch is full: write the file, then start a
    new batch. *)
Definition flush (io : io_op → bool) : M unit :=
  self ← get_self;
  let file_name := _base_name self +:+ ".h5" in
  h5_file ← h5py_File_w io file_name;
  write_batch io h5_file;;
  h5_close io;;
  modify_self _init_batch.

Definition report (io : io_op → bool) (simulation : Simulation) (state : State)
  : M unit :=
  self ← get_self;
  positions ← lift_exc (select_positions self simulation state);
  when (_contact_map self || _fraction_of_contacts self) (
    let contact_map := _compute_contact_map self positions in
    when (_contact_map self) (_collect_contact_map contact_map);;
    when (_fraction_of_contacts self)
      (_collect_fraction_of_contacts contact_map));;
  when (_point_cloud self) (_collect_point_cloud positions);;
  when (negb (is_None (_reference_positions self))) (_collect_rmsd positions);;
  modify_self (λ self, set_num_frames (_num_frames self + 1) self);;
  self ← get_self;
  when (_num_frames self =? _frames_per_h5 self) (flush io).

(** One call of [report] by the simulation loop. *)
Record call : Type := {
  call_io : io_op → bool;
  call_simulation : Simulation;
  call_state : State;
}.

(** The simulation loop: consecutive [report] calls, up to the first one
    that raises. *)
Fixpoint run (calls : list call) : M unit :=
  match calls with
  | [] => mret ()
  | c :: rest =>
      report (call_io c) (call_simulation c) (call_state c);; run rest
  end.

End reporting.

(** * Specification vocabulary *)

(** An enabled buffer that holds [k] entries. *)
Definition holds {A} (k : nat) (o : option (list A)) : Prop :=
  ∃ l, o = Some l ∧ length l = k.

Section vocabulary.
Context `{MDLibs}.
Implicit Type self : OfflineReporter.

(** ** The batch invariant *)

(** The state of the accumulator [k] frames into a batch: what the
    constructor establishes for [k = 0] and every completed [report]
    re-establishes. *)
Record batch_inv self (k : nat) : Prop := {
  inv_counter : _num_frames self = Z.of_nat k;
  inv_rows : _contact_map self = true → holds k (_rows self);
  inv_cols : _contact_map self = true → holds k (_cols self);
  inv_rmsd : is_None (_reference_pdb_file self) = false → holds k (_rmsd self);
  inv_foc :
    _fraction_of_contacts self = true →
    holds k (_fraction_of_contacts_data self);
  inv_pc :
    _point_cloud self = true →
    ∃ frames, _point_cloud_data self = Some (PcList frames) ∧ length frames = k;
  inv_reference :
    is_None (_reference_positions self) = is_None (_reference_pdb_file self);
  inv_reference_contact_map :
    _fraction_of_contacts self = true → is_Some (_reference_contact_map self);
}.

(** ** What one frame adds *)

(** The call of the wrap closure in [_collect_rmsd], when one is
    configured: the closure as the call leaves it, and the frame that is
    compared with the reference. *)
Definition wrapped self (positions : frame)
  : option AtomGroup * (lib_exn + frame) :=
  match wrap self with
  | Some atoms =>
      let r := wrap_nsp10_16 positions atoms in (Some r.1, r.2)
  | None => (None, inr positions)
  end.

Definition rows_of self (positions : frame) : list Z :=
  map astype_int16 (map fst (_compute_contact_map self positions)).

Definition cols_of self (positions : frame) : list Z :=
  map astype_int16 (map snd (_compute_contact_map self positions)).

(** What [_collect_rmsd] computes for a frame: the RMSD, or the exception
    of the wrap closure or of [rms.rmsd]. *)
Definition rmsd_of self (positions : frame) : lib_exn + float :=
  match (wrapped self positions).2 with
  | inl e => inl e
  | inr wrapped_positions =>
      rms_rmsd wrapped_positions (default [] (_reference_positions self))
  end.

(** The exception that collecting a frame raises in the routines of the
    RMSD, the wrap closure and [rms.rmsd], if any.  They are called when
    there are reference positions. *)
Definition collect_error self (positions : frame) : option lib_exn :=
  if is_None (_reference_positions self) then None
  else match rmsd_of self positions with
       | inl e => Some e
       | inr _ => None
       end.

Definition foc_of self (positions : frame) : float :=
  fraction_of_contacts (_compute_contact_map self positions)
    (default [] (_reference_contact_map self)).

Definition pc_append (positions : frame) (buf : pc_buffer) : pc_buffer :=
  match buf with
  | PcList frames => PcList (frames ++ [positions])
  | PcArray a => PcArray a
  end.

(** The reporter after the collecting half of a [report] call whose
    selection succeeded, given what the routines of the RMSD did: the wrap
    closure as its call left it, and the RMSD or the exception raised.
    When the routines return: one entry more in every enabled buffer and
    the counter incremented.  When one of them raises: the state the
    exception leaves, in which the buffers collected before the RMSD have
    their entry, and the RMSD buffer and the counter are as they were. *)
Definition collect_with self (positions : frame) (closure : option AtomGroup)
    (rmsd : lib_exn + float) : OfflineReporter :=
  let s := self in
  let s := if _contact_map self
           then set_cols ((λ l, l ++ [cols_of self positions]) <$> _cols s)
                  (set_rows ((λ l, l ++ [rows_of self positions]) <$> _rows s) s)
           else s in
  let s := if _fraction_of_contacts self
           then set_fraction_of_contacts_data
                  ((λ l, l ++ [foc_of self positions])
                     <$> _fraction_of_contacts_data s) s
           else s in
  let s := if _point_cloud self
           then set_point_cloud_data (pc_append positions <$> _point_cloud_data s) s
           else s in
  if is_None (_reference_positions self)
  then set_num_frames (_num_frames s + 1) s
  else
    let s := match wrap self with
             | Some _ => set_wrap closure s
             | None => s
             end in
    match rmsd with
    | inl _ => s
    | inr rmsd =>
        let s := set_rmsd ((λ l, l ++ [rmsd]) <$> _rmsd s) s in
        set_num_frames (_num_frames s + 1) s
    end.

(** The reporter after the collecting half of a [report] call whose
    selection succeeded. *)
Definition collect self (positions : frame) : OfflineReporter :=
  collect_with self positions
    (wrapped self positions).1 (rmsd_of self positions).

(** The routines of the RMSD, the wrap closure and [rms.rmsd], return for
    each of the frames, collected one after the other. *)
Fixpoint rmsd_routines_return self (frames : list frame) : Prop :=
  match frames with
  | [] => True
  | positions :: rest =>
      collect_error self positions = None ∧
      rmsd_routines_return (collect self positions) rest
  end.

(** The RMSD values of the frames, collected one after the other. *)
Fixpoint rmsd_values self (frames : list frame) : list float :=
  match frames with
  | [] => []
  | positions :: rest =>
      match rmsd_of self positions with
      | inr rmsd => [rmsd]
      | inl _ => []
      end ++ rmsd_values (collect self positions) rest
  end.

(** The reporter at the start of the batch that follows the frames: as it
    was at the start of their batch, but for the atom group of the wrap
    closure, which is as the calls of the closure left it. *)
Definition next_batch self (frames : list frame) : OfflineReporter :=
  set_wrap (wrap (foldl collect self frames)) self.

(** ** The outcomes of a flush *)

(** The container operations a flush performs for this configuration. *)
Definition performed self (op : io_op) : bool :=
  match op with
  | OpOpen | OpClose => true
  | OpWriteContactMap => _contact_map self
  | OpWritePointCloud => _point_cloud self
  | OpWriteRmsd => negb (is_None (_reference_positions self))
  | OpWriteFractionOfContacts => _fraction_of_contacts self
  end.

(** The operations that come after the point cloud has been transposed. *)
Definition after_transpose (op : io_op) : bool :=
  match op with
  | OpOpen | OpWriteContactMap => false
  | _ => true
  end.

(** The array a flush hands to [write_point_cloud]. *)
Definition transposed_point_cloud self : Exc ndarray3 :=
  match _point_cloud_data self with
  | Some buf => np_transpose_buffer buf
  | None => inl (AttributeError "_point_cloud_data")
  end.

(** The content of the file a completed flush leaves. *)
Definition batch_datasets self : list dataset :=
  (if _contact_map self
   then [DsContactMap (default [] (_rows self)) (default [] (_cols self))]
   else []) ++
  (if _point_cloud self
   then match transposed_point_cloud self with
        | inr a => [DsPointCloud a]
        | inl _ => []
        end
   else []) ++
  (if is_None (_reference_positions self) then []
   else [DsRmsd (default [] (_rmsd self))]) ++
  (if _fraction_of_contacts self
   then [DsFractionOfContacts (default [] (_fraction_of_contacts_data self))]
   else []).

Definition h5_path self : string := _base_name self +:+ ".h5".

Inductive flush_outcome self (files : gmap string h5_file) (io : io_op → bool)
  : World → Exc unit → Prop :=
| flush_done :
    (∀ op, performed self op = true → io op = false) →
    (_point_cloud self = true → ∃ a, transposed_point_cloud self = inr a) →
    flush_outcome self files io
      {| reporter := _init_batch self;
         fs := <[h5_path self := batch_datasets self]> files |}
      (inr ())
| flush_io_error_before op files' :
    io op = true → performed self op = true →
    after_transpose op = false ∨ _point_cloud self = false →
    (∀ p, p ≠ h5_path self → files' !! p = files !! p) →
    flush_outcome self files io
      {| reporter := self; fs := files' |} (inl (OSError op))
| flush_io_error_after op a files' :
    io op = true → performed self op = true →
    after_transpose op = true → _point_cloud self = true →
    transposed_point_cloud self = inr a →
    (∀ p, p ≠ h5_path self → files' !! p = files !! p) →
    flush_outcome self files io
      {| reporter := set_point_cloud_data (Some (PcArray a)) self;
         fs := files' |}
      (inl (OSError op))
| flush_value_error e files' :
    _point_cloud self = true →
    transposed_point_cloud self = inl e →
    (∀ p, p ≠ h5_path self → files' !! p = files !! p) →
    flush_outcome self files io
      {| reporter := self; fs := files' |} (inl e).

(** ** Configuration and outcomes of a call *)

(** The attributes that configure the reporter, as opposed to the batch
    buffers and the frame counter.  Of the wrap closure, whether there is
    one: the atom group it captured is overwritten by every call. *)
Record same_config self self' : Prop := {
  cfg_file_idx : _file_idx self' = _file_idx self;
  cfg_base_name : _base_name self' = _base_name self;
  cfg_report_interval : _report_interval self' = _report_interval self;
  cfg_wrap_pdb_file : _wrap_pdb_file self' = _wrap_pdb_file self;
  cfg_reference_pdb_file : _reference_pdb_file self' = _reference_pdb_file self;
  cfg_openmm_selection : _openmm_selection self' = _openmm_selection self;
  cfg_mda_selection : _mda_selection self' = _mda_selection self;
  cfg_threshold : _threshold self' = _threshold self;
  cfg_frames_per_h5 : _frames_per_h5 self' = _frames_per_h5 self;
  cfg_contact_map : _contact_map self' = _contact_map self;
  cfg_point_cloud : _point_cloud self' = _point_cloud self;
  cfg_fraction_of_contacts :
    _fraction_of_contacts self' = _fraction_of_contacts self;
  cfg_reference_positions :
    _reference_positions self' = _reference_positions self;
  cfg_reference_contact_map :
    _reference_contact_map self' = _reference_contact_map self;
  cfg_wrap : is_None (wrap self') = is_None (wrap self);
}.

(** Every outcome of a [report] call made [k] frames into a batch. *)
Inductive report_outcome self (files : gmap string h5_file) (io : io_op → bool)
    (simulation : Simulation) (state : State) : World → Exc unit → Prop :=
| report_select_failed e :
    select_positions self simulation state = inl e →
    report_outcome self files io simulation state
      {| reporter := self; fs := files |} (inl e)
| report_rmsd_failed positions e :
    select_positions self simulation state = inr positions →
    collect_error self positions = Some e →
    report_outcome self files io simulation state
      {| reporter := collect self positions; fs := files |}
      (inl (exn_of_lib e))
| report_collected positions :
    select_positions self simulation state = inr positions →
    collect_error self positions = None →
    _num_frames self + 1 ≠ _frames_per_h5 self →
    report_outcome self files io simulation state
      {| reporter := collect self positions; fs := files |} (inr ())
| report_flushed positions w r :
    select_positions self simulation state = inr positions →
    collect_error self positions = None →
    _num_frames self + 1 = _frames_per_h5 self →
    flush_outcome (collect self positions) files io w r →
    report_outcome self files io simulation state w r.

(** ** Runs of calls *)

(** The frame counter after one more completed call. *)
Definition next_count (n : Z) (k : nat) : nat :=
  if Z.of_nat k + 1 =? n then 0%nat else S k.

(** The number of completed calls since the last reset, [j] calls after
    construction, for batch size [n]. *)
Definition frames_since_reset (n : Z) (j : nat) : nat :=
  if 0 <? n then (j `mod` Z.to_nat n)%nat else j.

(** ** The content of a batch *)

(** The content of the file written for the frames of one batch that
    starts at [self]. *)
Definition full_batch self (frames : list frame) : list dataset :=
  (if _contact_map self
   then [DsContactMap (map (rows_of self) frames) (map (cols_of self) frames)]
   else []) ++
  (if _point_cloud self
   then match np_transpose_buffer (PcList frames) with
        | inr a => [DsPointCloud a]
        | inl _ => []
        end
   else []) ++
  (if is_None (_reference_positions self) then []
   else [DsRmsd (rmsd_values self frames)]) ++
  (if _fraction_of_contacts self
   then [DsFractionOfContacts (map (foc_of self) frames)]
   else []).

(** The array written for frames of [m] atoms each: shape [(n, 3, m)]. *)
Definition point_cloud_array (frames : list frame) (m : nat) : ndarray3 :=
  {| shape := (length frames, 3%nat, m);
     data := map (λ fr, transpose_2d 3 (map vec3_to_list fr)) frames |}.

End vocabulary.

(** ** Selections, quiet computations and whole batches *)

Section selection_defs.
Context `{MDLibs}.
Implicit Type self : OfflineReporter.

(** The atoms [report] keeps: those of the topology whose name is in the
    selection, in topology order. *)
Definition selected_atoms self (simulation : Simulation) : list Atom :=
  List.filter (λ a, existsb (String.eqb (name a)) (_openmm_selection self))
    (topology_atoms simulation).

(** A position as [report] stores it: in angstrom, in single precision. *)
Definition stored_position (q : Vec3 quantity) : Vec3 float :=
  vec3_map astype_float32 (vec3_map value_in_unit_angstrom q).

End selection_defs.

Section quiet_defs.
Context `{MDLibs}.

(** [w'] differs from [w] in the batch buffers at most: same files, same
    batch size, same frame counter. *)
Definition unflushed (w w' : World) : Prop :=
  fs w' = fs w ∧
  _frames_per_h5 (reporter w') = _frames_per_h5 (reporter w) ∧
  _num_frames (reporter w') = _num_frames (reporter w).

(** A computation that neither touches the files nor the frame counter. *)
Definition quiet {A} (m : M A) : Prop := ∀ w, unflushed w (m w).1.

End quiet_defs.

Section batch_defs.
Context `{MDLibs}.
Implicit Type self : OfflineReporter.

(** The calls of one full batch that starts at [self], together with the
    frames they select: [n] calls without I/O failure whose selections
    succeed, for which the routines of the RMSD return and which, when the
    point cloud is on, have the same number of atoms. *)
Definition complete_batch self (n : nat) (b : list call * list frame) : Prop :=
  length b.1 = n ∧
  Forall (λ c, ∀ op, call_io c op = false) b.1 ∧
  Forall2 (λ c p, select_positions self (call_simulation c) (call_state c)
                  = inr p) b.1 b.2 ∧
  rmsd_routines_return self b.2 ∧
  (_point_cloud self = true → ∃ m, Forall (λ p, length p = m) b.2).

(** Complete batches in a row: each one starts where the one before left
    the reporter. *)
Fixpoint complete_batches self (n : nat)
    (batches : list (list call * list frame)) : Prop :=
  match batches with
  | [] => True
  | b :: rest =>
      complete_batch self n b ∧ complete_batches (next_batch self b.2) n rest
  end.

(** The reporter at the start of the batch that follows the batches. *)
Definition after_batches self (batches : list (list call * list frame))
  : OfflineReporter :=
  foldl (λ s b, next_batch s b.2) self batches.

End batch_defs.

Section config_defs.
Context `{MDLibs}.

(** A computation that leaves the configuration of the reporter alone. *)
Definition keeps_config {A} (m : M A) : Prop :=
  ∀ w, same_config (reporter w) (reporter (m w).1).

End config_defs.

Section reach_defs.
Context `{MDLibs}.

(** A world reached from a constructed reporter by calls that all
    returned. *)
Definition reachable (w : World) : Prop :=
  ∃ file reportInterval frames_per_h5 wrap_pdb_file reference_pdb_file
    openmm_selection mda_selection threshold contact_map point_cloud foc
    self files calls,
    __init__ file reportInterval frames_per_h5 wrap_pdb_file
      reference_pdb_file openmm_selection mda_selection threshold contact_map
      point_cloud foc = inr self ∧
    run calls {| reporter := self; fs := files |} = (w, inr ()).

(** The reporter after a flush that failed once the point cloud had been
    transposed into the array [a], and after the calls that follow. *)
Record broken (self : OfflineReporter) (a : ndarray3) : Prop := {
  broken_point_cloud : _point_cloud self = true;
  broken_buffer : _point_cloud_data self = Some (PcArray a);
  broken_rows : _contact_map self = true → is_Some (_rows self);
  broken_cols : _contact_map self = true → is_Some (_cols self);
  broken_foc :
    _fraction_of_contacts self = true →
    is_Some (_fraction_of_contacts_data self);
  broken_reference_contact_map :
    _fraction_of_contacts self = true → is_Some (_reference_contact_map self);
}.

(** Calls made one after the other by a caller that catches what they
    raise: the world after the last call and the result of each call. *)
Fixpoint attempts (calls : list call) (w : World) : World * list (Exc unit) :=
  match calls with
  | [] => (w, [])
  | c :: rest =>
      let r := report (call_io c) (call_simulation c) (call_state c) w in
      let rs := attempts rest r.1 in
      (rs.1, r.2 :: rs.2)
  end.

(** The routines of the RMSD, the wrap closure or [rms.rmsd], raise [e] for
    the frame of one of the calls, on the reporter in a state of the same
    configuration. *)
Definition rmsd_raises (self : OfflineReporter) (calls : list call)
    (e : lib_exn) : Prop :=
  ∃ c s p,
    c ∈ calls ∧ same_config self s ∧
    select_positions self (call_simulation c) (call_state c) = inr p ∧
    collect_error s p = Some e.

End reach_defs.

(** * A concrete instance, for running the model *)

(** Integers stand for floats and for quantities, which are taken to be in
    angstrom already; an atom group is the list of its positions, in one
    segment and a box of edge 100.  The descriptors are constant stand-ins,
    but for the errors of a wrong number of atoms: the examples exercise the
    batching, and no theorem depends on the instance. *)
Module Example.

Global Instance libs : MDLibs := {|
  float := Z;
  quantity := Z;
  AtomGroup := list (Vec3 Z);
  float_8_0 := 8;
  value_in_unit_angstrom q := q;
  astype_float32 x := x;
  Universe_select_atoms f sel := inr [(0, 0, 0); (10, 0, 0)];
  positions_copy atoms := atoms;
  contact_matrix positions threshold := [(0, 1); (1, 0)];
  rms_rmsd a b :=
    if Nat.eqb (length a) (length b) then inr 0
    else inl (LibValueError "a and b must have same shape");
  fraction_of_contacts a b := 1;
  AtomGroup_set_positions positions atoms :=
    if Nat.eqb (length positions) (length atoms) then (positions, inr ())
    else (atoms, inl (LibValueError "incorrect shape of positions"));
  AtomGroup_segments_0_atoms atoms := inr atoms;
  AtomGroup_dimensions_0 atoms := inr 100;
  AtomGroup_center_of_mass atoms := inr (50, 50, 50);
  AtomGroup_translate t atoms :=
    (map (λ '(x, y, z), (x + t.1.1, y + t.1.2, z + t.2)) atoms, inr ());
  AtomGroup_wrap atoms := (atoms, inr ());
  AtomGroup_positions atoms := inr atoms;
  float_div_2 x := x `div` 2;
  float_sub x y := x - y;
|}.

Definition no_failure : io_op → bool := λ _, false.

Definition fails_at (op : io_op) : io_op → bool := λ op', bool_decide (op' = op).

(** Three atoms, two of them named [CA]. *)
Definition simulation (step : Z) : Simulation :=
  {| currentStep := step;
     topology_atoms := [ {| index := 0; name := "CA" |};
                         {| index := 1; name := "N" |};
                         {| index := 2; name := "CA" |} ] |}.

(** The two [CA] atoms at [(0,0,0)] and [(x,0,0)] angstrom. *)
Definition state (x : Z) : State :=
  {| getPositions := [(0, 0, 0); (5, 5, 5); (x, 0, 0)] |}.

Definition call_at (io : io_op → bool) (x : Z) : call :=
  {| call_io := io; call_simulation := simulation 0; call_state := state x |}.

(** The reporter of the test scenario: batches of 2 frames, point cloud
    only. *)
Definition ex_reporter_pc : OfflineReporter :=
  {| _file_idx := 0; _base_name := "out"; _report_interval := 10;
     _wrap_pdb_file := None; _reference_pdb_file := None;
     _openmm_selection := ["CA"]; _mda_selection := "protein and name CA";
     _threshold := 8; _frames_per_h5 := 2;
     _contact_map := false; _point_cloud := true;
     _fraction_of_contacts := false;
     _num_frames := 0;
     _rows := None; _cols := None; _rmsd := None;
     _fraction_of_contacts_data := None;
     _point_cloud_data := Some (PcList []);
     _reference_positions := None;
     _reference_contact_map := None;
     wrap := None |}.

(** Batches of two frames, every feature on. *)
Definition ex_reporter_all : OfflineReporter :=
  {| _file_idx := 0; _base_name := "out"; _report_interval := 10;
     _wrap_pdb_file := None; _reference_pdb_file := Some "ref.pdb";
     _openmm_selection := ["CA"]; _mda_selection := "protein and name CA";
     _threshold := 8; _frames_per_h5 := 2;
     _contact_map := true; _point_cloud := true; _fraction_of_contacts := true;
     _num_frames := 0;
     _rows := Some []; _cols := Some []; _rmsd := Some [];
     _fraction_of_contacts_data := Some [];
     _point_cloud_data := Some (PcList []);
     _reference_positions := Some [(0, 0, 0); (10, 0, 0)];
     _reference_contact_map := Some [(0, 1); (1, 0)];
     wrap := None |}.

(** Batches of one frame, every feature on. *)
Definition ex_reporter_one : OfflineReporter :=
  {| _file_idx := 0; _base_name := "out"; _report_interval := 10;
     _wrap_pdb_file := None; _reference_pdb_file := Some "ref.pdb";
     _openmm_selection := ["CA"]; _mda_selection := "protein and name CA";
     _threshold := 8; _frames_per_h5 := 1;
     _contact_map := true; _point_cloud := true; _fraction_of_contacts := true;
     _num_frames := 0;
     _rows := Some []; _cols := Some []; _rmsd := Some [];
     _fraction_of_contacts_data := Some [];
     _point_cloud_data := Some (PcList []);
     _reference_positions := Some [(0, 0, 0); (10, 0, 0)];
     _reference_contact_map := Some [(0, 1); (1, 0)];
     wrap := None |}.

(** The default batch size, point cloud only. *)
Definition ex_reporter_default : OfflineReporter :=
  {| _file_idx := 0; _base_name := "out"; _report_interval := 10;
     _wrap_pdb_file := None; _reference_pdb_file := None;
     _openmm_selection := ["CA"]; _mda_selection := "protein and name CA";
     _threshold := 8; _frames_per_h5 := 0;
     _contact_map := false; _point_cloud := true;
     _fraction_of_contacts := false;
     _num_frames := 0;
     _rows := None; _cols := None; _rmsd := None;
     _fraction_of_contacts_data := None;
     _point_cloud_data := Some (PcList []);
     _reference_positions := None;
     _reference_contact_map := None;
     wrap := None |}.

End Example.

(** Further inputs for running the model. *)
Module Scenario.

(** A state that lacks the position of the third atom. *)
Definition short_state : State :=
  {| getPositions := [(0, 0, 0); (5, 5, 5)] |}.

(** Batches of one frame, every feature off. *)
Definition ex_reporter_none : OfflineReporter :=
  {| _file_idx := 0; _base_name := "out"; _report_interval := 10;
     _wrap_pdb_file := None; _reference_pdb_file := None;
     _openmm_selection := ["CA"]; _mda_selection := "protein and name CA";
     _threshold := 8; _frames_per_h5 := 1;
     _contact_map := false; _point_cloud := false;
     _fraction_of_contacts := false;
     _num_frames := 0;
     _rows := None; _cols := None; _rmsd := None;
     _fraction_of_contacts_data := None;
     _point_cloud_data := None;
     _reference_positions := None;
     _reference_contact_map := None;
     wrap := None |}.

(** Batches of two frames, RMSD only, computed on wrapped positions. *)
Definition ex_reporter_wrap : OfflineReporter :=
  {| _file_idx := 0; _base_name := "out"; _report_interval := 10;
     _wrap_pdb_file := Some "wrap.pdb"; _reference_pdb_file := Some "ref.pdb";
     _openmm_selection := ["CA"]; _mda_selection := "protein and name CA";
     _threshold := 8; _frames_per_h5 := 2;
     _contact_map := false; _point_cloud := false;
     _fraction_of_contacts := false;
     _num_frames := 0;
     _rows := None; _cols := None; _rmsd := Some [];
     _fraction_of_contacts_data := None;
     _point_cloud_data := None;
     _reference_positions := Some [(0, 0, 0); (10, 0, 0)];
     _reference_contact_map := None;
     wrap := Some [(0, 0, 0); (10, 0, 0)] |}.

(** A topology with three atoms named [CA]: one more than the reference
    structure of the examples has. *)
Definition simulation3 : Simulation :=
  {| currentStep := 0;
     topology_atoms := [ {| index := 0; name := "CA" |};
                         {| index := 1; name := "CA" |};
                         {| index := 2; name := "CA" |} ] |}.

End Scenario.

(** * Properties *)

(** ** Stepping through monadic code *)

Section stepping.
Context `{MDLibs}.

Lemma bind_assoc {A B C} (m : M A) (g : A → M B) (f : B → M C) w :
  ((m ≫= g) ≫= f) w = (m ≫= (λ x, g x ≫= f)) w.
Proof. unfold mbind, M_bind. destruct (m w) as [w1 [e|x]]; reflexivity. Qed.

Lemma bind_ret {A B} (x : A) (f : A → M B) w : (mret x ≫= f) w = f x w.
Proof. reflexivity. Qed.

Lemma bind_raise {A B} e (f : A → M B) w : (raise e ≫= f) w = (w, inl e).
Proof. reflexivity. Qed.

Lemma bind_get_self {B} (f : OfflineReporter → M B) w :
  (get_self ≫= f) w = f (reporter w) w.
Proof. reflexivity. Qed.

Lemma bind_modify_self {B} g (f : unit → M B) s files :
  (modify_self g ≫= f) {| reporter := s; fs := files |} =
  f () {| reporter := g s; fs := files |}.
Proof. reflexivity. Qed.

Lemma bind_getattr_Some {A B} a (v : A) (f : A → M B) w :
  (getattr a (Some v) ≫= f) w = f v w.
Proof. reflexivity. Qed.

Lemma bind_getattr_None {A B} a (f : A → M B) w :
  (getattr a None ≫= f) w = (w, inl (AttributeError a)).
Proof. reflexivity. Qed.

Lemma bind_lift_inr {A B} (x : A) (f : A → M B) w :
  (lift_exc (inr x) ≫= f) w = f x w.
Proof. reflexivity. Qed.

Lemma bind_lift_inl {A B} e (f : A → M B) w :
  (lift_exc (inl e) ≫= f) w = (w, inl e).
Proof. reflexivity. Qed.

Lemma bind_open {B} io p (f : string → M B) s files :
  (h5py_File_w io p ≫= f) {| reporter := s; fs := files |} =
  if io OpOpen then ({| reporter := s; fs := files |}, inl (OSError OpOpen))
  else f p {| reporter := s; fs := <[p := []]> files |}.
Proof. unfold mbind, M_bind, h5py_File_w. simpl. by destruct (io OpOpen). Qed.

Lemma bind_create_dataset {B} io op p ds (f : unit → M B) s files :
  (h5_create_dataset io op p ds ≫= f) {| reporter := s; fs := files |} =
  if io op then ({| reporter := s; fs := files |}, inl (OSError op))
  else f () {| reporter := s; fs := alter (λ d, d ++ [ds]) p files |}.
Proof. unfold mbind, M_bind, h5_create_dataset. simpl. by destruct (io op). Qed.

Lemma bind_close {B} io (f : unit → M B) w :
  (h5_close io ≫= f) w =
  if io OpClose then (w, inl (OSError OpClose)) else f () w.
Proof. unfold h5_close. by destruct (io OpClose). Qed.

Lemma bind_unit_r (m : M unit) w : m w = (m ≫= mret) w.
Proof. unfold mbind, M_bind. destruct (m w) as [w1 [e|[]]]; reflexivity. Qed.

Lemma run_modify_self g s files :
  modify_self g {| reporter := s; fs := files |} =
  ({| reporter := g s; fs := files |}, inr ()).
Proof. reflexivity. Qed.

Lemma run_ret {A} (x : A) w : (mret x : M A) w = (w, inr x).
Proof. reflexivity. Qed.

End stepping.

Ltac step :=
  first
    [ rewrite bind_assoc
    | rewrite bind_ret
    | rewrite bind_raise
    | rewrite bind_get_self
    | rewrite bind_modify_self
    | rewrite bind_getattr_Some
    | rewrite bind_getattr_None
    | rewrite bind_lift_inr
    | rewrite bind_lift_inl
    | rewrite bind_open
    | rewrite bind_create_dataset
    | rewrite bind_close ].

Ltac exec :=
  repeat first
    [ step
    | rewrite run_modify_self
    | rewrite run_ret
    | progress simpl reporter
    | progress simpl is_None
    | progress simpl negb
    | match goal with
      | E : ?f ?s = _ |- context [?f ?s] => rewrite E
      end
    | progress cbv iota ].

Ltac exec_cases :=
  exec;
  try match goal with
  | |- context [if ?io ?op then _ else _] =>
      let E := fresh "Eio" in destruct (io op) eqn:E; exec_cases
  | |- context [lift_exc ?x] =>
      let E := fresh "Et" in destruct x eqn:E; exec_cases
  end.

(** ** The collecting half of [report], and the flush *)

Ltac use_inv :=
  repeat match goal with
  | Hx : ?a = ?a → _ |- _ => specialize (Hx eq_refl)
  | Hx : true = false → _ |- _ => clear Hx
  | Hx : false = true → _ |- _ => clear Hx
  | Hx : holds _ _ |- _ => let E := fresh "E" in destruct Hx as (? & E & ?)
  | Hx : is_Some _ |- _ => let E := fresh "E" in destruct Hx as (? & E)
  | Hx : ∃ _, _ ∧ _ |- _ => let E := fresh "E" in destruct Hx as (? & E & ?)
  end.

Section batch.
Context `{MDLibs}.
Implicit Type self : OfflineReporter.

Lemma report_collect self files io simulation state positions k :
  batch_inv self k →
  select_positions self simulation state = inr positions →
  report io simulation state {| reporter := self; fs := files |} =
  match collect_error self positions with
  | Some e =>
      ({| reporter := collect self positions; fs := files |},
       inl (exn_of_lib e))
  | None =>
      when (_num_frames (collect self positions)
            =? _frames_per_h5 (collect self positions)) (flush io)
        {| reporter := collect self positions; fs := files |}
  end.
Proof.
  intros [Hn Hrows Hcols Hrmsd Hfoc Hpc Href Hrefcm] Hsel.
  unfold report, collect, collect_with, collect_error, rmsd_of, foc_of, rows_of, cols_of,
    wrapped.
  unfold mbind, M_bind, get_self, lift_exc. simpl.
  rewrite Hsel.
  destruct (_contact_map self) eqn:Hcm, (_fraction_of_contacts self) eqn:Hfc,
    (_point_cloud self) eqn:Hp, (_reference_positions self) as [rp|] eqn:Hrp,
    (_reference_pdb_file self) as [rf|] eqn:Hrf; simpl in *; try discriminate;
    use_inv.
  all: try (destruct (wrap self) as [atoms|] eqn:Hwrap;
            [destruct (wrap_nsp10_16 positions atoms) as [atoms' [e|q]] eqn:Hw;
             [|destruct (rms_rmsd q rp) as [e|v] eqn:Hv]
            |destruct (rms_rmsd positions rp) as [e|v] eqn:Hv]).
  all: (unfold when, _collect_contact_map, _collect_fraction_of_contacts,
    _collect_point_cloud, _collect_rmsd, call_wrap, lib_result, modify_self,
    getattr, get_self, lift_exc, mbind,
    M_bind, mret, M_ret, list_append; simpl;
    repeat match goal with
    | E : ?x = _ |- context [?x] => rewrite E; simpl
    end; try reflexivity).
Qed.

Lemma init_batch_set_point_cloud_data self v :
  _point_cloud self = true →
  _init_batch (set_point_cloud_data v self) = _init_batch self.
Proof.
  intros Hp. unfold _init_batch. simpl.
  destruct (_contact_map self); simpl;
    destruct (is_None (_reference_pdb_file self)); simpl;
    destruct (_fraction_of_contacts self); simpl; rewrite Hp; reflexivity.
Qed.

Lemma flush_done_eq self files io s' files' :
  (∀ op, performed self op = true → io op = false) →
  (_point_cloud self = true → ∃ a, transposed_point_cloud self = inr a) →
  s' = _init_batch self →
  files' = <[h5_path self := batch_datasets self]> files →
  flush_outcome self files io {| reporter := s'; fs := files' |} (inr ()).
Proof. intros ?? -> ->. by constructor. Qed.

End batch.

Ltac flush_leaf :=
  simpl fst; simpl snd;
  first
    [ apply flush_io_error_before;
      [ assumption
      | unfold performed; simpl;
        repeat match goal with E : _ = _ |- _ => rewrite E end; reflexivity
      | solve [ left; reflexivity | right; assumption ]
      | let p := fresh "p" in let Hp := fresh "Hp" in
        intros p Hp; unfold h5_path in Hp;
        rewrite ?lookup_alter_ne, ?lookup_insert_ne by done; reflexivity ]
    | eapply flush_io_error_after;
      [ assumption
      | unfold performed; simpl;
        repeat match goal with E : _ = _ |- _ => rewrite E end; reflexivity
      | reflexivity
      | assumption
      | unfold transposed_point_cloud;
        match goal with E : _point_cloud_data _ = _ |- _ => rewrite E end;
        assumption
      | let p := fresh "p" in let Hp := fresh "Hp" in
        intros p Hp; unfold h5_path in Hp;
        rewrite ?lookup_alter_ne, ?lookup_insert_ne by done; reflexivity ]
    | apply flush_value_error;
      [ assumption
      | unfold transposed_point_cloud;
        match goal with E : _point_cloud_data _ = _ |- _ => rewrite E end;
        assumption
      | let p := fresh "p" in let Hp := fresh "Hp" in
        intros p Hp; unfold h5_path in Hp;
        rewrite ?lookup_alter_ne, ?lookup_insert_ne by done; reflexivity ]
    | apply flush_done_eq;
      [ intros []; unfold performed; simpl;
        repeat match goal with E : ?f ?s = _ |- context [?f ?s] => rewrite E end;
        simpl; congruence
      | intros ?; unfold transposed_point_cloud;
        first
          [ congruence
          | match goal with E : _point_cloud_data _ = _ |- _ => rewrite E end;
            eauto ]
      | rewrite ?init_batch_set_point_cloud_data by assumption; reflexivity
      | rewrite ?alter_insert_eq; unfold batch_datasets, transposed_point_cloud, h5_path;
        repeat match goal with E : ?f ?s = _ |- context [?f ?s] => rewrite E end;
        reflexivity ] ].

Section flushing.
Context `{MDLibs}.
Implicit Type self : OfflineReporter.

Lemma flush_spec self files io k :
  batch_inv self k →
  flush_outcome self files io
    (flush io {| reporter := self; fs := files |}).1
    (flush io {| reporter := self; fs := files |}).2.
Proof.
  intros [Hn Hrows Hcols Hrmsd Hfoc Hpc Href Hrefcm].
  unfold flush, write_batch, write_contact_map, write_point_cloud, write_rmsd,
    write_fraction_of_contacts.
  destruct (_contact_map self) eqn:Hcm, (_fraction_of_contacts self) eqn:Hfc,
    (_point_cloud self) eqn:Hp, (_reference_positions self) as [rp|] eqn:Hrp,
    (_reference_pdb_file self) as [rf|] eqn:Hrf; simpl in *; try discriminate;
    use_inv.
  all: unfold when.
  all: exec_cases; flush_leaf.
Qed.

End flushing.

(** ** The invariant is established and kept *)

Ltac flags :=
  simpl;
  repeat (match goal with
          | E : ?f ?s = _ |- context [?f ?s] => rewrite E
          end; simpl).

Section invariants.
Context `{MDLibs}.
Implicit Type self : OfflineReporter.

Lemma holds_snoc {A} k (o : option (list A)) x :
  holds k o → holds (S k) ((λ l, l ++ [x]) <$> o).
Proof.
  intros (l & -> & <-). exists (l ++ [x]). split; [done|].
  rewrite length_app. simpl. lia.
Qed.

Lemma exn_of_lib_not_OSError e op : exn_of_lib e ≠ OSError op.
Proof. by destruct e. Qed.

Lemma collect_inv self positions k :
  batch_inv self k → collect_error self positions = None →
  batch_inv (collect self positions) (S k).
Proof.
  intros [Hn Hrows Hcols Hrmsd Hfoc Hpc Href Hrefcm] Herr.
  unfold collect, collect_with, collect_error in *.
  destruct (_contact_map self) eqn:Hcm, (_fraction_of_contacts self) eqn:Hfc,
    (_point_cloud self) eqn:Hp, (_reference_positions self) as [rp|] eqn:Hrp,
    (_reference_pdb_file self) as [rf|] eqn:Hrf; simpl in *; try discriminate.
  all: try (destruct (rmsd_of self positions) as [e|v]; [discriminate|]).
  all: try destruct (wrap self) as [atoms|].
  all: split; simpl; rewrite ?Hcm, ?Hfc, ?Hp, ?Hrp, ?Hrf; simpl;
    try (intros; discriminate); try done; try lia;
    try (intros _; apply holds_snoc; auto).
  all: try (intros _; destruct Hpc as (fr & -> & <-); [done|];
            exists (fr ++ [positions]); split; [done|];
            rewrite length_app; simpl; lia).
Qed.

Lemma holds_0 {A} (o : option (list A)) : holds 0 o ↔ o = Some [].
Proof.
  split.
  - intros (l & -> & Hl). by destruct l.
  - intros ->. by exists [].
Qed.

(** Starting a batch establishes the invariant, whatever the buffers held. *)
Lemma init_batch_inv self :
  is_None (_reference_positions self) = is_None (_reference_pdb_file self) →
  (_fraction_of_contacts self = true → is_Some (_reference_contact_map self)) →
  batch_inv (_init_batch self) 0.
Proof.
  intros Href Hrefcm. unfold _init_batch.
  destruct (_contact_map self) eqn:Hcm, (_fraction_of_contacts self) eqn:Hfc,
    (_point_cloud self) eqn:Hp, (_reference_pdb_file self) as [rf|] eqn:Hrf;
    simpl in *; flags.
  all: split; flags;
    try (intros; discriminate); try done;
    try (intros _; apply holds_0; reflexivity);
    try (intros _; by exists []).
Qed.

(** A new batch is a fixed point of [_init_batch]. *)
Lemma init_batch_fresh self : batch_inv self 0 → _init_batch self = self.
Proof.
  intros [Hn Hrows Hcols Hrmsd Hfoc Hpc Href Hrefcm].
  rewrite !holds_0 in *.
  destruct self as [fi bn ri wf rf os ms th n cm pc foc nf rows cols rmsd focd
                      pcd rp rcm wr].
  unfold _init_batch. simpl in *. subst nf.
  destruct cm; [rewrite (Hrows eq_refl), (Hcols eq_refl)|]; simpl;
    (destruct rf as [rf|]; [rewrite (Hrmsd eq_refl)|]); simpl;
    (destruct foc; [rewrite (Hfoc eq_refl)|]); simpl;
    (destruct pc; [destruct (Hpc eq_refl) as ([|??] & -> & ?); [|done]|]);
    reflexivity.
Qed.

(** A new batch forgets what was collected, but not what the wrap closure
    did to its atom group. *)
Lemma init_batch_collect self positions :
  is_None (_reference_positions self) = is_None (_reference_pdb_file self) →
  _init_batch (collect self positions)
  = set_wrap (wrap (collect self positions)) (_init_batch self).
Proof.
  intros Href. unfold collect.
  generalize (rmsd_of self positions), (wrapped self positions).1.
  intros r w.
  destruct self as [fi bn ri wf rf os ms th n cm pc foc nf rows cols rmsd
                      focd pcd rp rcm wr].
  destruct r as [e|v], cm, foc, pc, rp as [rp|], rf as [rf|], wr as [wr|];
    try discriminate Href; reflexivity.
Qed.

Lemma set_wrap_wrap self : set_wrap (wrap self) self = self.
Proof. by destruct self. Qed.

(** Without reference positions the wrap closure is never called. *)
Lemma wrap_collect self positions :
  is_None (_reference_positions self) = true →
  wrap (collect self positions) = wrap self.
Proof.
  intros Href. unfold collect, collect_with. rewrite Href.
  destruct (_contact_map self), (_fraction_of_contacts self),
    (_point_cloud self); reflexivity.
Qed.

(** What the constructor returns. *)
Lemma init_inv file reportInterval frames_per_h5 wrap_pdb_file reference_pdb_file
    openmm_selection mda_selection threshold contact_map point_cloud foc self :
  __init__ file reportInterval frames_per_h5 wrap_pdb_file reference_pdb_file
    openmm_selection mda_selection threshold contact_map point_cloud foc
  = inr self →
  batch_inv self 0 ∧ _file_idx self = 0 ∧ _base_name self = file ∧
  _frames_per_h5 self = frames_per_h5 ∧ _report_interval self = reportInterval ∧
  _contact_map self = contact_map ∧ _point_cloud self = point_cloud ∧
  _fraction_of_contacts self = foc ∧
  _reference_pdb_file self = reference_pdb_file.
Proof.
  intros Hinit.
  destruct foc, contact_map, point_cloud, reference_pdb_file as [rf|],
    wrap_pdb_file as [wf|]; try discriminate Hinit.
  all: lazy -[Universe_select_atoms positions_copy contact_matrix] in Hinit.
  all: repeat match type of Hinit with
       | context [Universe_select_atoms ?a ?b] =>
           destruct (Universe_select_atoms a b); try discriminate Hinit
       end.
  all: injection Hinit as <-.
  all: repeat split; try reflexivity; lazy -[Universe_select_atoms positions_copy contact_matrix]; try (intros; discriminate);
    try (eexists; split; reflexivity); try (eexists; reflexivity); try done.
Qed.

Lemma init_wrap file reportInterval frames_per_h5 wrap_pdb_file reference_pdb_file
    openmm_selection mda_selection threshold contact_map point_cloud foc self :
  __init__ file reportInterval frames_per_h5 wrap_pdb_file reference_pdb_file
    openmm_selection mda_selection threshold contact_map point_cloud foc
  = inr self →
  wrap_pdb_file = None → wrap self = None.
Proof.
  intros Hinit ->.
  destruct foc, contact_map, point_cloud, reference_pdb_file as [rf|];
    try discriminate Hinit.
  all: lazy -[Universe_select_atoms positions_copy contact_matrix] in Hinit.
  all: repeat match type of Hinit with
       | context [Universe_select_atoms ?a ?b] =>
           destruct (Universe_select_atoms a b); try discriminate Hinit
       end.
  all: by injection Hinit as <-.
Qed.

End invariants.

(** ** One call of [report] *)

Section one_call.
Context `{MDLibs}.
Implicit Type self : OfflineReporter.

Lemma same_config_refl self : same_config self self.
Proof. by split. Qed.

Lemma same_config_trans s1 s2 s3 :
  same_config s1 s2 → same_config s2 s3 → same_config s1 s3.
Proof. intros [] []. split; congruence. Qed.

Lemma same_config_collect self positions :
  same_config self (collect self positions).
Proof.
  unfold collect, collect_with.
  destruct (_contact_map self), (_fraction_of_contacts self),
    (_point_cloud self), (is_None (_reference_positions self));
    try destruct (rmsd_of self positions) as [e|v];
    try destruct (wrap self) as [atoms|] eqn:Hwrap;
    split; try reflexivity; simpl; unfold wrapped; by rewrite ?Hwrap.
Qed.

Lemma same_config_set_wrap self atoms :
  is_Some (wrap self) → same_config self (set_wrap (Some atoms) self).
Proof. intros [a Ha]. split; try reflexivity. simpl. by rewrite Ha. Qed.

Lemma same_config_init_batch self : same_config self (_init_batch self).
Proof.
  unfold _init_batch. simpl.
  destruct (_contact_map self); simpl;
    destruct (is_None (_reference_pdb_file self)); simpl;
    destruct (_fraction_of_contacts self); simpl;
    destruct (_point_cloud self); split; reflexivity.
Qed.

Lemma same_config_set_point_cloud_data self v :
  same_config self (set_point_cloud_data v self).
Proof. by split. Qed.

Lemma num_frames_collect self positions :
  collect_error self positions = None →
  _num_frames (collect self positions) = _num_frames self + 1.
Proof.
  unfold collect, collect_with, collect_error.
  destruct (_contact_map self), (_fraction_of_contacts self),
    (_point_cloud self), (is_None (_reference_positions self));
    try destruct (rmsd_of self positions) as [e|v];
    try destruct (wrap self) as [atoms|]; done.
Qed.

(** A routine of the RMSD that raises leaves the counter as it was. *)
Lemma num_frames_collect_error self positions e :
  collect_error self positions = Some e →
  _num_frames (collect self positions) = _num_frames self.
Proof.
  unfold collect, collect_with, collect_error.
  destruct (_contact_map self), (_fraction_of_contacts self),
    (_point_cloud self), (is_None (_reference_positions self));
    try destruct (rmsd_of self positions) as [e'|v];
    try destruct (wrap self) as [atoms|]; done.
Qed.

Lemma report_select_error self files io simulation state e :
  select_positions self simulation state = inl e →
  report io simulation state {| reporter := self; fs := files |} =
  ({| reporter := self; fs := files |}, inl e).
Proof.
  intros Hsel. unfold report. rewrite bind_get_self. simpl reporter.
  rewrite Hsel. by rewrite bind_lift_inl.
Qed.

Lemma report_spec self files io simulation state k :
  batch_inv self k →
  report_outcome self files io simulation state
    (report io simulation state {| reporter := self; fs := files |}).1
    (report io simulation state {| reporter := self; fs := files |}).2.
Proof.
  intros Hinv.
  destruct (select_positions self simulation state) as [e|positions] eqn:Hsel.
  - rewrite (report_select_error _ _ _ _ _ _ Hsel). by constructor.
  - rewrite (report_collect _ _ _ _ _ _ _ Hinv Hsel).
    destruct (collect_error self positions) as [e|] eqn:Herr.
    { by apply report_rmsd_failed. }
    rewrite (num_frames_collect _ _ Herr),
      (cfg_frames_per_h5 _ _ (same_config_collect _ _)).
    unfold when. destruct (Z.eqb_spec (_num_frames self + 1) (_frames_per_h5 self)).
    + eapply report_flushed; [done..|].
      eapply flush_spec, collect_inv; [exact Hinv|done].
    + by apply report_collected.
Qed.

End one_call.

(** ** Runs of calls *)

Lemma next_count_since_reset n j :
  next_count n (frames_since_reset n j) = frames_since_reset n (S j).
Proof.
  unfold next_count, frames_since_reset.
  destruct (Z.ltb_spec 0 n) as [Hn|Hn].
  - set (N := Z.to_nat n). assert (HN : (N ≠ 0)%nat) by lia.
    pose proof (Nat.mod_upper_bound j N HN) as Hlt.
    pose proof (Nat.div_mod_eq j N) as Hj.
    destruct (Z.eqb_spec (Z.of_nat (j `mod` N) + 1) n) as [E|E].
    + apply (Nat.mod_unique _ _ (S (j / N))); lia.
    + apply (Nat.mod_unique _ _ (j / N)); lia.
  - destruct (Z.eqb_spec (Z.of_nat j + 1) n); [lia|done].
Qed.

Lemma iter_next_count n j :
  Nat.iter j (next_count n) 0%nat = frames_since_reset n j.
Proof.
  induction j as [|j IH]; simpl.
  - unfold frames_since_reset. destruct (0 <? n); [|done].
    by rewrite Nat.Div0.mod_0_l.
  - by rewrite IH, next_count_since_reset.
Qed.

Section runs.
Context `{MDLibs}.
Implicit Type self : OfflineReporter.

Lemma report_keeps_inv self files io simulation state k w' :
  batch_inv self k →
  report io simulation state {| reporter := self; fs := files |} = (w', inr ()) →
  batch_inv (reporter w') (next_count (_frames_per_h5 self) k) ∧
  same_config self (reporter w').
Proof.
  intros Hinv Hrep.
  pose proof (report_spec self files io simulation state k Hinv) as Hout.
  rewrite Hrep in Hout. simpl in Hout.
  pose proof (inv_counter _ _ Hinv) as Hk. unfold next_count.
  inversion Hout as [| | p Hsel Herr Hne | p w r Hsel Herr Heq Hfl]; subst.
  - simpl. rewrite <- Hk.
    destruct (Z.eqb_spec (_num_frames self + 1) (_frames_per_h5 self)); [done|].
    split; [by apply collect_inv | apply same_config_collect].
  - rewrite <- Hk.
    destruct (Z.eqb_spec (_num_frames self + 1) (_frames_per_h5 self)); [|done].
    pose proof (collect_inv self p k Hinv Herr) as Hc.
    inversion Hfl; subst. simpl. split.
    + apply init_batch_inv; [apply (inv_reference _ _ Hc)|apply (inv_reference_contact_map _ _ Hc)].
    + eapply same_config_trans; [apply same_config_collect|apply same_config_init_batch].
Qed.

Lemma run_cons c calls w :
  run (c :: calls) w =
  (report (call_io c) (call_simulation c) (call_state c) ≫= λ _, run calls) w.
Proof. reflexivity. Qed.

Lemma run_keeps_inv calls : ∀ self files k w',
  batch_inv self k →
  run calls {| reporter := self; fs := files |} = (w', inr ()) →
  batch_inv (reporter w')
    (Nat.iter (length calls) (next_count (_frames_per_h5 self)) k) ∧
  same_config self (reporter w').
Proof.
  induction calls as [|c calls IH]; intros self files k w' Hinv Hrun.
  - injection Hrun as <-. simpl. split; [done|apply same_config_refl].
  - rewrite run_cons in Hrun. unfold mbind, M_bind in Hrun.
    destruct (report _ _ _ _) as [[s1 f1] [e|[]]] eqn:Hrep; [done|].
    destruct (report_keeps_inv _ _ _ _ _ _ _ Hinv Hrep) as [Hinv1 Hcfg1].
    simpl in Hinv1, Hcfg1.
    destruct (IH _ _ _ _ Hinv1 Hrun) as [Hinv2 Hcfg2].
    rewrite (cfg_frames_per_h5 _ _ Hcfg1) in Hinv2.
    simpl length. rewrite Nat.iter_succ_r. split; [done|].
    by eapply same_config_trans.
Qed.

End runs.

(** ** A whole batch *)

Section whole_batch.
Context `{MDLibs}.
Implicit Type self : OfflineReporter.

Lemma rows_collect self p :
  _rows (collect self p) =
  if _contact_map self then (λ l, l ++ [rows_of self p]) <$> _rows self
  else _rows self.
Proof.
  unfold collect, collect_with.
  destruct (_contact_map self), (_fraction_of_contacts self),
    (_point_cloud self), (is_None (_reference_positions self));
    try destruct (rmsd_of self p) as [e|v];
    try destruct (wrap self) as [atoms|]; reflexivity.
Qed.

Lemma cols_collect self p :
  _cols (collect self p) =
  if _contact_map self then (λ l, l ++ [cols_of self p]) <$> _cols self
  else _cols self.
Proof.
  unfold collect, collect_with.
  destruct (_contact_map self), (_fraction_of_contacts self),
    (_point_cloud self), (is_None (_reference_positions self));
    try destruct (rmsd_of self p) as [e|v];
    try destruct (wrap self) as [atoms|]; reflexivity.
Qed.

Lemma rmsd_collect self p :
  _rmsd (collect self p) =
  if is_None (_reference_positions self) then _rmsd self
  else match rmsd_of self p with
       | inr rmsd => (λ l, l ++ [rmsd]) <$> _rmsd self
       | inl _ => _rmsd self
       end.
Proof.
  unfold collect, collect_with.
  destruct (_contact_map self), (_fraction_of_contacts self),
    (_point_cloud self), (is_None (_reference_positions self));
    try destruct (rmsd_of self p) as [e|v];
    try destruct (wrap self) as [atoms|]; reflexivity.
Qed.

Lemma foc_collect self p :
  _fraction_of_contacts_data (collect self p) =
  if _fraction_of_contacts self
  then (λ l, l ++ [foc_of self p]) <$> _fraction_of_contacts_data self
  else _fraction_of_contacts_data self.
Proof.
  unfold collect, collect_with.
  destruct (_contact_map self), (_fraction_of_contacts self),
    (_point_cloud self), (is_None (_reference_positions self));
    try destruct (rmsd_of self p) as [e|v];
    try destruct (wrap self) as [atoms|]; reflexivity.
Qed.

Lemma pc_collect self p :
  _point_cloud_data (collect self p) =
  if _point_cloud self then pc_append p <$> _point_cloud_data self
  else _point_cloud_data self.
Proof.
  unfold collect, collect_with.
  destruct (_contact_map self), (_fraction_of_contacts self),
    (_point_cloud self), (is_None (_reference_positions self));
    try destruct (rmsd_of self p) as [e|v];
    try destruct (wrap self) as [atoms|]; reflexivity.
Qed.

(** The selection and the descriptors of a frame, but for the RMSD, depend
    on the configuration only. *)
Lemma descriptors_same_config self self' :
  same_config self self' →
  rows_of self' = rows_of self ∧ cols_of self' = cols_of self ∧
  foc_of self' = foc_of self ∧
  select_positions self' = select_positions self.
Proof.
  intros Hcfg.
  unfold rows_of, cols_of, foc_of, _compute_contact_map, select_positions.
  rewrite (cfg_threshold _ _ Hcfg), (cfg_reference_contact_map _ _ Hcfg),
    (cfg_openmm_selection _ _ Hcfg).
  repeat split; reflexivity.
Qed.

Lemma rmsd_routines_return_app self frames1 frames2 :
  rmsd_routines_return self (frames1 ++ frames2) ↔
  rmsd_routines_return self frames1 ∧
  rmsd_routines_return (foldl collect self frames1) frames2.
Proof.
  revert self. induction frames1 as [|p frames1 IH]; intros self; simpl.
  - tauto.
  - rewrite IH. tauto.
Qed.

(** With reference positions, the wrap closure is as its call left it. *)
Lemma wrap_collect_rmsd self p :
  is_None (_reference_positions self) = false →
  wrap (collect self p) = (wrapped self p).1.
Proof.
  intros Href. unfold collect, collect_with, wrapped. rewrite Href.
  destruct (_contact_map self), (_fraction_of_contacts self),
    (_point_cloud self), (rmsd_of self p) as [e|v],
    (wrap self) as [atoms|] eqn:Hwrap; simpl; by rewrite ?Hwrap.
Qed.

Lemma rmsd_routines_return_no_reference self frames :
  is_None (_reference_positions self) = true →
  rmsd_routines_return self frames.
Proof.
  revert self. induction frames as [|p frames IH]; intros self Href; [done|].
  split.
  - unfold collect_error. by rewrite Href.
  - apply IH.
    by rewrite (cfg_reference_positions _ _ (same_config_collect self p)).
Qed.

Lemma same_config_collected self frames :
  same_config self (foldl collect self frames).
Proof.
  revert self. induction frames as [|p frames IH]; intros self; simpl.
  - apply same_config_refl.
  - eapply same_config_trans; [apply same_config_collect|apply IH].
Qed.

Lemma collected_inv self frames k :
  batch_inv self k → rmsd_routines_return self frames →
  batch_inv (foldl collect self frames) (k + length frames).
Proof.
  revert self k.
  induction frames as [|p frames IH]; intros self k Hinv Hret; simpl.
  - by rewrite Nat.add_0_r.
  - destruct Hret as [Herr Hret]. rewrite <- Nat.add_succ_comm.
    apply IH; [by apply collect_inv|done].
Qed.

(** What collecting frames adds to the buffers. *)
Lemma collected_from frames : ∀ self,
  rmsd_routines_return self frames →
  let s := foldl collect self frames in
  (∀ rows cols,
     _contact_map self = true →
     _rows self = Some rows → _cols self = Some cols →
     _rows s = Some (rows ++ map (rows_of self) frames) ∧
     _cols s = Some (cols ++ map (cols_of self) frames)) ∧
  (∀ buf,
     is_None (_reference_positions self) = false → _rmsd self = Some buf →
     _rmsd s = Some (buf ++ rmsd_values self frames)) ∧
  (∀ buf,
     _fraction_of_contacts self = true →
     _fraction_of_contacts_data self = Some buf →
     _fraction_of_contacts_data s = Some (buf ++ map (foc_of self) frames)) ∧
  (∀ fr,
     _point_cloud self = true → _point_cloud_data self = Some (PcList fr) →
     _point_cloud_data s = Some (PcList (fr ++ frames))).
Proof.
  induction frames as [|p frames IH]; intros self Hret; cbv zeta.
  - simpl. repeat split; intros; by rewrite app_nil_r.
  - destruct Hret as [Herr Hret]. simpl foldl.
    destruct (IH _ Hret) as (Irows & Irmsd & Ifoc & Ipc). clear IH.
    pose proof (same_config_collect self p) as Hcfg.
    destruct (descriptors_same_config _ _ Hcfg) as (Er & Ec & Ef & _).
    rewrite Er, Ec in Irows. rewrite Ef in Ifoc.
    split; [|split; [|split]].
    + intros rows cols Hcm Hrows Hcols.
      destruct (Irows (rows ++ [rows_of self p]) (cols ++ [cols_of self p]))
        as [-> ->].
      * by rewrite (cfg_contact_map _ _ Hcfg).
      * by rewrite rows_collect, Hcm, Hrows.
      * by rewrite cols_collect, Hcm, Hcols.
      * simpl. by rewrite <- !app_assoc.
    + intros buf Href Hbuf.
      unfold collect_error in Herr. rewrite Href in Herr.
      simpl rmsd_values.
      destruct (rmsd_of self p) as [e|v] eqn:Hv; [done|].
      rewrite (Irmsd (buf ++ [v])).
      * by rewrite <- app_assoc.
      * by rewrite (cfg_reference_positions _ _ Hcfg).
      * by rewrite rmsd_collect, Href, Hv, Hbuf.
    + intros buf Hfc Hbuf.
      rewrite (Ifoc (buf ++ [foc_of self p])).
      * simpl. by rewrite <- app_assoc.
      * by rewrite (cfg_fraction_of_contacts _ _ Hcfg).
      * by rewrite foc_collect, Hfc, Hbuf.
    + intros fr Hpc Hbuf.
      rewrite (Ipc (fr ++ [p])).
      * by rewrite <- app_assoc.
      * by rewrite (cfg_point_cloud _ _ Hcfg).
      * by rewrite pc_collect, Hpc, Hbuf.
Qed.

(** The buffers after collecting the frames of a new batch. *)
Lemma collected_buffers self frames :
  batch_inv self 0 → rmsd_routines_return self frames →
  let s := foldl collect self frames in
  (_contact_map self = true →
   _rows s = Some (map (rows_of self) frames) ∧
   _cols s = Some (map (cols_of self) frames)) ∧
  (is_None (_reference_positions self) = false →
   _rmsd s = Some (rmsd_values self frames)) ∧
  (_fraction_of_contacts self = true →
   _fraction_of_contacts_data s = Some (map (foc_of self) frames)) ∧
  (_point_cloud self = true → _point_cloud_data s = Some (PcList frames)).
Proof.
  intros Hinv Hret. cbv zeta.
  destruct (collected_from frames self Hret) as (Irows & Irmsd & Ifoc & Ipc).
  destruct Hinv as [_ Hrows Hcols Hrmsd Hfoc Hpc Href _].
  rewrite <- Href in Hrmsd. rewrite !holds_0 in *.
  split; [|split; [|split]].
  - intros E. by apply (Irows [] []); auto.
  - intros E. by apply (Irmsd []); auto.
  - intros E. by apply (Ifoc []); auto.
  - intros E. apply (Ipc []); [done|].
    destruct (Hpc E) as ([|??] & -> & ?); done.
Qed.

Lemma collected_datasets self frames :
  batch_inv self 0 → rmsd_routines_return self frames →
  batch_datasets (foldl collect self frames) = full_batch self frames.
Proof.
  intros Hinv Hret.
  destruct (collected_buffers self frames Hinv Hret)
    as (Irows & Irmsd & Ifoc & Ipc).
  pose proof (same_config_collected self frames) as Hcfg.
  unfold batch_datasets, full_batch, transposed_point_cloud.
  rewrite (cfg_contact_map _ _ Hcfg), (cfg_reference_positions _ _ Hcfg),
    (cfg_fraction_of_contacts _ _ Hcfg), (cfg_point_cloud _ _ Hcfg).
  f_equal; [|f_equal; [|f_equal]].
  - destruct (_contact_map self); [|done]. by destruct (Irows eq_refl) as [-> ->].
  - destruct (_point_cloud self); [|done]. by rewrite (Ipc eq_refl).
  - destruct (is_None (_reference_positions self)); [done|]. by rewrite (Irmsd eq_refl).
  - destruct (_fraction_of_contacts self); [|done]. by rewrite (Ifoc eq_refl).
Qed.

(** Calls that do not fill the batch only collect. *)
Lemma run_collects calls : ∀ self files frames k,
  batch_inv self k →
  Forall2 (λ c p, select_positions self (call_simulation c) (call_state c)
                  = inr p) calls frames →
  rmsd_routines_return self frames →
  (∀ j, (0 < j ≤ length calls)%nat →
        Z.of_nat (k + j) ≠ _frames_per_h5 self) →
  run calls {| reporter := self; fs := files |} =
  ({| reporter := foldl collect self frames; fs := files |}, inr ()).
Proof.
  induction calls as [|c calls IH];
    intros self files frames k Hinv Hsel Hret Hno.
  - by inversion Hsel.
  - inversion Hsel as [|? p ? frames' Hp Hrest]; subst. simpl foldl.
    destruct Hret as [Herr Hret].
    rewrite run_cons.
    assert (report (call_io c) (call_simulation c) (call_state c)
              {| reporter := self; fs := files |} =
            ({| reporter := collect self p; fs := files |}, inr ())) as Hrep.
    { rewrite (report_collect _ _ _ _ _ _ _ Hinv Hp), Herr.
      rewrite (num_frames_collect _ _ Herr),
        (cfg_frames_per_h5 _ _ (same_config_collect _ _)).
      rewrite (inv_counter _ _ Hinv).
      destruct (Z.eqb_spec (Z.of_nat k + 1) (_frames_per_h5 self)) as [E|E];
        [|done].
      exfalso. apply (Hno 1%nat); [simpl; lia|]. lia. }
    unfold mbind, M_bind. rewrite Hrep.
    pose proof (same_config_collect self p) as Hcfg.
    destruct (descriptors_same_config _ _ Hcfg) as (_ & _ & _ & Es).
    apply (IH _ _ _ (S k)).
    + by apply collect_inv.
    + rewrite Es. done.
    + done.
    + intros j Hj. rewrite (cfg_frames_per_h5 _ _ Hcfg).
      replace (S k + j)%nat with (k + S j)%nat by lia.
      apply Hno. simpl. lia.
Qed.

Lemma run_app calls1 calls2 w :
  run (calls1 ++ calls2) w = (run calls1 ≫= λ _, run calls2) w.
Proof.
  revert w. induction calls1 as [|c calls1 IH]; intros w.
  - reflexivity.
  - simpl app. rewrite run_cons.
    change (run (c :: calls1))
      with (report (call_io c) (call_simulation c) (call_state c)
            ≫= λ _, run calls1).
    rewrite bind_assoc. unfold mbind, M_bind.
    destruct (report _ _ _ w) as [w1 [e|[]]]; [done|]. apply IH.
Qed.

End whole_batch.

(** ** The transposed point cloud *)

Section point_cloud.
Context `{MDLibs}.
Implicit Type self : OfflineReporter.

Lemma np_transpose_frames (frames : list frame) m :
  frames ≠ [] → Forall (λ p, length p = m) frames →
  np_transpose_buffer (PcList frames) = inr (point_cloud_array frames m).
Proof.
  intros Hne Hall. destruct frames as [|f0 rest]; [done|].
  unfold np_transpose_buffer, np_array3. cbv beta iota.
  rewrite Forall_forall in Hall.
  destruct (forallb _ _) eqn:E.
  - simpl. unfold np_transpose_021, point_cloud_array. simpl.
    rewrite (Hall f0) by (by left). by rewrite map_map.
  - exfalso. apply not_true_iff_false in E. apply E.
    apply forallb_forall. intros f Hf. apply Nat.eqb_eq.
    rewrite (Hall f), (Hall f0); [done|by left|by apply list_elem_of_In].
Qed.

Lemma column_vec3 (fr : frame) c k :
  (c < 3)%nat →
  column c (map vec3_to_list fr) !! k = fr !! k ≫= λ v, vec3_to_list v !! c.
Proof.
  intros Hc. revert k. induction fr as [|[[x y] z] fr IH]; intros k.
  - done.
  - unfold column in *. simpl.
    destruct c as [|[|[|c]]]; [| | |lia]; simpl;
      (destruct k as [|k]; [done|]); simpl; apply IH.
Qed.

Lemma entry_point_cloud_array (frames : list frame) m f c k fr :
  frames !! f = Some fr → (c < 3)%nat →
  entry (point_cloud_array frames m) f c k
  = fr !! k ≫= λ v, vec3_to_list v !! c.
Proof.
  intros Hf Hc. unfold entry, point_cloud_array. simpl.
  rewrite list_lookup_fmap, Hf. simpl.
  unfold transpose_2d. rewrite list_lookup_fmap.
  rewrite lookup_seq_lt by done. simpl.
  by apply column_vec3.
Qed.

Lemma entry_point_cloud_array_xyz (frames : list frame) m f k fr x y z :
  frames !! f = Some fr → fr !! k = Some (x, y, z) →
  entry (point_cloud_array frames m) f 0 k = Some x ∧
  entry (point_cloud_array frames m) f 1 k = Some y ∧
  entry (point_cloud_array frames m) f 2 k = Some z.
Proof.
  intros Hf Hk.
  rewrite (entry_point_cloud_array frames m f 0 k fr Hf) by lia.
  rewrite (entry_point_cloud_array frames m f 1 k fr Hf) by lia.
  rewrite (entry_point_cloud_array frames m f 2 k fr Hf) by lia.
  assert ((fr !! k : option (Vec3 float)) = Some (x, y, z)) as -> by exact Hk.
  done.
Qed.

Lemma column_length {A} c (rows : list (list A)) :
  (length (column c rows) ≤ length rows)%nat.
Proof.
  unfold column. induction rows as [|r rows IH]; simpl; [done|].
  rewrite length_app. destruct (r !! c); simpl; lia.
Qed.

(** The array has no entry outside its shape. *)
Lemma entry_point_cloud_array_bound (frames : list frame) m f c k :
  Forall (λ p, length p = m) frames →
  is_Some (entry (point_cloud_array frames m) f c k) →
  (f < length frames)%nat ∧ (c < 3)%nat ∧ (k < m)%nat.
Proof.
  intros Hall [v Hv]. unfold entry, point_cloud_array in Hv. simpl in Hv.
  rewrite list_lookup_fmap in Hv.
  destruct (frames !! f) as [fr|] eqn:Hf; [|done]. simpl in Hv.
  unfold transpose_2d in Hv. rewrite list_lookup_fmap in Hv.
  destruct (seq 0 3 !! c) as [j|] eqn:Hc; [|done]. simpl in Hv.
  pose proof (Forall_lookup_1 _ _ _ _ Hall Hf) as Hm. simpl in Hm.
  apply lookup_lt_Some in Hf, Hc, Hv. rewrite length_seq in Hc.
  pose proof (column_length j (map vec3_to_list fr)) as Hlen.
  rewrite length_map in Hlen. lia.
Qed.

End point_cloud.

(** ** A run that fills one batch *)

Section full_batch_run.
Context `{MDLibs}.
Implicit Type self : OfflineReporter.

Lemma h5_path_same_config self self' :
  same_config self self' → h5_path self' = h5_path self.
Proof. intros []. unfold h5_path. congruence. Qed.

(** A call that fills the batch, with no failure, flushes and resets. *)
Lemma report_flushes self files io simulation state p k :
  batch_inv self k →
  select_positions self simulation state = inr p →
  collect_error self p = None →
  _num_frames self + 1 = _frames_per_h5 self →
  (∀ op, io op = false) →
  (_point_cloud self = true →
   ∃ a, transposed_point_cloud (collect self p) = inr a) →
  report io simulation state {| reporter := self; fs := files |} =
  ({| reporter := _init_batch (collect self p);
      fs := <[h5_path self := batch_datasets (collect self p)]> files |},
   inr ()).
Proof.
  intros Hinv Hsel Herr Hfull Hio Htr.
  pose proof (report_spec self files io simulation state k Hinv) as Hout.
  destruct (report _ _ _ _) as [w r]. simpl in Hout.
  pose proof (same_config_collect self p) as Hcfg.
  inversion Hout as [e He | p' e Hp' He | p' Hp' _ Hne | p' w' r' Hp' _ _ Hfl];
    subst.
  - congruence.
  - congruence.
  - done.
  - assert (p' = p) as -> by congruence.
    inversion Hfl as [ | op ? Hop | op ? ? Hop | e ? Hp Ht ]; subst.
    + by rewrite (h5_path_same_config _ _ Hcfg).
    + by rewrite Hio in Hop.
    + by rewrite Hio in Hop.
    + rewrite (cfg_point_cloud _ _ Hcfg) in Hp.
      destruct (Htr Hp) as [a Ha]. congruence.
Qed.

Lemma wrap_init_batch self : wrap (_init_batch self) = wrap self.
Proof.
  unfold _init_batch. simpl.
  destruct (_contact_map self); simpl;
    destruct (is_None (_reference_pdb_file self)); simpl;
    destruct (_fraction_of_contacts self); simpl;
    destruct (_point_cloud self); reflexivity.
Qed.

Lemma init_batch_collected self frames :
  batch_inv self 0 →
  _init_batch (foldl collect self frames) = next_batch self frames.
Proof.
  intros Hinv. unfold next_batch.
  transitivity (set_wrap (wrap (foldl collect self frames)) (_init_batch self));
    [|by rewrite (init_batch_fresh self Hinv)].
  pose proof (inv_reference _ _ Hinv) as Href. clear Hinv.
  revert self Href. induction frames as [|p frames IH]; intros self Href.
  - simpl. rewrite <- (wrap_init_batch self). symmetry. apply set_wrap_wrap.
  - simpl. rewrite IH.
    + by rewrite init_batch_collect.
    + destruct (same_config_collect self p). congruence.
Qed.

(** Without reference positions a batch leaves the reporter as it was. *)
Lemma next_batch_no_reference self frames :
  is_None (_reference_positions self) = true → next_batch self frames = self.
Proof.
  intros Href. unfold next_batch.
  assert (wrap (foldl collect self frames) = wrap self) as ->;
    [|apply set_wrap_wrap].
  revert self Href. induction frames as [|p frames IH]; intros self Href; [done|].
  simpl. rewrite IH; [by apply wrap_collect|].
  by rewrite (cfg_reference_positions _ _ (same_config_collect self p)).
Qed.

(** Without a wrap closure too. *)
Lemma next_batch_no_wrap self frames :
  wrap self = None → next_batch self frames = self.
Proof.
  intros Hwrap. unfold next_batch.
  pose proof (cfg_wrap _ _ (same_config_collected self frames)) as Hw.
  rewrite Hwrap in Hw. destruct (wrap (foldl collect self frames)); [done|].
  rewrite <- Hwrap. apply set_wrap_wrap.
Qed.

Lemma next_batch_inv self frames :
  batch_inv self 0 →
  batch_inv (next_batch self frames) 0 ∧
  same_config self (next_batch self frames).
Proof.
  intros Hinv. rewrite <- (init_batch_collected self frames Hinv).
  pose proof (same_config_collected self frames) as Hcfg. split.
  - apply init_batch_inv.
    + rewrite (cfg_reference_positions _ _ Hcfg),
        (cfg_reference_pdb_file _ _ Hcfg).
      apply (inv_reference _ _ Hinv).
    + rewrite (cfg_fraction_of_contacts _ _ Hcfg),
        (cfg_reference_contact_map _ _ Hcfg).
      apply (inv_reference_contact_map _ _ Hinv).
  - eapply same_config_trans; [exact Hcfg|apply same_config_init_batch].
Qed.

Lemma run_single c w :
  run [c] w = report (call_io c) (call_simulation c) (call_state c) w.
Proof.
  simpl. unfold mbind, M_bind.
  by destruct (report _ _ _ w) as [w1 [e|[]]].
Qed.

(** A batch of [n] calls from a new batch: the last call writes the file and
    the reporter is back at the new batch. *)
Lemma run_full_batch self files calls frames :
  batch_inv self 0 →
  _frames_per_h5 self = Z.of_nat (length calls) →
  calls ≠ [] →
  Forall (λ c, ∀ op, call_io c op = false) calls →
  Forall2 (λ c p, select_positions self (call_simulation c) (call_state c)
                  = inr p) calls frames →
  rmsd_routines_return self frames →
  (_point_cloud self = true →
   ∃ a, np_transpose_buffer (PcList frames) = inr a) →
  run calls {| reporter := self; fs := files |} =
  ({| reporter := next_batch self frames;
      fs := <[h5_path self := full_batch self frames]> files |}, inr ()).
Proof.
  intros Hinv Hn Hne Hio Hsel Hret Htr.
  destruct calls as [|c0 calls0] using rev_ind; [done|]. clear IHcalls0 Hne.
  apply Forall2_app_inv_l in Hsel
    as (frames0 & fl & Hsel0 & Hsell & ->).
  inversion Hsell as [|? p ? ? Hp Hnil]; subst. inversion Hnil; subst.
  rewrite length_app in Hn. simpl in Hn.
  apply Forall_app in Hio as [_ Hio]. inversion Hio as [|? ? Hio0 _]; subst.
  rewrite run_app. unfold mbind, M_bind.
  pose proof Hret as Hret'.
  apply rmsd_routines_return_app in Hret' as [Hret0 [Herr _]].
  rewrite (run_collects calls0 self files frames0 0 Hinv Hsel0 Hret0)
    by (intros; lia).
  rewrite run_single.
  pose proof (collected_inv self frames0 0 Hinv Hret0) as Hinv0.
  pose proof (same_config_collected self frames0) as Hcfg.
  destruct (descriptors_same_config _ _ Hcfg) as (_ & _ & _ & Es).
  assert (foldl collect self (frames0 ++ [p])
          = collect (foldl collect self frames0) p) as Hsnoc
    by (by rewrite foldl_app).
  rewrite (report_flushes _ _ _ _ _ p _ Hinv0).
  - rewrite <- Hsnoc.
    rewrite (h5_path_same_config _ _ Hcfg).
    rewrite (collected_datasets _ _ Hinv Hret).
    rewrite (init_batch_collected self (frames0 ++ [p]) Hinv).
    reflexivity.
  - by rewrite Es.
  - done.
  - rewrite (inv_counter _ _ Hinv0), (cfg_frames_per_h5 _ _ Hcfg), Hn.
    rewrite (Forall2_length _ _ _ Hsel0). lia.
  - done.
  - intros Hpc. rewrite (cfg_point_cloud _ _ Hcfg) in Hpc.
    rewrite <- Hsnoc. unfold transposed_point_cloud.
    destruct (collected_buffers self (frames0 ++ [p]) Hinv Hret)
      as (_ & _ & _ & Ipc).
    rewrite (Ipc Hpc). by apply Htr.
Qed.

End full_batch_run.

(** ** What a call does to the files *)

Section files.
Context `{MDLibs}.
Implicit Type self : OfflineReporter.

(** Whatever its outcome, a call touches no file but the reporter's own. *)
Lemma report_other_paths self files io simulation state k path :
  batch_inv self k → path ≠ h5_path self →
  fs (report io simulation state {| reporter := self; fs := files |}).1 !! path
  = files !! path.
Proof.
  intros Hinv Hpath.
  pose proof (report_spec self files io simulation state k Hinv) as Hout.
  destruct (report _ _ _ _) as [w r]. simpl in *.
  inversion Hout as [e He | p e Hp He | p Hp _ Hne | p w' r' Hp _ _ Hfl];
    subst; [done..|].
  rewrite <- (h5_path_same_config _ _ (same_config_collect self p)) in Hpath.
  inversion Hfl as [ | ? ? _ _ _ Hfr | ? ? ? _ _ _ _ _ Hfr | ? ? _ _ Hfr ];
    subst; simpl.
  - by rewrite lookup_insert_ne.
  - by apply Hfr.
  - by apply Hfr.
  - by apply Hfr.
Qed.

(** Whatever its outcome, a call that does not fill the batch touches no
    file at all. *)
Lemma report_partial_batch self files io simulation state k :
  batch_inv self k → _num_frames self + 1 ≠ _frames_per_h5 self →
  fs (report io simulation state {| reporter := self; fs := files |}).1 = files.
Proof.
  intros Hinv Hne.
  pose proof (report_spec self files io simulation state k Hinv) as Hout.
  destruct (report _ _ _ _) as [w r]. simpl in *.
  by inversion Hout; subst.
Qed.

(** The configuration survives every outcome of a call. *)
Lemma report_same_config self files io simulation state k :
  batch_inv self k →
  same_config self
    (reporter
       (report io simulation state {| reporter := self; fs := files |}).1).
Proof.
  intros Hinv.
  pose proof (report_spec self files io simulation state k Hinv) as Hout.
  destruct (report _ _ _ _) as [w r]. simpl in *.
  inversion Hout as [e He | p e Hp He | p Hp _ Hne | p w' r' Hp _ _ Hfl];
    subst; simpl.
  - apply same_config_refl.
  - apply same_config_collect.
  - apply same_config_collect.
  - eapply same_config_trans; [apply same_config_collect|].
    inversion Hfl; subst; simpl.
    + apply same_config_init_batch.
    + apply same_config_refl.
    + apply same_config_set_point_cloud_data.
    + apply same_config_refl.
Qed.

(** With a batch size that the counter never reaches, no run of calls
    changes the files, whether it ends normally or in an exception. *)
Lemma run_never_flushes calls : ∀ self files k,
  batch_inv self k →
  (∀ j, (0 < j)%nat → Z.of_nat (k + j) ≠ _frames_per_h5 self) →
  fs (run calls {| reporter := self; fs := files |}).1 = files.
Proof.
  induction calls as [|c calls IH]; intros self files k Hinv Hno; [done|].
  rewrite run_cons. unfold mbind, M_bind.
  assert (_num_frames self + 1 ≠ _frames_per_h5 self) as Hne.
  { rewrite (inv_counter _ _ Hinv). specialize (Hno 1%nat). lia. }
  pose proof (report_partial_batch self files (call_io c) (call_simulation c)
                (call_state c) k Hinv Hne) as Hfs.
  destruct (report _ _ _ _) as [[s1 f1] [e|[]]] eqn:Hrep; simpl in Hfs; subst f1.
  - done.
  - destruct (report_keeps_inv _ _ _ _ _ _ _ Hinv Hrep) as [Hinv1 Hcfg1].
    simpl in Hinv1, Hcfg1. unfold next_count in Hinv1.
    rewrite <- (inv_counter _ _ Hinv) in Hinv1.
    destruct (Z.eqb_spec (_num_frames self + 1) (_frames_per_h5 self));
      [done|].
    apply (IH _ _ (S k) Hinv1).
    intros j Hj. rewrite (cfg_frames_per_h5 _ _ Hcfg1).
    replace (S k + j)%nat with (k + S j)%nat by lia. apply Hno. lia.
Qed.

(** Completed runs keep the configuration and touch only the reporter's
    own file. *)
Lemma run_other_paths calls : ∀ self files k w path,
  batch_inv self k →
  run calls {| reporter := self; fs := files |} = (w, inr ()) →
  path ≠ h5_path self →
  fs w !! path = files !! path.
Proof.
  induction calls as [|c calls IH]; intros self files k w path Hinv Hrun Hpath.
  - by injection Hrun as <-.
  - rewrite run_cons in Hrun. unfold mbind, M_bind in Hrun.
    pose proof (report_other_paths self files (call_io c) (call_simulation c)
                  (call_state c) k path Hinv Hpath) as Hfs.
    destruct (report _ _ _ _) as [[s1 f1] [e|[]]] eqn:Hrep; [done|].
    destruct (report_keeps_inv _ _ _ _ _ _ _ Hinv Hrep) as [Hinv1 Hcfg1].
    simpl in *. rewrite <- Hfs.
    apply (IH _ _ _ _ _ Hinv1 Hrun).
    by rewrite (h5_path_same_config _ _ Hcfg1).
Qed.

End files.

(** * The statements of the specification *)

Import Example.


Section claim_C1.
Context `{MDLibs}.
Implicit Type self : OfflineReporter.

(** C1.  For a reporter constructed with batch size [n > 0], take the [n]
    calls of a batch, without I/O failure, whose selections succeed with
    frames of one size and for which the routines of the RMSD, the wrap
    closure and [rms.rmsd], return.  The
    first [n - 1] calls only collect and leave the files alone; the [n]-th
    call writes every enabled buffer to the container (contact-map rows and
    columns, transposed point cloud, RMSD values, fractions of contacts, for
    all [n] frames) and leaves the reporter in the state of a new batch: the
    frame counter is 0, every enabled buffer is empty and the configuration
    is as constructed.  The reporter is then the constructed one, but for
    the atom group of the wrap closure when RMSD values were collected
    through it. *)
Theorem flush_after_full_batch
    file reportInterval (n : nat) wrap_pdb_file reference_pdb_file
    openmm_selection mda_selection threshold contact_map point_cloud foc
    self files calls frames m :
  __init__ file reportInterval (Z.of_nat n) wrap_pdb_file reference_pdb_file
    openmm_selection mda_selection threshold contact_map point_cloud foc
  = inr self →
  (0 < n)%nat → length calls = n →
  Forall (λ c, ∀ op, call_io c op = false) calls →
  Forall2 (λ c p, select_positions self (call_simulation c) (call_state c)
                  = inr p) calls frames →
  rmsd_routines_return self frames →
  (point_cloud = true → Forall (λ p, length p = m) frames) →
  (∀ j, (j < n)%nat →
     run (take j calls) {| reporter := self; fs := files |} =
     ({| reporter := foldl collect self (take j frames); fs := files |},
      inr ())) ∧
  run calls {| reporter := self; fs := files |} =
  ({| reporter := next_batch self frames;
      fs := <[file +:+ ".h5" := full_batch self frames]> files |}, inr ()) ∧
  _num_frames (next_batch self frames) = 0 ∧
  (contact_map = true →
   _rows (next_batch self frames) = Some [] ∧
   _cols (next_batch self frames) = Some []) ∧
  (is_Some reference_pdb_file → _rmsd (next_batch self frames) = Some []) ∧
  (foc = true →
   _fraction_of_contacts_data (next_batch self frames) = Some []) ∧
  (point_cloud = true →
   _point_cloud_data (next_batch self frames) = Some (PcList [])) ∧
  same_config self (next_batch self frames) ∧
  (reference_pdb_file = None ∨ wrap_pdb_file = None →
   next_batch self frames = self).
Proof.
  intros Hinit Hn Hlen Hio Hsel Hret Hm.
  destruct (init_inv _ _ _ _ _ _ _ _ _ _ _ _ Hinit)
    as (Hinv & _ & Hbase & Hfull & _ & Hcm & Hpc & Hfoc & Href).
  split; [|split].
  - intros j Hj. apply (run_collects _ _ _ _ 0%nat Hinv).
    + by apply Forall2_take.
    + rewrite <- (take_drop j frames) in Hret.
      by apply rmsd_routines_return_app in Hret as [Hret _].
    + intros i Hi. rewrite length_take in Hi. rewrite Hfull. lia.
  - replace (file +:+ ".h5") with (h5_path self)
      by (unfold h5_path; by rewrite Hbase).
    apply run_full_batch; try done.
    + rewrite Hfull. by rewrite Hlen.
    + intros ->. simpl in Hlen. lia.
    + rewrite Hpc. intros Hp. exists (point_cloud_array frames m).
      apply np_transpose_frames; [|by apply Hm].
      intros ->. apply Forall2_length in Hsel. simpl in Hsel. lia.
  - destruct (next_batch_inv self frames Hinv) as [Hinv' Hcfg].
    destruct Hinv' as [Ik Irows Icols Irmsd Ifoc Ipc _ _].
    rewrite !holds_0 in *.
    rewrite (cfg_contact_map _ _ Hcfg) in Irows, Icols.
    rewrite (cfg_reference_pdb_file _ _ Hcfg) in Irmsd.
    rewrite (cfg_fraction_of_contacts _ _ Hcfg) in Ifoc.
    rewrite (cfg_point_cloud _ _ Hcfg) in Ipc.
    split; [done|]. split; [|split; [|split; [|split; [|split]]]].
    + intros ->. split; [apply Irows|apply Icols]; done.
    + intros [rf ->]. apply Irmsd. by rewrite Href.
    + intros ->. by apply Ifoc.
    + intros ->. destruct (Ipc Hpc) as ([|??] & -> & ?); done.
    + done.
    + intros [-> | ->].
      * apply next_batch_no_reference.
        rewrite (inv_reference _ _ Hinv), Href. done.
      * apply next_batch_no_wrap. by apply (init_wrap _ _ _ _ _ _ _ _ _ _ _ _ Hinit).
Qed.

End claim_C1.

Lemma flush_after_full_batch_witness :
  run [call_at no_failure 1; call_at no_failure 2]
    {| reporter := ex_reporter_all; fs := ∅ |} =
  ({| reporter := ex_reporter_all;
      fs := {[ "out.h5" :=
                 [DsContactMap [[0; 1]; [0; 1]] [[1; 0]; [1; 0]];
                  DsPointCloud
                    {| shape := (2, 3, 2)%nat;
                       data := [ [[0; 1]; [0; 0]; [0; 0]];
                                 [[0; 2]; [0; 0]; [0; 0]] ] |};
                  DsRmsd [0; 0];
                  DsFractionOfContacts [1; 1]] ]} |},
   inr ()).
Proof.
  refine (proj1 (proj2
    (flush_after_full_batch (H := libs) "out" 10 2 None (Some "ref.pdb")
       ["CA"] "protein and name CA" 8 true true true ex_reporter_all ∅
       [call_at no_failure 1; call_at no_failure 2]
       [[(0, 0, 0); (1, 0, 0)]; [(0, 0, 0); (2, 0, 0)]] 2 _ _ _ _ _ _ _))).
  - reflexivity.
  - lia.
  - reflexivity.
  - repeat constructor.
  - repeat constructor.
  - repeat constructor.
  - intros _. repeat constructor.
Defined.

Section claim_C2.
Context `{MDLibs}.
Implicit Type self : OfflineReporter.

(** C2.  Without a reference structure file, construction raises the
    configuration error ([ValueError] in the source) when
    fraction-of-contacts is enabled and when contact-map is enabled, and
    returns no reporter.  With a reference file, the two checks pass: an
    error of the constructor can only be one raised by loading a structure
    file, and when the files load the reporter is constructed. *)
Theorem reference_required_for_contacts
    file reportInterval frames_per_h5 wrap_pdb_file reference_pdb_file
    openmm_selection mda_selection threshold contact_map point_cloud foc :
  let constructed :=
    __init__ file reportInterval frames_per_h5 wrap_pdb_file
      reference_pdb_file openmm_selection mda_selection threshold contact_map
      point_cloud foc in
  (reference_pdb_file = None → foc = true →
   constructed = inl (ValueError
     "Computing `fraction_of_contacts` requires `refernce_pdb_file`.")) ∧
  (reference_pdb_file = None → foc = false → contact_map = true →
   constructed = inl (ValueError
     "Computing `contact_map` requires `refernce_pdb_file`.")) ∧
  (is_Some reference_pdb_file →
   (∀ e, constructed = inl e →
         ∃ f, Universe_select_atoms f mda_selection = inl e) ∧
   ((∀ f e, Universe_select_atoms f mda_selection ≠ inl e) →
    ∃ self, constructed = inr self)).
Proof.
  intros constructed. subst constructed. split; [|split].
  - by intros -> ->.
  - by intros -> -> ->.
  - intros [rf ->]. unfold __init__.
    change (is_None (Some rf)) with false. rewrite !andb_false_r.
    cbv zeta. cbv iota.
    match goal with |- context [_init_batch ?s] =>
      pose proof (same_config_init_batch s) as Hcfg;
      pose proof (cfg_reference_pdb_file _ _ Hcfg) as Href;
      pose proof (cfg_mda_selection _ _ Hcfg) as Hmda;
      cbn [_reference_pdb_file _mda_selection] in Href, Hmda;
      clear Hcfg; generalize dependent (_init_batch s)
    end.
    intros s0 Href Hmda.
    unfold _init_reference_positions, _init_reference_contact_map,
      _init_wrap.
    unfold mbind, Exc_bind.
    split.
    + intros e.
      repeat (simpl; rewrite ?Href, ?Hmda;
              match goal with
              | |- context [match ?x with _ => _ end] =>
                  lazymatch x with
                  | context [match _ with _ => _ end] => fail
                  | _ => destruct x eqn:?
                  end
              end);
      simpl; intros [= <-]; eauto.
    + intros Hload.
      repeat (simpl; rewrite ?Href, ?Hmda;
              match goal with
              | |- context [match ?x with _ => _ end] =>
                  lazymatch x with
                  | context [match _ with _ => _ end] => fail
                  | _ => destruct x eqn:?
                  end
              end);
      simpl; eauto; exfalso; eapply Hload; eauto.
Qed.

End claim_C2.

Lemma reference_required_for_contacts_witness :
  __init__ (H := libs) "out" 10 0 None None ["CA"] "protein and name CA" 8
    true true true
  = inl (ValueError
      "Computing `fraction_of_contacts` requires `refernce_pdb_file`.").
Proof.
  refine (proj1
    (reference_required_for_contacts (H := libs) "out" 10 0 None None ["CA"]
       "protein and name CA" 8 true true true) _ _); reflexivity.
Defined.

Section claim_C3.
Context `{MDLibs}.
Implicit Type self : OfflineReporter.

(** C3.  After any number of completed [report] calls on a constructed
    reporter, the frame counter is the number of calls since the last reset
    and every enabled buffer holds exactly that many entries: the
    contact-map row and column lists, the RMSD list when a reference file is
    configured, the fraction-of-contacts list and the point-cloud list. *)
Theorem buffers_track_frame_counter
    file reportInterval frames_per_h5 wrap_pdb_file reference_pdb_file
    openmm_selection mda_selection threshold contact_map point_cloud foc
    self files calls w :
  __init__ file reportInterval frames_per_h5 wrap_pdb_file reference_pdb_file
    openmm_selection mda_selection threshold contact_map point_cloud foc
  = inr self →
  run calls {| reporter := self; fs := files |} = (w, inr ()) →
  let k := frames_since_reset frames_per_h5 (length calls) in
  _num_frames (reporter w) = Z.of_nat k ∧
  (contact_map = true →
   holds k (_rows (reporter w)) ∧ holds k (_cols (reporter w))) ∧
  (is_Some reference_pdb_file → holds k (_rmsd (reporter w))) ∧
  (foc = true → holds k (_fraction_of_contacts_data (reporter w))) ∧
  (point_cloud = true →
   ∃ frames, _point_cloud_data (reporter w) = Some (PcList frames) ∧
             length frames = k).
Proof.
  intros Hinit Hrun k.
  destruct (init_inv _ _ _ _ _ _ _ _ _ _ _ _ Hinit)
    as (Hinv & _ & _ & Hn & _ & Hcm & Hpc & Hfoc & Href).
  destruct (run_keeps_inv _ _ _ _ _ Hinv Hrun) as [Hinv' Hcfg].
  rewrite iter_next_count, Hn in Hinv'. fold k in Hinv'.
  destruct Hinv' as [Ik Irows Icols Irmsd Ifoc Ipc _ _].
  split; [done|]. split; [|split; [|split]].
  - intros ->.
    split; [apply Irows|apply Icols]; by rewrite (cfg_contact_map _ _ Hcfg).
  - intros [rf ->]. apply Irmsd.
    by rewrite (cfg_reference_pdb_file _ _ Hcfg), Href.
  - intros ->. apply Ifoc. by rewrite (cfg_fraction_of_contacts _ _ Hcfg).
  - intros ->. apply Ipc. by rewrite (cfg_point_cloud _ _ Hcfg).
Qed.

End claim_C3.

Lemma buffers_track_frame_counter_witness :
  let w := (run [call_at no_failure 1; call_at no_failure 2; call_at no_failure 3]
              {| reporter := ex_reporter_all; fs := ∅ |}).1 in
  _num_frames (reporter w) = 1 ∧
  (true = true → holds 1 (_rows (reporter w)) ∧ holds 1 (_cols (reporter w))) ∧
  (is_Some (Some "ref.pdb") → holds 1 (_rmsd (reporter w))) ∧
  (true = true → holds 1 (_fraction_of_contacts_data (reporter w))) ∧
  (true = true →
   ∃ frames, _point_cloud_data (reporter w) = Some (PcList frames) ∧
             length frames = 1%nat).
Proof.
  intros w.
  apply (buffers_track_frame_counter (H := libs) "out" 10 2 None (Some "ref.pdb") ["CA"]
           "protein and name CA" 8 true true true ex_reporter_all ∅
           [call_at no_failure 1; call_at no_failure 2; call_at no_failure 3] w).
  - (vm_compute; reflexivity).
  - (vm_compute; reflexivity).
Defined.

Section claim_C4.
Context `{MDLibs}.
Implicit Type self : OfflineReporter.

(** C4.  A reporter constructed with the default batch size 0 never changes
    the files, whatever the calls and however the run ends; and for any
    batch size, a call after which the frame counter differs from the batch
    size changes no file, so the frames it leaves in the buffers stay
    unwritten. *)
Theorem partial_batches_are_not_written
    file reportInterval wrap_pdb_file reference_pdb_file
    openmm_selection mda_selection threshold contact_map point_cloud foc
    self :
  __init__ file reportInterval default_frames_per_h5 wrap_pdb_file
    reference_pdb_file openmm_selection mda_selection threshold contact_map
    point_cloud foc
  = inr self →
  (∀ calls files,
     fs (run calls {| reporter := self; fs := files |}).1 = files) ∧
  (∀ self' k files io simulation state,
     batch_inv self' k →
     _num_frames self' + 1 ≠ _frames_per_h5 self' →
     fs (report io simulation state {| reporter := self'; fs := files |}).1
     = files).
Proof.
  intros Hinit.
  destruct (init_inv _ _ _ _ _ _ _ _ _ _ _ _ Hinit)
    as (Hinv & _ & _ & Hfull & _).
  split.
  - intros calls files. apply (run_never_flushes _ _ _ 0%nat Hinv).
    intros j Hj. rewrite Hfull. unfold default_frames_per_h5. lia.
  - intros self' k files io simulation state Hinv' Hne.
    by apply (report_partial_batch _ _ _ _ _ k).
Qed.

End claim_C4.

Lemma partial_batches_are_not_written_witness :
  fs (run [call_at no_failure 1; call_at no_failure 2; call_at no_failure 3]
        {| reporter := ex_reporter_default; fs := ∅ |}).1 = ∅.
Proof.
  refine (proj1
    (partial_batches_are_not_written (H := libs) "out" 10 None None ["CA"]
       "protein and name CA" 8 false true false ex_reporter_default _) _ _).
  reflexivity.
Defined.

Section claim_C5.
Context `{MDLibs}.
Implicit Type self : OfflineReporter.

(** C5.  For a report interval [r > 0] and current step [s], the scheduling
    query returns [(r - s mod r, True, False, False, False, None)]; its first
    component is the distance from [s] to the next multiple of [r]: positive,
    at most [r], reaching a multiple, with none strictly in between, and
    equal to [r] when [s] is itself a multiple. *)
Theorem describeNextReport_positions_only self simulation :
  0 < _report_interval self →
  let r := _report_interval self in
  let s := currentStep simulation in
  describeNextReport self simulation
  = inr (r - s `mod` r, true, false, false, false, None) ∧
  0 < r - s `mod` r ≤ r ∧
  (s + (r - s `mod` r)) `mod` r = 0 ∧
  (∀ d, 0 < d < r - s `mod` r → (s + d) `mod` r ≠ 0) ∧
  (s `mod` r = 0 → r - s `mod` r = r).
Proof.
  intros Hr r s. fold r in Hr.
  pose proof (Z.mod_pos_bound s r Hr) as Hm.
  split; [|split; [|split; [|split]]].
  - unfold describeNextReport. fold r s.
    destruct (Z.eqb_spec r 0); [lia|done].
  - lia.
  - replace (s + (r - s `mod` r)) with (s - s `mod` r + 1 * r) by lia.
    rewrite Z.mod_add by lia.
    rewrite Zminus_mod_idemp_r. by rewrite Z.sub_diag, Z.mod_0_l by lia.
  - intros d Hd Hz.
    rewrite <- Zplus_mod_idemp_l in Hz.
    rewrite Z.mod_small in Hz by lia. lia.
  - lia.
Qed.

End claim_C5.

Lemma describeNextReport_positions_only_witness :
  describeNextReport ex_reporter_pc (simulation 25)
  = inr (5, true, false, false, false, None).
Proof.
  refine (proj1
    (describeNextReport_positions_only (H := libs) ex_reporter_pc
       (simulation 25) _)).
  simpl. lia.
Defined.

Section claim_C6.
Context `{MDLibs}.
Implicit Type self : OfflineReporter.


End claim_C6.



Section claim_C7.
Context `{MDLibs}.
Implicit Type self : OfflineReporter.

(** C7.  With the point cloud enabled, the file written for a batch of [n]
    frames of [m] atoms (calls without I/O failure, for which the wrap
    closure and [rms.rmsd] return) holds exactly one point-cloud dataset, of
    shape [(n, 3, m)]: its entries [(f, 0, k)], [(f, 1, k)] and [(f, 2, k)]
    are the x, y and z coordinates of atom [k] of frame [f] as collected,
    and it has no entry outside that shape. *)
Theorem point_cloud_written_transposed
    file reportInterval (n : nat) wrap_pdb_file reference_pdb_file
    openmm_selection mda_selection threshold contact_map foc
    self files calls frames m w :
  __init__ file reportInterval (Z.of_nat n) wrap_pdb_file reference_pdb_file
    openmm_selection mda_selection threshold contact_map true foc
  = inr self →
  (0 < n)%nat → length calls = n →
  Forall (λ c, ∀ op, call_io c op = false) calls →
  Forall2 (λ c p, select_positions self (call_simulation c) (call_state c)
                  = inr p) calls frames →
  rmsd_routines_return self frames →
  Forall (λ p, length p = m) frames →
  w = (run calls {| reporter := self; fs := files |}).1 →
  ∃ ds a,
    fs w !! (file +:+ ".h5") = Some ds ∧
    (∀ a', DsPointCloud a' ∈ ds ↔ a' = a) ∧
    shape a = (n, 3%nat, m) ∧
    (∀ f k fr x y z,
       frames !! f = Some fr → fr !! k = Some (x, y, z) →
       entry a f 0 k = Some x ∧ entry a f 1 k = Some y ∧
       entry a f 2 k = Some z) ∧
    (∀ f c k, is_Some (entry a f c k) →
       (f < n)%nat ∧ (c < 3)%nat ∧ (k < m)%nat).
Proof.
  intros Hinit Hn Hlen Hio Hsel Hret Hm ->.
  destruct (init_inv _ _ _ _ _ _ _ _ _ _ _ _ Hinit)
    as (Hinv & _ & Hbase & Hfull & _ & Hcm & Hpc & Hfoc & Href).
  assert (frames ≠ []) as Hne.
  { intros ->. apply Forall2_length in Hsel. simpl in Hsel. lia. }
  pose proof (np_transpose_frames frames m Hne Hm) as Htr.
  rewrite (run_full_batch self files calls frames Hinv); try done; cycle 1.
  { rewrite Hfull. by rewrite Hlen. }
  { intros ->. simpl in Hlen. lia. }
  { intros _. eauto. }
  assert (length frames = n) as Hframes
    by (apply Forall2_length in Hsel; lia).
  exists (full_batch self frames), (point_cloud_array frames m). simpl.
  split; [|split; [|split; [|split]]].
  - unfold h5_path. rewrite Hbase. apply lookup_insert_eq.
  - intros a'. unfold full_batch. rewrite Hpc, Htr.
    rewrite !elem_of_app.
    destruct (_contact_map self), (is_None (_reference_positions self)),
      (_fraction_of_contacts self);
      rewrite ?elem_of_cons, ?elem_of_nil;
      (split; [intros Hx; decompose [or] Hx; try done; congruence
              |intros ->; auto 10]).
  - by rewrite Hframes.
  - intros f k fr x y z Hf Hk.
    by apply (entry_point_cloud_array_xyz frames m f k fr).
  - intros f c k Hentry. rewrite <- Hframes.
    by apply entry_point_cloud_array_bound.
Qed.

End claim_C7.

Lemma point_cloud_written_transposed_witness :
  ∃ ds a,
    fs (run [call_at no_failure 1; call_at no_failure 2]
          {| reporter := ex_reporter_pc; fs := ∅ |}).1 !! "out.h5" = Some ds ∧
    (∀ a', DsPointCloud a' ∈ ds ↔ a' = a) ∧
    shape a = (2, 3, 2)%nat ∧
    (∀ f k fr x y z,
       [[(0, 0, 0); (1, 0, 0)]; [(0, 0, 0); (2, 0, 0)]] !! f = Some fr →
       fr !! k = Some (x, y, z) →
       entry a f 0 k = Some x ∧ entry a f 1 k = Some y ∧
       entry a f 2 k = Some z) ∧
    (∀ f c k, is_Some (entry a f c k) →
       (f < 2)%nat ∧ (c < 3)%nat ∧ (k < 2)%nat).
Proof.
  refine (point_cloud_written_transposed (H := libs) "out" 10 2 None None
            ["CA"] "protein and name CA" 8 false false ex_reporter_pc ∅
            [call_at no_failure 1; call_at no_failure 2]
            [[(0, 0, 0); (1, 0, 0)]; [(0, 0, 0); (2, 0, 0)]] 2 _
            _ _ _ _ _ _ _ eq_refl).
  - reflexivity.
  - lia.
  - reflexivity.
  - repeat constructor.
  - repeat constructor.
  - repeat constructor.
  - repeat constructor.
Defined.

Section claim_C9.
Context `{MDLibs}.
Implicit Type self : OfflineReporter.

(** C9.  The file index is 0 after construction and, like the base name,
    is never changed by a completed run of calls, which touches no path but
    the base name followed by [.h5]; two full batches in a row (calls
    without I/O failure, with frames of one size per batch, for which the
    wrap closure and [rms.rmsd] return) leave at that path the data of the
    second batch only. *)
Theorem flushes_overwrite_one_file
    file reportInterval (n : nat) wrap_pdb_file reference_pdb_file
    openmm_selection mda_selection threshold contact_map point_cloud foc
    self files calls1 frames1 calls2 frames2 m1 m2 :
  __init__ file reportInterval (Z.of_nat n) wrap_pdb_file reference_pdb_file
    openmm_selection mda_selection threshold contact_map point_cloud foc
  = inr self →
  (0 < n)%nat → length calls1 = n → length calls2 = n →
  Forall (λ c, ∀ op, call_io c op = false) (calls1 ++ calls2) →
  Forall2 (λ c p, select_positions self (call_simulation c) (call_state c)
                  = inr p) calls1 frames1 →
  Forall2 (λ c p, select_positions self (call_simulation c) (call_state c)
                  = inr p) calls2 frames2 →
  rmsd_routines_return self frames1 →
  rmsd_routines_return (next_batch self frames1) frames2 →
  (point_cloud = true → Forall (λ p, length p = m1) frames1) →
  (point_cloud = true → Forall (λ p, length p = m2) frames2) →
  _file_idx self = 0 ∧
  (∀ calls w,
     run calls {| reporter := self; fs := files |} = (w, inr ()) →
     _file_idx (reporter w) = 0 ∧ _base_name (reporter w) = file ∧
     ∀ path, path ≠ file +:+ ".h5" → fs w !! path = files !! path) ∧
  run calls1 {| reporter := self; fs := files |} =
  ({| reporter := next_batch self frames1;
      fs := <[file +:+ ".h5" := full_batch self frames1]> files |}, inr ()) ∧
  run (calls1 ++ calls2) {| reporter := self; fs := files |} =
  ({| reporter := next_batch (next_batch self frames1) frames2;
      fs := <[file +:+ ".h5"
              := full_batch (next_batch self frames1) frames2]> files |},
   inr ()).
Proof.
  intros Hinit Hn Hlen1 Hlen2 Hio Hsel1 Hsel2 Hret1 Hret2 Hm1 Hm2.
  destruct (init_inv _ _ _ _ _ _ _ _ _ _ _ _ Hinit)
    as (Hinv & Hidx & Hbase & Hfull & _ & Hcm & Hpc & Hfoc & Href).
  apply Forall_app in Hio as [Hio1 Hio2].
  assert (Hpath : h5_path self = file +:+ ".h5")
    by (unfold h5_path; by rewrite Hbase).
  assert (Hbatch : ∀ s calls frames m files',
    batch_inv s 0 → same_config self s →
    length calls = n →
    Forall (λ c, ∀ op, call_io c op = false) calls →
    Forall2 (λ c p, select_positions self (call_simulation c) (call_state c)
                    = inr p) calls frames →
    rmsd_routines_return s frames →
    (point_cloud = true → Forall (λ p, length p = m) frames) →
    run calls {| reporter := s; fs := files' |} =
    ({| reporter := next_batch s frames;
        fs := <[file +:+ ".h5" := full_batch s frames]> files' |}, inr ())).
  { intros s calls frames m files' Hs Hcfg Hlen Hio Hsel Hret Hm.
    rewrite <- Hpath, <- (h5_path_same_config _ _ Hcfg).
    destruct (descriptors_same_config _ _ Hcfg) as (_ & _ & _ & Es).
    apply run_full_batch; try done.
    - rewrite (cfg_frames_per_h5 _ _ Hcfg), Hfull. by rewrite Hlen.
    - intros ->. simpl in Hlen. lia.
    - by rewrite Es.
    - rewrite (cfg_point_cloud _ _ Hcfg), Hpc. intros Hp.
      exists (point_cloud_array frames m).
      apply np_transpose_frames; [|by apply Hm].
      intros ->. apply Forall2_length in Hsel. simpl in Hsel. lia. }
  split; [done|]. split; [|split].
  - intros calls w Hrun.
    destruct (run_keeps_inv _ _ _ _ _ Hinv Hrun) as [_ Hcfg].
    rewrite (cfg_file_idx _ _ Hcfg), (cfg_base_name _ _ Hcfg).
    split; [done|]. split; [done|].
    intros path Hne. apply (run_other_paths _ _ _ _ _ _ Hinv Hrun).
    by rewrite Hpath.
  - by apply (Hbatch self _ _ m1).
  - rewrite run_app. unfold mbind, M_bind.
    rewrite (Hbatch self _ _ m1 files Hinv (same_config_refl self)
               Hlen1 Hio1 Hsel1 Hret1 Hm1).
    destruct (next_batch_inv self frames1 Hinv) as [Hinv1 Hcfg1].
    rewrite (Hbatch _ _ _ m2 _ Hinv1 Hcfg1 Hlen2 Hio2 Hsel2 Hret2 Hm2).
    by rewrite insert_insert_eq.
Qed.

End claim_C9.

Lemma flushes_overwrite_one_file_witness :
  run ([call_at no_failure 1; call_at no_failure 2]
       ++ [call_at no_failure 3; call_at no_failure 4])
    {| reporter := Scenario.ex_reporter_wrap; fs := ∅ |} =
  ({| reporter :=
        set_wrap (Some [(0, 0, 0); (4, 0, 0)]) Scenario.ex_reporter_wrap;
      fs := {[ "out.h5" := [DsRmsd [0; 0]] ]} |},
   inr ()).
Proof.
  refine (proj2 (proj2 (proj2
    (flushes_overwrite_one_file (H := libs) "out" 10 2 (Some "wrap.pdb")
       (Some "ref.pdb") ["CA"] "protein and name CA" 8 false false false
       Scenario.ex_reporter_wrap ∅
       [call_at no_failure 1; call_at no_failure 2]
       [[(0, 0, 0); (1, 0, 0)]; [(0, 0, 0); (2, 0, 0)]]
       [call_at no_failure 3; call_at no_failure 4]
       [[(0, 0, 0); (3, 0, 0)]; [(0, 0, 0); (4, 0, 0)]] 2 2
       _ _ _ _ _ _ _ _ _ _ _)))).
  - reflexivity.
  - lia.
  - reflexivity.
  - reflexivity.
  - repeat constructor.
  - repeat constructor.
  - repeat constructor.
  - repeat constructor.
  - repeat constructor.
  - intros _. repeat constructor.
  - intros _. repeat constructor.
Defined.

Section claim_C10.
Context `{MDLibs}.
Implicit Type self : OfflineReporter.

(** C10.  [_collect_contact_map] appends to the row and column buffers the
    COO indices cast to 16-bit signed integers.  When every index of the
    frame is below [2^15] the stored indices are the true ones; an index of
    [2^15] or more is stored as a different value, in the signed 16-bit
    range and congruent to it modulo [2^16]. *)
Theorem contact_map_indices_wrap_to_int16 self files coo rows cols :
  _rows self = Some rows → _cols self = Some cols →
  let after := (_collect_contact_map coo {| reporter := self; fs := files |}).1 in
  let stored_rows := map astype_int16 (map fst coo) in
  let stored_cols := map astype_int16 (map snd coo) in
  _rows (reporter after) = Some (rows ++ [stored_rows]) ∧
  _cols (reporter after) = Some (cols ++ [stored_cols]) ∧
  (Forall (λ ij, 0 ≤ ij.1 < 2 ^ 15 ∧ 0 ≤ ij.2 < 2 ^ 15) coo →
   stored_rows = map fst coo ∧ stored_cols = map snd coo) ∧
  (∀ n i j, coo !! n = Some (i, j) →
     (2 ^ 15 ≤ i →
      ∃ v, stored_rows !! n = Some v ∧ v ≠ i ∧
           - 2 ^ 15 ≤ v < 2 ^ 15 ∧ (v - i) `mod` 2 ^ 16 = 0) ∧
     (2 ^ 15 ≤ j →
      ∃ v, stored_cols !! n = Some v ∧ v ≠ j ∧
           - 2 ^ 15 ≤ v < 2 ^ 15 ∧ (v - j) `mod` 2 ^ 16 = 0)).
Proof.
  intros Hrows Hcols after stored_rows stored_cols.
  assert (Hwrap : ∀ x, 2 ^ 15 ≤ x →
    astype_int16 x ≠ x ∧ - 2 ^ 15 ≤ astype_int16 x < 2 ^ 15 ∧
    (astype_int16 x - x) `mod` 2 ^ 16 = 0).
  { intros x Hx. unfold astype_int16.
    pose proof (Z.mod_pos_bound (x + 2 ^ 15) (2 ^ 16) ltac:(lia)) as Hb.
    split; [lia|]. split; [lia|].
    assert ((x + 2 ^ 15) `mod` 2 ^ 16
            = x + 2 ^ 15 - 2 ^ 16 * ((x + 2 ^ 15) `div` 2 ^ 16)) as ->
      by (apply Z.mod_eq; lia).
    replace (x + 2 ^ 15 - 2 ^ 16 * ((x + 2 ^ 15) `div` 2 ^ 16) - 2 ^ 15 - x)
      with (- ((x + 2 ^ 15) `div` 2 ^ 16) * 2 ^ 16) by lia.
    apply Z.mod_mul. lia. }
  assert (Hsmall : ∀ x, 0 ≤ x < 2 ^ 15 → astype_int16 x = x).
  { intros x Hx. unfold astype_int16. rewrite Z.mod_small by lia. lia. }
  split; [|split; [|split]].
  - subst after. unfold _collect_contact_map, list_append.
    exec. reflexivity.
  - subst after. unfold _collect_contact_map, list_append.
    exec. reflexivity.
  - intros Hall. subst stored_rows stored_cols. split.
    + induction Hall as [|[i j] ? [Hi _] _ IH]; simpl; [done|].
      by rewrite IH, (Hsmall i).
    + induction Hall as [|[i j] ? [_ Hj] _ IH]; simpl; [done|].
      by rewrite IH, (Hsmall j).
  - intros n i j Hn. subst stored_rows stored_cols. split.
    + intros Hi. exists (astype_int16 i). split; [|by apply Hwrap].
      by rewrite !list_lookup_fmap, Hn.
    + intros Hj. exists (astype_int16 j). split; [|by apply Hwrap].
      by rewrite !list_lookup_fmap, Hn.
Qed.

End claim_C10.

Lemma contact_map_indices_wrap_to_int16_witness :
  _rows (reporter
           (_collect_contact_map [(0, 40000); (40000, 0)]
              {| reporter := ex_reporter_one; fs := ∅ |}).1)
  = Some [[0; -25536]].
Proof.
  refine (proj1
    (contact_map_indices_wrap_to_int16 (H := libs) ex_reporter_one ∅
       [(0, 40000); (40000, 0)] [] [] _ _)); reflexivity.
Defined.

(** * Further properties of the code *)

Import Scenario.

(** ** The selection of atoms *)

Section selection.
Context `{MDLibs}.
Implicit Type self : OfflineReporter.

Lemma select_positions_inr self simulation state p :
  select_positions self simulation state = inr p ↔
  Forall2 (λ a v, stored_position <$> getPositions state !! index a = Some v)
    (selected_atoms self simulation) p.
Proof.
  unfold select_positions. fold (selected_atoms self simulation).
  generalize (selected_atoms self simulation) as sel. intros sel.
  destruct (mapM _ _) as [selected|] eqn:Hm.
  - apply mapM_Some in Hm. split.
    + intros [= <-]. apply Forall2_fmap_l in Hm. apply Forall2_fmap_r.
      eapply Forall2_impl; [exact Hm|]. intros a v Hv. simpl in *.
      rewrite list_lookup_fmap in Hv. unfold stored_position.
      destruct (getPositions state !! index a); simplify_eq/=; done.
    + intros HF. f_equal. 
      apply Forall2_fmap_l in Hm.
      revert p HF. induction Hm as [|a v sel' sl Hv _ IH]; intros p HF.
      * by inversion HF.
      * inversion HF as [|? w ? p' Hw HF']; subst. simpl. f_equal; [|by apply IH].
        simpl in Hv. rewrite list_lookup_fmap in Hv. unfold stored_position in Hw.
        destruct (getPositions state !! index a); simplify_eq/=; done.
  - split; [done|]. intros HF. exfalso.
    assert (is_Some (mapM (λ i : nat, map (vec3_map value_in_unit_angstrom) (getPositions state) !! i) (map index sel))) as [? ?]; [|congruence].
    apply mapM_is_Some. apply Forall_fmap.
    eapply Forall2_Forall_l; [exact HF|]. apply Forall_true. intros v a Hv.
    simpl. rewrite list_lookup_fmap.
    destruct (getPositions state !! index a); simplify_eq/=; eauto.
Qed.

End selection.

Section extra_selection.
Context `{MDLibs}.
Implicit Type self : OfflineReporter.

Lemma selected_atoms_elem self simulation a :
  a ∈ selected_atoms self simulation ↔
  a ∈ topology_atoms simulation ∧ name a ∈ _openmm_selection self.
Proof.
  unfold selected_atoms. rewrite !list_elem_of_In, filter_In.
  rewrite <- !list_elem_of_In.
  apply and_iff_compat_l. rewrite existsb_exists. split.
  - intros (x & Hx & Heq). apply String.eqb_eq in Heq as ->.
    by apply list_elem_of_In.
  - intros Hin. exists (name a). split; [by apply list_elem_of_In|].
    apply String.eqb_refl.
Qed.

Lemma select_positions_succeeds self simulation state :
  Forall (λ a, (index a < length (getPositions state))%nat)
    (selected_atoms self simulation) →
  ∃ p, select_positions self simulation state = inr p.
Proof.
  intros Hall.
  assert (∃ p, Forall2
    (λ a v, stored_position <$> getPositions state !! index a = Some v)
    (selected_atoms self simulation) p) as [p Hp].
  { induction Hall as [|a sel Ha _ [p IH]]; [by exists []|].
    destruct (lookup_lt_is_Some_2 _ _ Ha) as [q Hq].
    exists (stored_position q :: p). constructor; [by rewrite Hq|done]. }
  exists p. by apply select_positions_inr.
Qed.

Lemma select_positions_error self simulation state e :
  select_positions self simulation state = inl e → e = IndexError.
Proof.
  unfold select_positions. destruct (mapM _ _); [done|]. by intros [= <-].
Qed.

(** X1.  [report] keeps the atoms of the topology whose name is in the
    selection, in topology order.  The selection succeeds exactly when the
    index of every kept atom is below the number of positions of the state;
    it then has one entry per kept atom, the position at the atom's index
    in angstrom and single precision; its only error is [IndexError]. *)
Theorem selection_follows_topology self simulation state :
  let atoms := selected_atoms self simulation in
  (∀ a, a ∈ atoms ↔
        a ∈ topology_atoms simulation ∧ name a ∈ _openmm_selection self) ∧
  atoms `sublist_of` topology_atoms simulation ∧
  ((∃ p, select_positions self simulation state = inr p) ↔
   Forall (λ a, (index a < length (getPositions state))%nat) atoms) ∧
  (∀ p, select_positions self simulation state = inr p →
     length p = length atoms ∧
     ∀ i a, atoms !! i = Some a →
       p !! i = stored_position <$> getPositions state !! index a) ∧
  (∀ e, select_positions self simulation state = inl e → e = IndexError).
Proof.
  cbv zeta. split; [apply selected_atoms_elem|]. split.
  { unfold selected_atoms.
    induction (topology_atoms simulation) as [|a l IH]; simpl; [done|].
    destruct (existsb _ _); [by apply sublist_skip|by apply sublist_cons]. }
  split; [split|split].
  - intros [p Hp]. apply select_positions_inr in Hp.
    eapply Forall2_Forall_l; [exact Hp|]. apply Forall_true. intros v a Hv.
    apply lookup_lt_is_Some. destruct (getPositions state !! index a); [eauto|done].
  - apply select_positions_succeeds.
  - intros p Hp. apply select_positions_inr in Hp. split.
    + symmetry. by eapply Forall2_length.
    + intros i a Hi.
      destruct (Forall2_lookup_l _ _ _ _ _ Hp Hi) as (v & Hv & Hpos).
      by rewrite Hv, Hpos.
  - apply select_positions_error.
Qed.

(** X2.  When a kept atom has an index that is not below the number of
    positions of the state, [report] raises [IndexError] before collecting
    anything: the reporter and the files are as they were. *)
Theorem out_of_range_atom_raises_IndexError
    self files io simulation state i a :
  selected_atoms self simulation !! i = Some a →
  (length (getPositions state) ≤ index a)%nat →
  report io simulation state {| reporter := self; fs := files |}
  = ({| reporter := self; fs := files |}, inl IndexError).
Proof.
  intros Hi Hlen. apply report_select_error.
  destruct (select_positions self simulation state) as [e|p] eqn:Hsel.
  - by rewrite (select_positions_error _ _ _ _ Hsel).
  - exfalso. apply select_positions_inr in Hsel.
    destruct (Forall2_lookup_l _ _ _ _ _ Hsel Hi) as (v & _ & Hpos).
    rewrite lookup_ge_None_2 in Hpos; [done|lia].
Qed.

End extra_selection.

Lemma out_of_range_atom_raises_IndexError_witness :
  report no_failure (simulation 0) short_state
    {| reporter := ex_reporter_all; fs := ∅ |}
  = ({| reporter := ex_reporter_all; fs := ∅ |}, inl IndexError).
Proof.
  apply (out_of_range_atom_raises_IndexError (H := libs) ex_reporter_all ∅
           no_failure (simulation 0) short_state 1
           {| index := 2; name := "CA" |}).
  - reflexivity.
  - simpl. lia.
Defined.

Section extra_describe.
Context `{MDLibs}.
Implicit Type self : OfflineReporter.

(** X6.  [describeNextReport] raises [ZeroDivisionError] exactly when the
    report interval is 0; with a negative interval [r] it returns a negative
    number of steps, between [r] and [-1]. *)
Theorem describeNextReport_degenerate_interval self simulation :
  (_report_interval self = 0 ↔
   describeNextReport self simulation = inl ZeroDivisionError) ∧
  (∀ e, describeNextReport self simulation = inl e → e = ZeroDivisionError) ∧
  (_report_interval self < 0 →
   ∃ steps,
     describeNextReport self simulation
     = inr (steps, true, false, false, false, None) ∧
     _report_interval self ≤ steps ≤ -1).
Proof.
  unfold describeNextReport.
  destruct (Z.eqb_spec (_report_interval self) 0) as [Hr|Hr].
  - split; [done|]. split; [|lia]. by intros e [= <-].
  - split; [split; [done|discriminate]|]. split; [discriminate|].
    intros Hneg. eexists. split; [reflexivity|].
    pose proof (Z.mod_neg_bound (currentStep simulation)
                  (_report_interval self) Hneg). lia.
Qed.

(** X12.  The 16-bit cast of the contact-map indices always lands in the
    signed 16-bit range and leaves the values of that range alone; two
    indices are stored as the same value exactly when they differ by a
    multiple of [2^16], so an index below [2^16] is recovered from the
    stored value by reading it modulo [2^16]. *)
Theorem astype_int16_collisions :
  (∀ x, - 2 ^ 15 ≤ astype_int16 x < 2 ^ 15) ∧
  (∀ x, - 2 ^ 15 ≤ x < 2 ^ 15 → astype_int16 x = x) ∧
  (∀ x y, astype_int16 x = astype_int16 y ↔ (x - y) `mod` 2 ^ 16 = 0) ∧
  (∀ x, 0 ≤ x < 2 ^ 16 → astype_int16 x `mod` 2 ^ 16 = x).
Proof.
  unfold astype_int16.
  split; [|split; [|split]].
  - intros x. pose proof (Z.mod_pos_bound (x + 2 ^ 15) (2 ^ 16)). lia.
  - intros x Hx. rewrite Z.mod_small by lia. lia.
  - intros x y.
    pose proof (Z.div_mod (x + 2 ^ 15) (2 ^ 16)).
    pose proof (Z.div_mod (y + 2 ^ 15) (2 ^ 16)).
    pose proof (Z.mod_pos_bound (x + 2 ^ 15) (2 ^ 16)).
    pose proof (Z.mod_pos_bound (y + 2 ^ 15) (2 ^ 16)).
    split.
    + intros Heq.
      replace (x - y) with
        (((x + 2 ^ 15) `div` 2 ^ 16 - (y + 2 ^ 15) `div` 2 ^ 16) * 2 ^ 16)
        by lia.
      apply Z.mod_mul. lia.
    + intros Hmod. apply Z.mod_divide in Hmod; [|lia].
      destruct Hmod as [q Hq].
      replace (x + 2 ^ 15) with (y + 2 ^ 15 + q * 2 ^ 16) by lia.
      rewrite Z.mod_add by lia. reflexivity.
  - intros x Hx.
    pose proof (Z.div_mod (x + 2 ^ 15) (2 ^ 16)).
    pose proof (Z.mod_pos_bound (x + 2 ^ 15) (2 ^ 16)).
    assert ((x + 2 ^ 15) `div` 2 ^ 16 = 0 ∨ (x + 2 ^ 15) `div` 2 ^ 16 = 1)
      as [Hq|Hq].
    { assert (0 ≤ (x + 2 ^ 15) `div` 2 ^ 16 < 2); [|lia].
      split; [apply Z.div_pos; lia|apply Z.div_lt_upper_bound; lia]. }
    + replace ((x + 2 ^ 15) `mod` 2 ^ 16 - 2 ^ 15) with x by lia.
      apply Z.mod_small; lia.
    + replace ((x + 2 ^ 15) `mod` 2 ^ 16 - 2 ^ 15) with (x + (-1) * 2 ^ 16)
        by lia.
      rewrite Z.mod_add by lia. apply Z.mod_small; lia.
Qed.

End extra_describe.

(** ** Calls that do not flush *)

Section quiet.
Context `{MDLibs}.
Implicit Type self : OfflineReporter.

Lemma unflushed_refl w : unflushed w w.
Proof. done. Qed.

Lemma unflushed_trans w1 w2 w3 :
  unflushed w1 w2 → unflushed w2 w3 → unflushed w1 w3.
Proof. intros (?&?&?) (?&?&?). repeat split; congruence. Qed.

Lemma quiet_ret {A} (x : A) : quiet (mret x).
Proof. intros w. apply unflushed_refl. Qed.

Lemma quiet_raise {A} e : quiet (raise (A := A) e).
Proof. intros w. apply unflushed_refl. Qed.

Lemma quiet_lift_exc {A} (r : Exc A) : quiet (lift_exc r).
Proof. intros w. apply unflushed_refl. Qed.

Lemma quiet_get_self : quiet get_self.
Proof. intros w. apply unflushed_refl. Qed.

Lemma quiet_getattr {A} a (o : option A) : quiet (getattr a o).
Proof. destruct o; [apply quiet_ret|apply quiet_raise]. Qed.

Lemma quiet_bind {A B} (m : M A) (f : A → M B) :
  quiet m → (∀ x, quiet (f x)) → quiet (m ≫= f).
Proof.
  intros Hm Hf w. unfold mbind, M_bind. specialize (Hm w).
  destruct (m w) as [w1 [e|x]]; [done|].
  eapply unflushed_trans; [exact Hm|apply Hf].
Qed.

Lemma quiet_when b (m : M unit) : quiet m → quiet (when b m).
Proof. destruct b; [done|]. intros _. apply quiet_ret. Qed.

Lemma quiet_modify_self g :
  (∀ s, _frames_per_h5 (g s) = _frames_per_h5 s) →
  (∀ s, _num_frames (g s) = _num_frames s) →
  quiet (modify_self g).
Proof. intros H1 H2 [s files]. repeat split; simpl; auto. Qed.

Lemma quiet_collect_contact_map coo : quiet (_collect_contact_map coo).
Proof.
  unfold _collect_contact_map.
  repeat first
    [ apply quiet_bind; [|intros ?]
    | apply quiet_get_self | apply quiet_getattr
    | apply quiet_modify_self; reflexivity ].
Qed.

Lemma quiet_collect_fraction_of_contacts coo :
  quiet (_collect_fraction_of_contacts coo).
Proof.
  unfold _collect_fraction_of_contacts.
  repeat first
    [ apply quiet_bind; [|intros ?]
    | apply quiet_get_self | apply quiet_getattr
    | apply quiet_modify_self; reflexivity ].
Qed.

Lemma quiet_collect_point_cloud p : quiet (_collect_point_cloud p).
Proof.
  unfold _collect_point_cloud.
  apply quiet_bind; [apply quiet_get_self|intros s].
  apply quiet_bind; [apply quiet_getattr|intros [frames|a]].
  - apply quiet_modify_self; reflexivity.
  - apply quiet_raise.
Qed.

Lemma quiet_call_wrap atoms p : quiet (call_wrap atoms p).
Proof. intros [s files]. by repeat split. Qed.

Lemma quiet_collect_rmsd p : quiet (_collect_rmsd p).
Proof.
  unfold _collect_rmsd.
  apply quiet_bind; [apply quiet_get_self|intros s].
  apply quiet_bind;
    [destruct (wrap s); [apply quiet_call_wrap|apply quiet_ret]|intros q].
  apply quiet_bind; [apply quiet_get_self|intros s'].
  destruct (_reference_positions s'); [|apply quiet_raise].
  apply quiet_bind; [apply quiet_lift_exc|intros v].
  apply quiet_bind; [apply quiet_getattr|intros buf].
  apply quiet_modify_self; reflexivity.
Qed.

(** Running a quiet computation and then [f]. *)
Lemma bind_quiet {A B} (m : M A) (f : A → M B) (P : World → Prop) w :
  quiet m →
  (∀ w1, unflushed w w1 → P w1) →
  (∀ w1 x, unflushed w w1 → P (f x w1).1) →
  P ((m ≫= f) w).1.
Proof.
  intros Hm He Hx. unfold mbind, M_bind. specialize (Hm w).
  destruct (m w) as [w1 [e|x]]; simpl in *; auto.
Qed.

Lemma report_no_flush self files io simulation state :
  _num_frames self + 1 ≠ _frames_per_h5 self →
  let w := (report io simulation state {| reporter := self; fs := files |}).1 in
  fs w = files ∧ _frames_per_h5 (reporter w) = _frames_per_h5 self ∧
  (_num_frames (reporter w) = _num_frames self ∨
   _num_frames (reporter w) = _num_frames self + 1).
Proof.
  intros Hne. cbv zeta. unfold report.
  rewrite bind_get_self. simpl reporter.
  destruct (select_positions self simulation state) as [e|p].
  { rewrite bind_lift_inl. simpl. auto. }
  rewrite bind_lift_inr.
  assert (∀ w1, unflushed {| reporter := self; fs := files |} w1 →
    fs w1 = files ∧ _frames_per_h5 (reporter w1) = _frames_per_h5 self ∧
    (_num_frames (reporter w1) = _num_frames self ∨
     _num_frames (reporter w1) = _num_frames self + 1)) as Hdone.
  { intros w1 (?&?&?). auto. }
  apply bind_quiet; [|exact Hdone|intros w1 [] Hu1].
  { apply quiet_when, quiet_bind; [|intros ?];
      apply quiet_when;
      [apply quiet_collect_contact_map|apply quiet_collect_fraction_of_contacts]. }
  apply bind_quiet;
    [|intros w2 Hu2; apply Hdone; by eapply unflushed_trans|intros w2 [] Hu2].
  { apply quiet_when, quiet_collect_point_cloud. }
  pose proof (unflushed_trans _ _ _ Hu1 Hu2) as Hu12.
  apply bind_quiet;
    [|intros w3 Hu3; apply Hdone; by eapply unflushed_trans|intros w3 [] Hu3].
  { apply quiet_when, quiet_collect_rmsd. }
  destruct (unflushed_trans _ _ _ Hu12 Hu3) as (Hfs & Hfph & Hnum).
  destruct w3 as [s3 f3]. simpl in Hfs, Hfph, Hnum.
  rewrite bind_modify_self, bind_get_self. simpl reporter.
  change (_num_frames (set_num_frames (_num_frames s3 + 1) s3))
    with (_num_frames s3 + 1).
  change (_frames_per_h5 (set_num_frames (_num_frames s3 + 1) s3))
    with (_frames_per_h5 s3).
  rewrite Hfph, Hnum.
  destruct (Z.eqb_spec (_num_frames self + 1) (_frames_per_h5 self)); [done|].
  simpl. auto.
Qed.

End quiet.

(** ** Batches, failed flushes and the file *)

Ltac files_leaf :=
  simpl fst; simpl snd; simpl fs;
  first
    [ reflexivity
    | eexists; split;
      [ rewrite ?alter_insert_eq; unfold h5_path; reflexivity
      | split;
        [ unfold batch_datasets, transposed_point_cloud;
          repeat match goal with
                 | E : ?f ?s = _ |- context [?f ?s] => rewrite E
                 end;
          simpl; eexists; reflexivity
        | let Hr := fresh "Hr" in
          intros Hr; first [discriminate Hr |
          unfold batch_datasets, transposed_point_cloud;
          repeat match goal with
                 | E : ?f ?s = _ |- context [?f ?s] => rewrite E
                 end;
          reflexivity ] ] ] ].

Section extra_runs.
Context `{MDLibs}.
Implicit Type self : OfflineReporter.

Lemma select_positions_length self simulation state p :
  select_positions self simulation state = inr p →
  length p = length (selected_atoms self simulation).
Proof.
  intros Hp. apply select_positions_inr in Hp. symmetry.
  by eapply Forall2_length.
Qed.

Lemma selections_exist self calls :
  Forall (λ c, Forall (λ a, (index a < length (getPositions (call_state c)))%nat)
                 (selected_atoms self (call_simulation c))) calls →
  ∃ frames,
    Forall2 (λ c p, select_positions self (call_simulation c) (call_state c)
                    = inr p) calls frames.
Proof.
  induction 1 as [|c calls Hc _ [frames IH]]; [by exists []|].
  destruct (select_positions_succeeds _ _ _ Hc) as [p Hp].
  exists (p :: frames). by constructor.
Qed.

(** A reachable world is some number of frames into a batch. *)
Lemma reachable_inv w : reachable w → ∃ k, batch_inv (reporter w) k.
Proof.
  intros (file & ri & n & wf & rf & os & ms & th & cm & pc & foc & self
          & files & calls & Hinit & Hrun).
  destruct (init_inv _ _ _ _ _ _ _ _ _ _ _ _ Hinit) as (Hinv & _).
  destruct (run_keeps_inv _ _ _ _ _ Hinv Hrun) as [Hinv' _]. eauto.
Qed.

Lemma transposition_error self k e :
  batch_inv self k → _point_cloud self = true →
  transposed_point_cloud self = inl e → ∃ msg, e = ValueError msg.
Proof.
  intros Hinv Hpc Ht. unfold transposed_point_cloud in Ht.
  destruct (inv_pc _ _ Hinv Hpc) as (fr & Efr & _).
  rewrite Efr in Ht. unfold np_transpose_buffer, np_array3 in Ht.
  destruct fr as [|f0 fr]; [injection Ht as <-; eauto|].
  destruct (forallb _ _); simpl in Ht; [done|].
  injection Ht as <-. eauto.
Qed.

(** X3.  When the calls of a batch see the same topology and every kept
    atom has a position, the selections succeed with frames of one size, so
    the transposition of the point cloud cannot fail: when moreover the
    wrap closure and [rms.rmsd] return on these frames, and no container
    operation fails, the batch is written and the reporter starts a new
    one. *)
Theorem fixed_topology_batch_is_written
    file reportInterval (n : nat) wrap_pdb_file reference_pdb_file
    openmm_selection mda_selection threshold contact_map point_cloud foc
    self files calls atoms :
  __init__ file reportInterval (Z.of_nat n) wrap_pdb_file reference_pdb_file
    openmm_selection mda_selection threshold contact_map point_cloud foc
  = inr self →
  (0 < n)%nat → length calls = n →
  Forall (λ c, ∀ op, call_io c op = false) calls →
  Forall (λ c, topology_atoms (call_simulation c) = atoms) calls →
  Forall (λ c, Forall (λ a, (index a < length (getPositions (call_state c)))%nat)
                 (selected_atoms self (call_simulation c))) calls →
  ∃ frames m,
    Forall2 (λ c p, select_positions self (call_simulation c) (call_state c)
                    = inr p) calls frames ∧
    Forall (λ p, length p = m) frames ∧
    (rmsd_routines_return self frames →
     run calls {| reporter := self; fs := files |} =
     ({| reporter := next_batch self frames;
         fs := <[file +:+ ".h5" := full_batch self frames]> files |}, inr ())).
Proof.
  intros Hinit Hn Hlen Hio Htop Hrange.
  destruct (init_inv _ _ _ _ _ _ _ _ _ _ _ _ Hinit)
    as (Hinv & _ & Hbase & Hfull & _).
  destruct (selections_exist self calls Hrange) as [frames Hsel].
  exists frames,
    (length (List.filter
       (λ a, existsb (String.eqb (name a)) (_openmm_selection self)) atoms)).
  assert (Forall
    (λ p, length p
          = length (List.filter
              (λ a, existsb (String.eqb (name a)) (_openmm_selection self))
              atoms)) frames) as Hsize.
  { clear -Hsel Htop. revert Htop.
    induction Hsel as [|c p calls frames Hp _ IH]; intros Htop; [done|].
    apply Forall_cons in Htop as [Hc Hrest].
    constructor; [|by apply IH].
    rewrite (select_positions_length _ _ _ _ Hp). unfold selected_atoms.
    by rewrite Hc. }
  split; [done|]. split; [done|]. intros Hret.
  replace (file +:+ ".h5") with (h5_path self)
    by (unfold h5_path; by rewrite Hbase).
  apply run_full_batch; try done.
  - rewrite Hfull. by rewrite Hlen.
  - intros ->. simpl in Hlen. lia.
  - intros _. eexists. apply np_transpose_frames; [|exact Hsize].
    intros ->. apply Forall2_length in Hsel. simpl in Hsel. lia.
Qed.

(** Once the frame counter has reached the batch size, no call brings it
    back, also when the caller catches what the calls raise. *)
Lemma attempts_past_batch_size calls : ∀ self files,
  _frames_per_h5 self ≤ _num_frames self →
  let w := (attempts calls {| reporter := self; fs := files |}).1 in
  fs w = files ∧ _frames_per_h5 (reporter w) = _frames_per_h5 self ∧
  _num_frames self ≤ _num_frames (reporter w).
Proof.
  induction calls as [|c calls IH]; intros self files Hle; cbv zeta.
  - simpl. repeat split; lia.
  - cbn [attempts fst].
    assert (_num_frames self + 1 ≠ _frames_per_h5 self) as Hne by lia.
    pose proof (report_no_flush self files (call_io c) (call_simulation c)
                  (call_state c) Hne) as Hrep.
    cbv zeta in Hrep.
    destruct (report _ _ _ _) as [[s1 f1] r]; cbn [fst snd reporter fs] in *.
    destruct Hrep as (-> & Hfph & Hnum).
    assert (_frames_per_h5 s1 ≤ _num_frames s1) as Hle1 by lia.
    destruct (IH s1 files Hle1) as (? & ? & ?).
    repeat split; [done|congruence|lia].
Qed.

(** X4.  On a reporter reached from construction by completed calls, a
    call that raises the [OSError] of a container operation raised it in the
    flush: the frame counter was one below the batch size and now sits at
    it.  Since only a counter one below the batch size triggers a flush, no
    later call writes anything, also when the caller catches what the calls
    raise; the counter never returns below the batch size. *)
Theorem failed_flush_is_never_retried w io simulation state op :
  reachable w →
  let result := report io simulation state w in
  result.2 = inl (OSError op) →
  _num_frames (reporter w) + 1 = _frames_per_h5 (reporter w) ∧
  _num_frames (reporter result.1) = _frames_per_h5 (reporter w) ∧
  ∀ calls,
    let later := (attempts calls result.1).1 in
    fs later = fs result.1 ∧
    _frames_per_h5 (reporter w) ≤ _num_frames (reporter later).
Proof.
  intros Hreach result Hres.
  destruct (reachable_inv w Hreach) as [k Hinv].
  destruct w as [self files]. cbn [reporter] in *.
  pose proof (report_spec self files io simulation state k Hinv) as Hout.
  fold result in Hout. destruct result as [w r]. cbn [fst snd] in *.
  assert (_num_frames self + 1 = _frames_per_h5 self ∧
          _num_frames (reporter w) = _frames_per_h5 self ∧
          _frames_per_h5 (reporter w) = _frames_per_h5 self)
    as (Hfull & Hn & Hf).
  { revert Hres.
    inversion Hout as [e He | p e Hp He | p Hp Herr Hne
                       | p w' r' Hp Herr Heq Hfl]; subst; intros Hres.
    - injection Hres as ->. by apply select_positions_error in He.
    - injection Hres as Hres. by apply exn_of_lib_not_OSError in Hres.
    - done.
    - pose proof (same_config_collect self p) as Hcfg.
      pose proof (num_frames_collect self p Herr) as Hnum.
      pose proof (collect_inv self p k Hinv Herr) as Hinv1.
      split; [done|].
      revert Hres.
      inversion Hfl as [ | op' ? Hop _ _ _ | op' a ? Hop _ _ _ _ _
                         | e ? Hpc Ht ]; subst; intros Hres.
      + done.
      + split; [exact (eq_trans Hnum Heq)|exact (cfg_frames_per_h5 _ _ Hcfg)].
      + split; [exact (eq_trans Hnum Heq)|exact (cfg_frames_per_h5 _ _ Hcfg)].
      + destruct (transposition_error _ _ _ Hinv1 Hpc Ht) as [msg ->]. done. }
  clear Hres Hout.
  split; [done|]. split; [done|]. intros calls. cbv zeta.
  destruct w as [s1 f1]. cbn [reporter fs] in *.
  destruct (attempts_past_batch_size calls s1 f1) as (Hfs & Hfph & Hle); [lia|].
  split; [done|lia].
Qed.

(** A call on a reporter whose point-cloud attribute is an array. *)
Lemma report_broken self files io simulation state p a :
  broken self a →
  select_positions self simulation state = inr p →
  ∃ s',
    report io simulation state {| reporter := self; fs := files |}
    = ({| reporter := s'; fs := files |}, inl (AttributeError "append")) ∧
    broken s' a ∧ same_config self s' ∧ _num_frames s' = _num_frames self.
Proof.
  intros [Hp Hbuf Hrows Hcols Hfoc Hrefcm] Hsel.
  unfold report. rewrite bind_get_self. simpl reporter.
  rewrite Hsel, bind_lift_inr.
  destruct (_contact_map self) eqn:Hcm, (_fraction_of_contacts self) eqn:Hfc;
    simpl in *; use_inv.
  all: (unfold when, _collect_contact_map, _collect_fraction_of_contacts,
    _collect_point_cloud, modify_self, getattr, get_self, mbind,
    M_bind, mret, M_ret, raise, list_append; simpl;
    repeat match goal with
    | E : ?x = _ |- context [?x] => rewrite E; simpl
    end).
  all: eexists; split; [reflexivity|].
  all: split; [|split; [by split|reflexivity]].
  all: split; simpl; rewrite ?Hcm, ?Hfc; try done; eauto.
Qed.

Lemma attempts_broken calls : ∀ self files a,
  broken self a →
  Forall (λ c, ∃ p, select_positions self (call_simulation c) (call_state c)
                    = inr p) calls →
  let later := attempts calls {| reporter := self; fs := files |} in
  later.2 = replicate (length calls) (inl (AttributeError "append")) ∧
  fs later.1 = files ∧
  _num_frames (reporter later.1) = _num_frames self ∧
  _point_cloud_data (reporter later.1) = Some (PcArray a).
Proof.
  induction calls as [|c calls IH]; intros self files a Hbr Hsel; cbv zeta.
  - simpl. repeat split; try done. apply (broken_buffer _ _ Hbr).
  - apply Forall_cons in Hsel as [[p Hp] Hsel].
    destruct (report_broken self files (call_io c) (call_simulation c)
                (call_state c) p a Hbr Hp) as (s' & Hrep & Hbr' & Hcfg & Hnum).
    cbn [attempts fst snd]. rewrite Hrep. cbn [fst snd].
    destruct (descriptors_same_config _ _ Hcfg) as (_ & _ & _ & Es).
    destruct (IH s' files a Hbr') as (Hres & Hfs & Hn & Hpc).
    { by rewrite Es. }
    cbv zeta in *. rewrite Hres, Hfs, Hn, Hpc. done.
Qed.

(** X5.  On a reporter reached from construction by completed calls, after
    a flush that failed with an I/O error once the point cloud was
    transposed, the point-cloud attribute is an array, which has no
    [append]: every one of the calls that follow, when their selections
    succeed and the caller catches what they raise, raises [AttributeError];
    together they write nothing and leave the frame counter and the
    point-cloud attribute alone. *)
Theorem late_flush_failure_disables_reporter
    w io simulation state op calls :
  reachable w → _point_cloud (reporter w) = true →
  let failed := report io simulation state w in
  failed.2 = inl (OSError op) → after_transpose op = true →
  Forall (λ c, ∃ p, select_positions (reporter w) (call_simulation c)
                      (call_state c) = inr p) calls →
  let later := attempts calls failed.1 in
  later.2 = replicate (length calls) (inl (AttributeError "append")) ∧
  fs later.1 = fs failed.1 ∧
  _num_frames (reporter later.1) = _num_frames (reporter failed.1) ∧
  (∃ a, _point_cloud_data (reporter failed.1) = Some (PcArray a)) ∧
  _point_cloud_data (reporter later.1)
  = _point_cloud_data (reporter failed.1).
Proof.
  intros Hreach Hpc failed Hres Hlate Hsel later.
  destruct (reachable_inv w Hreach) as [k Hinv].
  destruct w as [self files]. cbn [reporter] in *.
  pose proof (report_spec self files io simulation state k Hinv) as Hout.
  fold failed in Hout, later. destruct failed as [w r]. cbn [fst snd] in *.
  assert (∃ a, broken (reporter w) a ∧ same_config self (reporter w))
    as (a & Hbr & Hcfg).
  { revert Hres.
    inversion Hout as [e He | p e Hp He | p Hp Herr Hne
                       | p w' r' Hp Herr Heq Hfl]; subst; intros Hres.
    - injection Hres as ->. by apply select_positions_error in He.
    - injection Hres as Hres. by apply exn_of_lib_not_OSError in Hres.
    - done.
    - pose proof (same_config_collect self p) as Hcfg.
      pose proof (collect_inv self p k Hinv Herr) as Hinv1.
      assert (_point_cloud (collect self p) = true) as Hpc1
        by (by rewrite (cfg_point_cloud _ _ Hcfg)).
      revert Hres.
      inversion Hfl as [ | op' ? Hop Hperf Hearly | op' a ? Hop Hperf _ _ Ha
                         | e ? _ Ht ]; subst; intros Hres.
      + done.
      + exfalso. injection Hres as ->. destruct Hearly; congruence.
      + exists a. split; [|by eapply same_config_trans;
                              [|apply same_config_set_point_cloud_data]].
        destruct Hinv1 as [_ Irows Icols _ Ifoc _ _ Irefcm].
        split; cbn; try done.
        * intros E. destruct (Irows E) as (? & -> & _). eauto.
        * intros E. destruct (Icols E) as (? & -> & _). eauto.
        * intros E. destruct (Ifoc E) as (? & -> & _). eauto.
      + destruct (transposition_error _ _ _ Hinv1 Hpc1 Ht) as [msg ->]. done. }
  destruct w as [s1 f1]. cbn [reporter fs] in *.
  destruct (descriptors_same_config _ _ Hcfg) as (_ & _ & _ & Es).
  destruct (attempts_broken calls s1 f1 a Hbr) as (H1 & H2 & H3 & H4).
  { by rewrite Es. }
  cbv zeta in *. subst later. rewrite H1, H2, H3, H4.
  rewrite (broken_buffer _ _ Hbr). eauto 10.
Qed.

Lemma complete_batches_app self n batches1 batches2 :
  complete_batches self n (batches1 ++ batches2) ↔
  complete_batches self n batches1 ∧
  complete_batches (after_batches self batches1) n batches2.
Proof.
  revert self. induction batches1 as [|b batches1 IH]; intros self; simpl.
  - tauto.
  - rewrite IH. unfold after_batches. simpl. tauto.
Qed.

(** One complete batch from the start of a batch. *)
Lemma run_complete_batch self (n : nat) b files :
  batch_inv self 0 → _frames_per_h5 self = Z.of_nat n → (0 < n)%nat →
  complete_batch self n b →
  run b.1 {| reporter := self; fs := files |} =
  ({| reporter := next_batch self b.2;
      fs := <[h5_path self := full_batch self b.2]> files |}, inr ()).
Proof.
  intros Hinv Hfull Hn (Hlen & Hio & Hsel & Hret & Hm).
  apply run_full_batch; try done.
  - by rewrite Hlen.
  - intros Hnil. rewrite Hnil in Hlen. simpl in Hlen. lia.
  - intros Hp. destruct (Hm Hp) as [m Hfr].
    exists (point_cloud_array b.2 m). apply np_transpose_frames; [|done].
    intros Hnil. rewrite Hnil in Hsel. apply Forall2_length in Hsel.
    simpl in Hsel. lia.
Qed.

(** Complete batches in a row touch the reporter's own file only. *)
Lemma run_complete_batches (n : nat) batches : ∀ self files,
  batch_inv self 0 → _frames_per_h5 self = Z.of_nat n → (0 < n)%nat →
  complete_batches self n batches →
  ∃ files',
    run (concat (batches.*1)) {| reporter := self; fs := files |} =
    ({| reporter := after_batches self batches; fs := files' |}, inr ()) ∧
    (∀ ds, <[h5_path self := ds]> files' = <[h5_path self := ds]> files) ∧
    batch_inv (after_batches self batches) 0 ∧
    same_config self (after_batches self batches).
Proof.
  induction batches as [|b batches IH]; intros self files Hinv Hfull Hn Hall.
  - exists files. split; [done|]. split; [done|].
    split; [exact Hinv|apply same_config_refl].
  - destruct Hall as [Hb Hall].
    rewrite fmap_cons. simpl concat. rewrite run_app. unfold mbind, M_bind.
    rewrite (run_complete_batch self n b files Hinv Hfull Hn Hb).
    destruct (next_batch_inv self b.2 Hinv) as [Hinv1 Hcfg1].
    destruct (IH (next_batch self b.2)
                (<[h5_path self := full_batch self b.2]> files) Hinv1)
      as (files' & Hrun & Hfiles & Hinv' & Hcfg'); [|done..|].
    { by rewrite (cfg_frames_per_h5 _ _ Hcfg1). }
    exists files'. split; [exact Hrun|]. split; [|split; [exact Hinv'|]].
    + intros ds. rewrite <- (h5_path_same_config _ _ Hcfg1), Hfiles.
      rewrite (h5_path_same_config _ _ Hcfg1). apply insert_insert_eq.
    + eapply same_config_trans; [exact Hcfg1|exact Hcfg'].
Qed.

(** X10.  After any number of complete batches followed by fewer calls than
    a batch, the file holds the data of the last complete batch and nothing
    else, and the frames of the calls after it are in the buffers only.  A
    complete batch is [n] calls without I/O failure whose selections
    succeed, for whose frames the wrap closure and [rms.rmsd] return and which,
    when the point cloud is on, have the same number of atoms. *)
Theorem file_holds_last_complete_batch
    file reportInterval (n : nat) wrap_pdb_file reference_pdb_file
    openmm_selection mda_selection threshold contact_map point_cloud foc
    self files batches calls frames rest rest_frames :
  __init__ file reportInterval (Z.of_nat n) wrap_pdb_file reference_pdb_file
    openmm_selection mda_selection threshold contact_map point_cloud foc
  = inr self →
  (0 < n)%nat →
  complete_batches self n (batches ++ [(calls, frames)]) →
  let last_batch := after_batches self batches in
  let partial_batch := next_batch last_batch frames in
  (length rest < n)%nat →
  Forall2 (λ c p, select_positions self (call_simulation c) (call_state c)
                  = inr p) rest rest_frames →
  rmsd_routines_return partial_batch rest_frames →
  run (concat (batches.*1) ++ calls ++ rest)
    {| reporter := self; fs := files |} =
  ({| reporter := foldl collect partial_batch rest_frames;
      fs := <[file +:+ ".h5" := full_batch last_batch frames]> files |},
   inr ()).
Proof.
  intros Hinit Hn Hall last_batch partial_batch Hrest Hsel Hret.
  destruct (init_inv _ _ _ _ _ _ _ _ _ _ _ _ Hinit)
    as (Hinv & _ & Hbase & Hfull & _).
  replace (file +:+ ".h5") with (h5_path self)
    by (unfold h5_path; by rewrite Hbase).
  apply complete_batches_app in Hall as [Hall [Hlast _]].
  fold last_batch in Hlast.
  destruct (run_complete_batches n batches self files Hinv Hfull Hn Hall)
    as (files' & Hrun & Hfiles & Hinv' & Hcfg').
  fold last_batch in Hrun, Hinv', Hcfg'.
  rewrite run_app. unfold mbind, M_bind. rewrite Hrun.
  rewrite run_app. unfold mbind, M_bind.
  pose proof (run_complete_batch last_batch n (calls, frames) files' Hinv')
    as Hlast_run.
  cbn [fst snd] in Hlast_run.
  rewrite Hlast_run; [|by rewrite (cfg_frames_per_h5 _ _ Hcfg')|done..].
  fold partial_batch.
  rewrite (h5_path_same_config _ _ Hcfg'), Hfiles.
  destruct (next_batch_inv last_batch frames Hinv') as [Hinv1 Hcfg1].
  fold partial_batch in Hinv1, Hcfg1.
  pose proof (same_config_trans _ _ _ Hcfg' Hcfg1) as Hcfg.
  destruct (descriptors_same_config _ _ Hcfg) as (_ & _ & _ & Es).
  apply (run_collects rest partial_batch _ rest_frames 0%nat Hinv1).
  - by rewrite Es.
  - done.
  - intros j Hj. rewrite (cfg_frames_per_h5 _ _ Hcfg), Hfull. lia.
Qed.

(** X11.  On a reporter reached from construction by completed calls, a
    call that returns and does not fill the batch appends exactly one entry
    to every enabled buffer and adds one to the frame counter: the 16-bit
    row and column indices of the contact matrix of the selected positions
    at the configured threshold, the fraction of contacts of that matrix
    against the reference contact map, the selected positions as they are,
    and the RMSD that [rms.rmsd] returned for the reference positions and
    the selected positions, or, when a wrap closure is configured, the
    positions that the closure returned for them; the closure is then left
    with the atom group of that call. *)
Theorem collecting_call_appends self files io simulation state p :
  reachable {| reporter := self; fs := files |} →
  select_positions self simulation state = inr p →
  _num_frames self + 1 ≠ _frames_per_h5 self →
  let result := report io simulation state {| reporter := self; fs := files |} in
  let after := reporter result.1 in
  let contact_map := contact_matrix p (_threshold self) in
  result.2 = inr () →
  fs result.1 = files ∧
  _num_frames after = _num_frames self + 1 ∧
  (∀ rows cols,
     _contact_map self = true →
     _rows self = Some rows → _cols self = Some cols →
     _rows after = Some (rows ++ [map astype_int16 (map fst contact_map)]) ∧
     _cols after = Some (cols ++ [map astype_int16 (map snd contact_map)])) ∧
  (∀ buf reference,
     _fraction_of_contacts self = true →
     _fraction_of_contacts_data self = Some buf →
     _reference_contact_map self = Some reference →
     _fraction_of_contacts_data after
     = Some (buf ++ [fraction_of_contacts contact_map reference])) ∧
  (∀ frames,
     _point_cloud self = true →
     _point_cloud_data self = Some (PcList frames) →
     _point_cloud_data after = Some (PcList (frames ++ [p]))) ∧
  (∀ buf reference,
     _reference_positions self = Some reference →
     _rmsd self = Some buf →
     ∃ wrapped_positions rmsd,
       match wrap self with
       | Some atoms =>
           ∃ atoms',
             wrap_nsp10_16 p atoms = (atoms', inr wrapped_positions) ∧
             wrap after = Some atoms'
       | None => wrapped_positions = p ∧ wrap after = None
       end ∧
       rms_rmsd wrapped_positions reference = inr rmsd ∧
       _rmsd after = Some (buf ++ [rmsd])) ∧
  (_reference_positions self = None → wrap after = wrap self).
Proof.
  intros Hreach Hsel Hne. cbv zeta.
  destruct (reachable_inv _ Hreach) as [k Hinv]. cbn [reporter] in Hinv.
  rewrite (report_collect _ _ _ _ _ _ _ Hinv Hsel).
  destruct (collect_error self p) as [e|] eqn:Herr; [done|].
  rewrite (num_frames_collect _ _ Herr),
    (cfg_frames_per_h5 _ _ (same_config_collect _ _)).
  destruct (Z.eqb_spec (_num_frames self + 1) (_frames_per_h5 self)); [done|].
  unfold when. rewrite run_ret. cbn [fst snd reporter fs]. intros _.
  split; [done|].
  split; [by apply num_frames_collect|].
  split; [|split; [|split; [|split]]].
  - intros rows cols Hcm Hrows Hcols.
    rewrite rows_collect, cols_collect, Hcm, Hrows, Hcols. done.
  - intros buf reference Hfc Hbuf Href.
    rewrite foc_collect, Hfc, Hbuf. unfold foc_of. rewrite Href. done.
  - intros frames Hpc Hbuf. rewrite pc_collect, Hpc, Hbuf. done.
  - intros buf reference Hrp Hbuf.
    rewrite rmsd_collect, Hrp, Hbuf. cbn [is_None].
    unfold collect_error in Herr. rewrite Hrp in Herr. cbn [is_None] in Herr.
    rewrite (wrap_collect_rmsd self p) by (by rewrite Hrp).
    unfold rmsd_of, wrapped in *. rewrite Hrp in *.
    cbn [default from_option id] in *.
    destruct (wrap self) as [atoms|].
    + destruct (wrap_nsp10_16 p atoms) as [atoms' [e|q]] eqn:Hw;
        cbn [fst snd] in *; [done|].
      destruct (rms_rmsd q reference) as [e|v] eqn:Hv; [done|].
      exists q, v. split; [eauto|]. done.
    + cbn [fst snd] in *.
      destruct (rms_rmsd p reference) as [e|v] eqn:Hv; [done|].
      exists p, v. done.
  - intros Hrp. apply wrap_collect. by rewrite Hrp.
Qed.

(** X13.  With every feature off and no reference file, a batch still
    opens the file: the [n]-th call leaves an empty file at the path. *)
Theorem batch_without_features_writes_empty_file
    file reportInterval (n : nat) wrap_pdb_file openmm_selection mda_selection
    threshold self files calls :
  __init__ file reportInterval (Z.of_nat n) wrap_pdb_file None
    openmm_selection mda_selection threshold false false false
  = inr self →
  (0 < n)%nat → length calls = n →
  Forall (λ c, ∀ op, call_io c op = false) calls →
  Forall (λ c, ∃ p, select_positions self (call_simulation c) (call_state c)
                    = inr p) calls →
  run calls {| reporter := self; fs := files |} =
  ({| reporter := self; fs := <[file +:+ ".h5" := []]> files |}, inr ()).
Proof.
  intros Hinit Hn Hlen Hio Hsel.
  destruct (init_inv _ _ _ _ _ _ _ _ _ _ _ _ Hinit)
    as (Hinv & _ & Hbase & Hfull & _ & Hcm & Hpc & Hfoc & Href).
  assert (∃ frames,
    Forall2 (λ c p, select_positions self (call_simulation c) (call_state c)
                    = inr p) calls frames) as [frames Hframes].
  { clear -Hsel. induction Hsel as [|c calls [p Hp] _ [frames IH]];
      [by exists []|]. exists (p :: frames). by constructor. }
  replace (file +:+ ".h5") with (h5_path self)
    by (unfold h5_path; by rewrite Hbase).
  pose proof (inv_reference _ _ Hinv) as Hrp. rewrite Href in Hrp.
  simpl in Hrp.
  assert (full_batch self frames = []) as <-.
  { unfold full_batch. by rewrite Hcm, Hpc, Hfoc, Hrp. }
  rewrite <- (next_batch_no_reference self frames Hrp) at 2.
  apply run_full_batch; try done.
  - rewrite Hfull. by rewrite Hlen.
  - intros ->. simpl in Hlen. lia.
  - by apply rmsd_routines_return_no_reference.
  - rewrite Hpc. done.
Qed.

Lemma flush_open_fails self files io :
  io OpOpen = true →
  flush io {| reporter := self; fs := files |}
  = ({| reporter := self; fs := files |}, inl (OSError OpOpen)).
Proof.
  intros Hopen. unfold flush. rewrite bind_get_self. simpl reporter.
  by rewrite bind_open, Hopen.
Qed.

Lemma flush_files self files io k :
  batch_inv self k → io OpOpen = false →
  ∃ ds,
    fs (flush io {| reporter := self; fs := files |}).1
    = <[h5_path self := ds]> files ∧
    ds `prefix_of` batch_datasets self ∧
    ((flush io {| reporter := self; fs := files |}).2 = inr () →
     ds = batch_datasets self).
Proof.
  intros [Hn Hrows Hcols Hrmsd Hfoc Hpc Href Hrefcm] Hopen.
  unfold flush, write_batch, write_contact_map, write_point_cloud, write_rmsd,
    write_fraction_of_contacts.
  destruct (_contact_map self) eqn:Hcm, (_fraction_of_contacts self) eqn:Hfc,
    (_point_cloud self) eqn:Hp, (_reference_positions self) as [rp|] eqn:Hrp,
    (_reference_pdb_file self) as [rf|] eqn:Hrf; simpl in *; try discriminate;
    use_inv.
  all: unfold when.
  all: exec_cases; files_leaf.
Qed.

(** X14.  On a reporter reached from construction by completed calls, take
    a call that fills the batch, whose selection succeeds and for which the
    wrap closure and [rms.rmsd] return, so that it reaches the flush.  If opening
    the file fails, the files are as they were; once the file is opened its
    previous content is gone: whatever the outcome, the path then holds
    datasets of the current batch only, the ones written so far, and all of
    them when the call completes. *)
Theorem failed_flush_leaves_partial_file
    self files io simulation state positions :
  reachable {| reporter := self; fs := files |} →
  select_positions self simulation state = inr positions →
  collect_error self positions = None →
  _num_frames self + 1 = _frames_per_h5 self →
  let before := collect self positions in
  let result := report io simulation state {| reporter := self; fs := files |} in
  (io OpOpen = true →
   result = ({| reporter := before; fs := files |}, inl (OSError OpOpen))) ∧
  (io OpOpen = false →
   ∃ ds,
     fs result.1 = <[h5_path self := ds]> files ∧
     ds `prefix_of` batch_datasets before ∧
     (result.2 = inr () → ds = batch_datasets before)).
Proof.
  intros Hreach Hsel Herr Hfull. cbv zeta.
  destruct (reachable_inv _ Hreach) as [k Hinv]. cbn [reporter] in Hinv.
  rewrite (report_collect _ _ _ _ _ _ _ Hinv Hsel), Herr.
  rewrite (num_frames_collect _ _ Herr),
    (cfg_frames_per_h5 _ _ (same_config_collect _ _)).
  destruct (Z.eqb_spec (_num_frames self + 1) (_frames_per_h5 self)); [|done].
  unfold when. split.
  - apply flush_open_fails.
  - intros Hopen.
    rewrite <- (h5_path_same_config _ _ (same_config_collect self positions)).
    eapply flush_files; [|done]. by apply collect_inv.
Qed.

(** X17.  On a reporter reached from construction by completed calls, when
    the wrap closure or [rms.rmsd] raises for the selected frame, the call
    raises that exception before the frame counter is touched: no file is
    written, the counter and the RMSD buffer are as they were, the wrap
    closure is left as its call left it, and the buffers that are collected
    before the RMSD already hold the entry of the frame, one entry more
    than the counter says. *)
Theorem rmsd_failure_leaves_buffers_out_of_step
    self files io simulation state p e :
  reachable {| reporter := self; fs := files |} →
  select_positions self simulation state = inr p →
  _reference_positions self ≠ None →
  rmsd_of self p = inl e →
  let result := report io simulation state {| reporter := self; fs := files |} in
  let after := reporter result.1 in
  result.2 = inl (exn_of_lib e) ∧ fs result.1 = files ∧
  _num_frames after = _num_frames self ∧ _rmsd after = _rmsd self ∧
  wrap after = (wrapped self p).1 ∧
  (_contact_map self = true →
   ∃ rows cols,
     _rows self = Some rows ∧ _cols self = Some cols ∧
     Z.of_nat (length rows) = _num_frames self ∧
     Z.of_nat (length cols) = _num_frames self ∧
     _rows after = Some (rows ++ [rows_of self p]) ∧
     _cols after = Some (cols ++ [cols_of self p])) ∧
  (_fraction_of_contacts self = true →
   ∃ buf,
     _fraction_of_contacts_data self = Some buf ∧
     Z.of_nat (length buf) = _num_frames self ∧
     _fraction_of_contacts_data after = Some (buf ++ [foc_of self p])) ∧
  (_point_cloud self = true →
   ∃ frames,
     _point_cloud_data self = Some (PcList frames) ∧
     Z.of_nat (length frames) = _num_frames self ∧
     _point_cloud_data after = Some (PcList (frames ++ [p]))).
Proof.
  intros Hreach Hsel Href He. cbv zeta.
  destruct (reachable_inv _ Hreach) as [k Hinv]. cbn [reporter] in Hinv.
  assert (collect_error self p = Some e) as Herr.
  { unfold collect_error. rewrite He.
    by destruct (_reference_positions self). }
  rewrite (report_collect _ _ _ _ _ _ _ Hinv Hsel), Herr.
  cbn [fst snd reporter fs].
  split; [done|]. split; [done|].
  split; [by apply (num_frames_collect_error _ _ e)|].
  split.
  { rewrite rmsd_collect, He. by destruct (is_None _). }
  split.
  { apply wrap_collect_rmsd. by destruct (_reference_positions self). }
  destruct Hinv as [Hk Irows Icols _ Ifoc Ipc _ _]. rewrite Hk.
  split; [|split].
  - intros Hcm. rewrite rows_collect, cols_collect, Hcm.
    destruct (Irows Hcm) as (rows & -> & <-), (Icols Hcm) as (cols & -> & Hc).
    exists rows, cols. rewrite Hc. done.
  - intros Hfc. rewrite foc_collect, Hfc.
    destruct (Ifoc Hfc) as (buf & -> & <-). by exists buf.
  - intros Hpc. rewrite pc_collect, Hpc.
    destruct (Ipc Hpc) as (fr & -> & <-). by exists fr.
Qed.

End extra_runs.

(** ** Construction *)

Ltac init_run :=
  repeat first
    [ progress lazy -[Universe_select_atoms positions_copy contact_matrix]
    | match goal with
      | E : Universe_select_atoms ?f ?sel = _
        |- context [Universe_select_atoms ?f ?sel] => rewrite E
      end ].

Ltac init_cases Hinit :=
  repeat
    (lazy -[Universe_select_atoms positions_copy contact_matrix] in Hinit;
     first
       [ match goal with
         | E : Universe_select_atoms ?f ?sel = _ |- _ =>
             match type of Hinit with
             | context [Universe_select_atoms f sel] => rewrite E in Hinit
             end
         end
       | match type of Hinit with
         | context [Universe_select_atoms ?a ?b] =>
             let E := fresh "Eload" in
             destruct (Universe_select_atoms a b) eqn:E;
             try discriminate Hinit
         end ]).

Section extra_construction.
Context `{MDLibs}.
Implicit Type self : OfflineReporter.

(** X7.  Construction succeeds exactly when a reference file is given
    whenever the contact map or the fraction of contacts is on, and every
    structure file that is given, reference or wrap, loads with the
    selection. *)
Theorem construction_succeeds_iff
    file reportInterval frames_per_h5 wrap_pdb_file reference_pdb_file
    openmm_selection mda_selection threshold contact_map point_cloud foc :
  (∃ self,
     __init__ file reportInterval frames_per_h5 wrap_pdb_file
       reference_pdb_file openmm_selection mda_selection threshold contact_map
       point_cloud foc = inr self) ↔
  (foc = true ∨ contact_map = true → is_Some reference_pdb_file) ∧
  (∀ f, reference_pdb_file = Some f ∨ wrap_pdb_file = Some f →
        ∃ atoms, Universe_select_atoms f mda_selection = inr atoms).
Proof.
  split.
  - intros [self Hinit].
    destruct foc, contact_map, point_cloud, reference_pdb_file as [rf|],
      wrap_pdb_file as [wf|]; try discriminate Hinit.
    all: init_cases Hinit.
    all: split;
      [ intros [Hon|Hon]; first [discriminate Hon | eauto]
      | intros f [[= <-]|[= <-]]; eauto ].
  - intros [Hchk Hload].
    destruct reference_pdb_file as [rf|].
    + destruct (Hload rf (or_introl eq_refl)) as [atoms Hrf].
      destruct wrap_pdb_file as [wf|].
      * destruct (Hload wf (or_intror eq_refl)) as [watoms Hwf].
        destruct foc, contact_map, point_cloud; eexists; init_run; reflexivity.
      * destruct foc, contact_map, point_cloud; eexists; init_run; reflexivity.
    + destruct foc; [destruct Hchk as [? [=]]; by left|].
      destruct contact_map; [destruct Hchk as [? [=]]; by right|].
      destruct wrap_pdb_file as [wf|].
      * destruct (Hload wf (or_intror eq_refl)) as [watoms Hwf].
        destruct point_cloud; eexists; init_run; reflexivity.
      * destruct point_cloud; eexists; init_run; reflexivity.
Qed.

(** X8.  A constructed reporter holds its arguments, the file index 0 and
    the frame counter 0.  Its reference positions are the positions of the
    atoms selected from the reference file, and none without one; with the
    fraction of contacts on, its reference contact map is the contact matrix
    of those positions at the configured threshold; its wrap structure is the
    atoms selected from the wrap file.  The buffer of a feature that is off
    is not created. *)
Theorem constructed_reporter_fields
    file reportInterval frames_per_h5 wrap_pdb_file reference_pdb_file
    openmm_selection mda_selection threshold contact_map point_cloud foc self :
  __init__ file reportInterval frames_per_h5 wrap_pdb_file reference_pdb_file
    openmm_selection mda_selection threshold contact_map point_cloud foc
  = inr self →
  (_file_idx self = 0 ∧ _base_name self = file ∧
   _report_interval self = reportInterval ∧
   _wrap_pdb_file self = wrap_pdb_file ∧
   _reference_pdb_file self = reference_pdb_file ∧
   _openmm_selection self = openmm_selection ∧
   _mda_selection self = mda_selection ∧ _threshold self = threshold ∧
   _frames_per_h5 self = frames_per_h5 ∧ _contact_map self = contact_map ∧
   _point_cloud self = point_cloud ∧ _fraction_of_contacts self = foc ∧
   _num_frames self = 0) ∧
  (∀ rf, reference_pdb_file = Some rf →
     ∃ atoms,
       Universe_select_atoms rf mda_selection = inr atoms ∧
       _reference_positions self = Some (positions_copy atoms) ∧
       (foc = true →
        _reference_contact_map self
        = Some (contact_matrix (positions_copy atoms) threshold))) ∧
  (reference_pdb_file = None → _reference_positions self = None) ∧
  (foc = false → _reference_contact_map self = None) ∧
  (∀ wf, wrap_pdb_file = Some wf →
     ∃ atoms,
       Universe_select_atoms wf mda_selection = inr atoms ∧
       wrap self = Some atoms) ∧
  (wrap_pdb_file = None → wrap self = None) ∧
  (contact_map = false → _rows self = None ∧ _cols self = None) ∧
  (reference_pdb_file = None → _rmsd self = None) ∧
  (foc = false → _fraction_of_contacts_data self = None) ∧
  (point_cloud = false → _point_cloud_data self = None).
Proof.
  intros Hinit.
  destruct foc, contact_map, point_cloud, reference_pdb_file as [rf|],
    wrap_pdb_file as [wf|]; try discriminate Hinit.
  all: init_cases Hinit.
  all: injection Hinit as <-.
  all: split; [repeat split; reflexivity|].
  all: repeat split; try reflexivity; try discriminate.
  all: try (intros ? [= <-]; eexists; split; [eassumption|];
            first [reflexivity | split; [reflexivity|];
                   first [discriminate | intros _; reflexivity]]).
Qed.

(** X9.  A structure file that fails to load makes the constructor raise
    the loader's error: the error of the reference file whatever the wrap
    file, and the error of the wrap file when the reference file loads or
    none is needed. *)
Theorem construction_propagates_load_errors
    file reportInterval frames_per_h5 openmm_selection mda_selection threshold
    point_cloud e :
  (∀ rf wrap_pdb_file contact_map foc,
     Universe_select_atoms rf mda_selection = inl e →
     __init__ file reportInterval frames_per_h5 wrap_pdb_file (Some rf)
       openmm_selection mda_selection threshold contact_map point_cloud foc
     = inl e) ∧
  (∀ rf wf atoms contact_map foc,
     Universe_select_atoms rf mda_selection = inr atoms →
     Universe_select_atoms wf mda_selection = inl e →
     __init__ file reportInterval frames_per_h5 (Some wf) (Some rf)
       openmm_selection mda_selection threshold contact_map point_cloud foc
     = inl e) ∧
  (∀ wf,
     Universe_select_atoms wf mda_selection = inl e →
     __init__ file reportInterval frames_per_h5 (Some wf) None
       openmm_selection mda_selection threshold false point_cloud false
     = inl e).
Proof.
  split; [|split].
  - intros rf [wf|] contact_map foc Hrf;
      destruct foc, contact_map, point_cloud; init_run; reflexivity.
  - intros rf wf atoms contact_map foc Hrf Hwf.
    destruct foc, contact_map, point_cloud; init_run; reflexivity.
  - intros wf Hwf. destruct point_cloud; init_run; reflexivity.
Qed.

End extra_construction.

(** ** The configuration, and the errors of a run *)

Section config.
Context `{MDLibs}.
Implicit Type self : OfflineReporter.

Lemma kc_ret {A} (x : A) : keeps_config (mret x).
Proof. intros w. apply same_config_refl. Qed.

Lemma kc_raise {A} e : keeps_config (raise (A := A) e).
Proof. intros w. apply same_config_refl. Qed.

Lemma kc_lift_exc {A} (r : Exc A) : keeps_config (lift_exc r).
Proof. intros w. apply same_config_refl. Qed.

Lemma kc_get_self : keeps_config get_self.
Proof. intros w. apply same_config_refl. Qed.

Lemma kc_getattr {A} a (o : option A) : keeps_config (getattr a o).
Proof. destruct o; [apply kc_ret|apply kc_raise]. Qed.

Lemma kc_bind_at {A B} (m : M A) (f : A → M B) w :
  same_config (reporter w) (reporter (m w).1) →
  (∀ x, keeps_config (f x)) →
  same_config (reporter w) (reporter ((m ≫= f) w).1).
Proof.
  intros Hm Hf. unfold mbind, M_bind.
  destruct (m w) as [w1 [e|x]]; [done|].
  eapply same_config_trans; [exact Hm|apply Hf].
Qed.

Lemma kc_bind {A B} (m : M A) (f : A → M B) :
  keeps_config m → (∀ x, keeps_config (f x)) → keeps_config (m ≫= f).
Proof. intros Hm Hf w. by apply kc_bind_at. Qed.

Lemma kc_when b (m : M unit) : keeps_config m → keeps_config (when b m).
Proof. destruct b; [done|]. intros _. apply kc_ret. Qed.

Lemma kc_modify_self g :
  (∀ s, same_config s (g s)) → keeps_config (modify_self g).
Proof. intros Hg [s files]. apply Hg. Qed.

Lemma kc_open io p : keeps_config (h5py_File_w io p).
Proof.
  intros w. unfold h5py_File_w. destruct (io OpOpen); apply same_config_refl.
Qed.

Lemma kc_create_dataset io op p ds : keeps_config (h5_create_dataset io op p ds).
Proof.
  intros w. unfold h5_create_dataset. destruct (io op); apply same_config_refl.
Qed.

Lemma kc_close io : keeps_config (h5_close io).
Proof. unfold h5_close. destruct (io OpClose); [apply kc_raise|apply kc_ret]. Qed.

(** A call of the wrap closure replaces the atom group of the closure that
    is there. *)
Lemma kc_collect_rmsd p : keeps_config (_collect_rmsd p).
Proof.
  unfold _collect_rmsd. intros w. rewrite bind_get_self.
  apply kc_bind_at.
  - destruct (wrap (reporter w)) as [atoms|] eqn:Hw.
    + apply same_config_set_wrap. by rewrite Hw.
    + apply same_config_refl.
  - intros q.
    repeat first
      [ apply kc_bind; [|intros ?]
      | apply kc_get_self | apply kc_getattr | apply kc_lift_exc
      | apply kc_raise
      | apply kc_modify_self; intros ?; split; reflexivity
      | match goal with
        | |- keeps_config (match ?x with _ => _ end) => destruct x
        end ].
Qed.

Lemma kc_report io simulation state : keeps_config (report io simulation state).
Proof.
  unfold report, flush, write_batch, write_contact_map, write_point_cloud,
    write_rmsd, write_fraction_of_contacts, _collect_contact_map,
    _collect_fraction_of_contacts, _collect_point_cloud.
  repeat first
    [ apply kc_collect_rmsd
    | apply kc_bind; [|intros ?]
    | apply kc_when
    | apply kc_get_self | apply kc_getattr | apply kc_lift_exc
    | apply kc_raise | apply kc_ret
    | apply kc_open | apply kc_create_dataset | apply kc_close
    | apply kc_modify_self; intros ?;
      first [apply same_config_init_batch | split; reflexivity]
    | match goal with
      | |- keeps_config (match ?x with _ => _ end) => destruct x
      end ].
Qed.

Lemma kc_run calls : keeps_config (run calls).
Proof.
  induction calls as [|c calls IH]; [apply kc_ret|].
  change (run (c :: calls))
    with (report (call_io c) (call_simulation c) (call_state c)
          ≫= λ _, run calls).
  apply kc_bind; [apply kc_report|done].
Qed.

(** X16.  No run of calls, whatever the state it starts from and however
    it ends, changes the configuration of the reporter: the file index and
    base name, the interval, the file names, the selections, the threshold,
    the batch size, the feature flags and the reference positions and
    contact map are as before, and a wrap closure is there after the run
    exactly when one was there before.  The atom group that the closure
    captured is no part of the configuration: every RMSD collection
    overwrites it. *)
Theorem configuration_is_never_changed calls self files :
  same_config self
    (reporter (run calls {| reporter := self; fs := files |}).1).
Proof. apply (kc_run calls {| reporter := self; fs := files |}). Qed.

Lemma run_error calls : ∀ self files k w e,
  batch_inv self k →
  run calls {| reporter := self; fs := files |} = (w, inl e) →
  (∃ c, c ∈ calls ∧
        select_positions self (call_simulation c) (call_state c) = inl e) ∨
  (∃ c op, c ∈ calls ∧ call_io c op = true ∧ e = OSError op) ∨
  (_point_cloud self = true ∧ ∃ msg, e = ValueError msg) ∨
  (∃ le, e = exn_of_lib le ∧ rmsd_raises self calls le).
Proof.
  induction calls as [|c calls IH]; intros self files k w e Hinv Hrun;
    [done|].
  rewrite run_cons in Hrun. unfold mbind, M_bind in Hrun.
  pose proof (report_spec self files (call_io c) (call_simulation c)
                (call_state c) k Hinv) as Hout.
  destruct (report _ _ _ _) as [w1 [e1|[]]] eqn:Hrep; simpl in Hout.
  - injection Hrun as <- <-.
    inversion Hout as [e' He | p e' Hp He | | p w' r' Hp Herr Heq Hfl]; subst.
    + left. exists c. split; [by left|done].
    + do 3 right. exists e'. split; [done|].
      exists c, self, p. split; [by left|].
      split; [apply same_config_refl|done].
    + pose proof (same_config_collect self p) as Hcfg.
      pose proof (collect_inv self p k Hinv Herr) as Hinv1.
      inversion Hfl as [ | op' ? Hop _ _ _ | op' a ? Hop _ _ _ _ _
                         | e' ? Hpc Ht ]; subst.
      * right. left. exists c, op'. split; [by left|done].
      * right. left. exists c, op'. split; [by left|done].
      * right. right. left.
        split; [by rewrite <- (cfg_point_cloud _ _ Hcfg)|].
        by eapply transposition_error.
  - destruct w1 as [s1 f1].
    destruct (report_keeps_inv _ _ _ _ _ _ _ Hinv Hrep) as [Hinv1 Hcfg1].
    simpl in Hinv1, Hcfg1.
    destruct (descriptors_same_config _ _ Hcfg1) as (_ & _ & _ & Hsame).
    destruct (IH _ _ _ _ _ Hinv1 Hrun)
      as [(c' & Hin & Hsel) | [(c' & op & Hin & Hop & ->)
          | [[Hpc Hmsg] | (le & -> & c' & s & p & Hin & Hcfg & Hp & Herr)]]].
    + left. exists c'. split; [by right|]. by rewrite <- Hsame.
    + right. left. exists c', op. split; [by right|done].
    + right. right. left.
      split; [|done]. by rewrite <- (cfg_point_cloud _ _ Hcfg1).
    + do 3 right. exists le. split; [done|].
      exists c', s, p. split; [by right|].
      split; [by eapply same_config_trans|]. split; [|done].
      by rewrite <- Hsame.
Qed.

(** X15.  The first exception of a run of calls on a constructed reporter
    is the [IndexError] of a selection, the [OSError] of a container
    operation that failed in one of the calls, with the point cloud on the
    [ValueError] of the transposition, or the exception that the wrap
    closure or [rms.rmsd] raised for the frame of one of the calls.  So when
    these routines return for the frames of the run, the exception is never
    an [AttributeError] or a [TypeError]: no call reads a buffer that was
    not created. *)
Theorem first_error_of_a_run
    file reportInterval frames_per_h5 wrap_pdb_file reference_pdb_file
    openmm_selection mda_selection threshold contact_map point_cloud foc
    self files calls w e :
  __init__ file reportInterval frames_per_h5 wrap_pdb_file reference_pdb_file
    openmm_selection mda_selection threshold contact_map point_cloud foc
  = inr self →
  run calls {| reporter := self; fs := files |} = (w, inl e) →
  ((e = IndexError ∧
    ∃ c, c ∈ calls ∧
         select_positions self (call_simulation c) (call_state c)
         = inl IndexError) ∨
   (∃ c op, c ∈ calls ∧ call_io c op = true ∧ e = OSError op) ∨
   (point_cloud = true ∧ ∃ msg, e = ValueError msg) ∨
   (∃ le, e = exn_of_lib le ∧ rmsd_raises self calls le)) ∧
  ((∀ le, ¬ rmsd_raises self calls le) →
   e ≠ TypeError ∧ ∀ attr, e ≠ AttributeError attr).
Proof.
  intros Hinit Hrun.
  destruct (init_inv _ _ _ _ _ _ _ _ _ _ _ _ Hinit)
    as (Hinv & _ & _ & _ & _ & _ & Hpc & _).
  assert ((e = IndexError ∧
    ∃ c, c ∈ calls ∧
         select_positions self (call_simulation c) (call_state c)
         = inl IndexError) ∨
   (∃ c op, c ∈ calls ∧ call_io c op = true ∧ e = OSError op) ∨
   (point_cloud = true ∧ ∃ msg, e = ValueError msg) ∨
   (∃ le, e = exn_of_lib le ∧ rmsd_raises self calls le)) as Hcases.
  { destruct (run_error calls self files 0%nat w e Hinv Hrun)
      as [(c & Hin & Hsel) | [Hio | [[Hp Hmsg] | Hlib]]].
    - left. pose proof (select_positions_error _ _ _ _ Hsel) as ->. eauto.
    - right. by left.
    - right. right. left. split; [congruence|done].
    - by do 3 right. }
  split; [exact Hcases|]. intros Hret.
  destruct Hcases as [[-> _] | [(c & op & _ & _ & ->)
                      | [(_ & msg & ->) | (le & _ & Hle)]]];
    [done..|].
  by destruct (Hret le).
Qed.

End config.

(** ** The properties at concrete inputs *)

Lemma ex_reporter_one_reachable :
  reachable {| reporter := ex_reporter_one; fs := ∅ |}.
Proof.
  exists "out", 10, 1, None, (Some "ref.pdb"), ["CA"], "protein and name CA",
    8, true, true, true, ex_reporter_one, ∅, [].
  split; reflexivity.
Qed.

Lemma ex_reporter_all_reachable :
  reachable {| reporter := ex_reporter_all; fs := ∅ |}.
Proof.
  exists "out", 10, 2, None, (Some "ref.pdb"), ["CA"], "protein and name CA",
    8, true, true, true, ex_reporter_all, ∅, [].
  split; reflexivity.
Qed.

Lemma ex_reporter_wrap_reachable :
  reachable {| reporter := ex_reporter_wrap; fs := ∅ |}.
Proof.
  exists "out", 10, 2, (Some "wrap.pdb"), (Some "ref.pdb"), ["CA"],
    "protein and name CA", 8, false, false, false, ex_reporter_wrap, ∅, [].
  split; reflexivity.
Qed.

Lemma fixed_topology_batch_is_written_witness :
  ∃ frames m,
    Forall2 (λ c p, select_positions ex_reporter_all (call_simulation c)
                      (call_state c) = inr p)
      [call_at no_failure 1; call_at no_failure 2] frames ∧
    Forall (λ p, length p = m) frames ∧
    (rmsd_routines_return ex_reporter_all frames →
     run [call_at no_failure 1; call_at no_failure 2]
       {| reporter := ex_reporter_all; fs := ∅ |} =
     ({| reporter := next_batch ex_reporter_all frames;
         fs := <["out" +:+ ".h5" := full_batch ex_reporter_all frames]> ∅ |},
      inr ())).
Proof.
  apply (fixed_topology_batch_is_written (H := libs) "out" 10 2 None
           (Some "ref.pdb") ["CA"] "protein and name CA" 8 true true true
           ex_reporter_all ∅ [call_at no_failure 1; call_at no_failure 2]
           (topology_atoms (simulation 0))).
  - reflexivity.
  - lia.
  - reflexivity.
  - repeat constructor.
  - repeat constructor.
  - simpl. repeat constructor.
Defined.

Lemma failed_flush_is_never_retried_witness :
  let w := {| reporter := ex_reporter_one; fs := ∅ |} in
  let result := report (fails_at OpWriteRmsd) (simulation 0) (state 1) w in
  _num_frames (reporter w) + 1 = _frames_per_h5 (reporter w) ∧
  _num_frames (reporter result.1) = _frames_per_h5 (reporter w) ∧
  ∀ calls,
    let later := (attempts calls result.1).1 in
    fs later = fs result.1 ∧
    _frames_per_h5 (reporter w) ≤ _num_frames (reporter later).
Proof.
  apply (failed_flush_is_never_retried (H := libs)
           {| reporter := ex_reporter_one; fs := ∅ |}
           (fails_at OpWriteRmsd) (simulation 0) (state 1) OpWriteRmsd
           ex_reporter_one_reachable).
  vm_compute. reflexivity.
Defined.

Lemma late_flush_failure_disables_reporter_witness :
  let failed := report (fails_at OpWritePointCloud) (simulation 0) (state 1)
                  {| reporter := ex_reporter_one; fs := ∅ |} in
  let later := attempts [call_at no_failure 2; call_at no_failure 3]
                 failed.1 in
  later.2 = replicate 2 (inl (AttributeError "append")) ∧
  fs later.1 = fs failed.1 ∧
  _num_frames (reporter later.1) = _num_frames (reporter failed.1) ∧
  (∃ a, _point_cloud_data (reporter failed.1) = Some (PcArray a)) ∧
  _point_cloud_data (reporter later.1)
  = _point_cloud_data (reporter failed.1).
Proof.
  apply (late_flush_failure_disables_reporter (H := libs)
           {| reporter := ex_reporter_one; fs := ∅ |}
           (fails_at OpWritePointCloud) (simulation 0) (state 1)
           OpWritePointCloud [call_at no_failure 2; call_at no_failure 3]
           ex_reporter_one_reachable).
  - reflexivity.
  - vm_compute. reflexivity.
  - reflexivity.
  - constructor; [eexists; reflexivity|].
    constructor; [eexists; reflexivity|]. constructor.
Defined.

Lemma constructed_reporter_fields_witness :
  (_file_idx ex_reporter_all = 0 ∧ _base_name ex_reporter_all = "out" ∧
   _report_interval ex_reporter_all = 10 ∧
   _wrap_pdb_file ex_reporter_all = None ∧
   _reference_pdb_file ex_reporter_all = Some "ref.pdb" ∧
   _openmm_selection ex_reporter_all = ["CA"] ∧
   _mda_selection ex_reporter_all = "protein and name CA" ∧
   _threshold ex_reporter_all = 8 ∧
   _frames_per_h5 ex_reporter_all = 2 ∧ _contact_map ex_reporter_all = true ∧
   _point_cloud ex_reporter_all = true ∧
   _fraction_of_contacts ex_reporter_all = true ∧
   _num_frames ex_reporter_all = 0) ∧
  (∀ rf, Some "ref.pdb" = Some rf →
     ∃ atoms,
       Universe_select_atoms rf "protein and name CA" = inr atoms ∧
       _reference_positions ex_reporter_all = Some (positions_copy atoms) ∧
       (true = true →
        _reference_contact_map ex_reporter_all
        = Some (contact_matrix (positions_copy atoms) 8))) ∧
  (Some "ref.pdb" = None → _reference_positions ex_reporter_all = None) ∧
  (true = false → _reference_contact_map ex_reporter_all = None) ∧
  (∀ wf : string, None = Some wf →
     ∃ atoms,
       Universe_select_atoms wf "protein and name CA" = inr atoms ∧
       wrap ex_reporter_all = Some atoms) ∧
  (@None string = None → wrap ex_reporter_all = None) ∧
  (true = false → _rows ex_reporter_all = None ∧ _cols ex_reporter_all = None) ∧
  (Some "ref.pdb" = None → _rmsd ex_reporter_all = None) ∧
  (true = false → _fraction_of_contacts_data ex_reporter_all = None) ∧
  (true = false → _point_cloud_data ex_reporter_all = None).
Proof.
  apply (constructed_reporter_fields (H := libs) "out" 10 2 None
           (Some "ref.pdb") ["CA"] "protein and name CA" 8 true true true
           ex_reporter_all).
  reflexivity.
Defined.

Lemma file_holds_last_complete_batch_witness :
  run (concat ([([call_at no_failure 1; call_at no_failure 2],
                 [[(0, 0, 0); (1, 0, 0)]; [(0, 0, 0); (2, 0, 0)]])].*1)
       ++ [call_at no_failure 3; call_at no_failure 4]
       ++ [call_at no_failure 5])
    {| reporter := ex_reporter_all; fs := ∅ |} =
  ({| reporter := foldl collect ex_reporter_all [[(0, 0, 0); (5, 0, 0)]];
      fs := <["out" +:+ ".h5" :=
                full_batch ex_reporter_all
                  [[(0, 0, 0); (3, 0, 0)]; [(0, 0, 0); (4, 0, 0)]]]> ∅ |},
   inr ()).
Proof.
  apply (file_holds_last_complete_batch (H := libs) "out" 10 2 None
           (Some "ref.pdb") ["CA"] "protein and name CA" 8 true true true
           ex_reporter_all ∅
           [([call_at no_failure 1; call_at no_failure 2],
             [[(0, 0, 0); (1, 0, 0)]; [(0, 0, 0); (2, 0, 0)]])]
           [call_at no_failure 3; call_at no_failure 4]
           [[(0, 0, 0); (3, 0, 0)]; [(0, 0, 0); (4, 0, 0)]]
           [call_at no_failure 5] [[(0, 0, 0); (5, 0, 0)]]).
  - reflexivity.
  - lia.
  - repeat split; try (repeat constructor); exists 2%nat; repeat constructor.
  - simpl. lia.
  - repeat constructor.
  - repeat constructor.
Defined.

Lemma collecting_call_appends_witness :
  let result := report no_failure (simulation 0) (state 1)
                  {| reporter := ex_reporter_wrap; fs := ∅ |} in
  let after := reporter result.1 in
  _num_frames after = 1 ∧
  _rmsd after = Some [0] ∧ wrap after = Some [(0, 0, 0); (1, 0, 0)].
Proof.
  pose proof (collecting_call_appends (H := libs) ex_reporter_wrap ∅
                no_failure (simulation 0) (state 1) [(0, 0, 0); (1, 0, 0)]
                ex_reporter_wrap_reachable eq_refl) as Happ.
  cbv zeta in Happ.
  destruct Happ as (_ & Hnum & _ & _ & _ & Hrmsd & _);
    [simpl; lia|reflexivity|].
  destruct (Hrmsd [] [(0, 0, 0); (10, 0, 0)] eq_refl eq_refl)
    as (q & v & (atoms' & Hw & Hatoms) & Hv & Hbuf).
  cbv zeta. split; [exact Hnum|].
  injection Hw as <- <-. injection Hv as <-.
  split; [exact Hbuf|exact Hatoms].
Defined.

Lemma batch_without_features_writes_empty_file_witness :
  run [call_at no_failure 1] {| reporter := ex_reporter_none; fs := ∅ |} =
  ({| reporter := ex_reporter_none; fs := <["out" +:+ ".h5" := []]> ∅ |},
   inr ()).
Proof.
  apply (batch_without_features_writes_empty_file (H := libs) "out" 10 1 None
           ["CA"] "protein and name CA" 8 ex_reporter_none ∅
           [call_at no_failure 1]).
  - reflexivity.
  - lia.
  - reflexivity.
  - repeat constructor.
  - constructor; [|constructor]. eexists. reflexivity.
Defined.

Lemma failed_flush_leaves_partial_file_witness :
  let before := collect ex_reporter_one [(0, 0, 0); (1, 0, 0)] in
  let result := report (fails_at OpWriteRmsd) (simulation 0) (state 1)
                  {| reporter := ex_reporter_one; fs := ∅ |} in
  (fails_at OpWriteRmsd OpOpen = true →
   result = ({| reporter := before; fs := ∅ |}, inl (OSError OpOpen))) ∧
  (fails_at OpWriteRmsd OpOpen = false →
   ∃ ds,
     fs result.1 = <[h5_path ex_reporter_one := ds]> ∅ ∧
     ds `prefix_of` batch_datasets before ∧
     (result.2 = inr () → ds = batch_datasets before)).
Proof.
  apply (failed_flush_leaves_partial_file (H := libs) ex_reporter_one ∅
           (fails_at OpWriteRmsd) (simulation 0) (state 1)
           [(0, 0, 0); (1, 0, 0)] ex_reporter_one_reachable).
  - reflexivity.
  - reflexivity.
  - reflexivity.
Defined.

Lemma rmsd_failure_leaves_buffers_out_of_step_witness :
  let result := report no_failure simulation3 (state 1)
                  {| reporter := ex_reporter_all; fs := ∅ |} in
  let after := reporter result.1 in
  result.2 = inl (ValueError "a and b must have same shape") ∧
  fs result.1 = ∅ ∧ _num_frames after = 0 ∧ _rmsd after = Some [] ∧
  _point_cloud_data after
  = Some (PcList [[(0, 0, 0); (5, 5, 5); (1, 0, 0)]]).
Proof.
  pose proof (rmsd_failure_leaves_buffers_out_of_step (H := libs)
                ex_reporter_all ∅ no_failure simulation3 (state 1)
                [(0, 0, 0); (5, 5, 5); (1, 0, 0)]
                (LibValueError "a and b must have same shape")
                ex_reporter_all_reachable eq_refl) as Hfail.
  cbv zeta in Hfail.
  destruct Hfail as (Hres & Hfs & Hnum & Hrmsd & _ & _ & _ & Hpc);
    [discriminate|reflexivity|].
  destruct (Hpc eq_refl) as (frames & Hframes & _ & Hafter).
  injection Hframes as <-.
  cbv zeta. repeat split; assumption.
Defined.

Lemma first_error_of_a_run_witness :
  let calls := [call_at (fails_at OpWriteRmsd) 1] in
  (OSError OpWriteRmsd = IndexError ∧
   ∃ c, c ∈ calls ∧
        select_positions ex_reporter_one (call_simulation c) (call_state c)
        = inl IndexError) ∨
  (∃ c op, c ∈ calls ∧ call_io c op = true ∧
           OSError OpWriteRmsd = OSError op) ∨
  (true = true ∧ ∃ msg, OSError OpWriteRmsd = ValueError msg) ∨
  (∃ le, OSError OpWriteRmsd = exn_of_lib le ∧
         rmsd_raises ex_reporter_one calls le).
Proof.
  refine (proj1
    (first_error_of_a_run (H := libs) "out" 10 1 None (Some "ref.pdb")
       ["CA"] "protein and name CA" 8 true true true ex_reporter_one ∅
       [call_at (fails_at OpWriteRmsd) 1]
       (run [call_at (fails_at OpWriteRmsd) 1]
          {| reporter := ex_reporter_one; fs := ∅ |}).1
       (OSError OpWriteRmsd) _ _)).
  - reflexivity.
  - vm_compute. reflexivity.
Defined.
